(** * Signal-to-order risk pipeline: a shallow embedding

    The TypeScript sources of the trading bot (signal validator, position
    sizer, risk manager, safety manager, execution engine, and the parts of
    the webhook server and of the trading engine that compute on their
    results) are transcribed here as Rocq functions, and the properties
    stated for them are settled against these functions.

    Conventions of the embedding.
    - A JavaScript [number] is modelled twice.  Where a property rests on
      the comparisons, on the order of the checks and of the operations or
      on the state, a number is an exact rational ([Q]) with the boolean
      comparisons of [QArith]: rounding, [NaN] and the infinities are
      outside that model (but for [maxDrawdown] in [RiskMonitor], whose
      division by the peak balance is modelled with its infinite results),
      and no property stated there depends on how a result is rounded.
      Where a property does depend on it, the function is transcribed
      again in [Binary64], over the binary64 numbers of the language, and
      the property is stated there.
    - A mutable object is a record, and a method is a function from the
      old state to a result and the new state.
    - [Date.now()] is read once per call and passed as [now] (milliseconds).
    - Calls to the logger have no counterpart.
    - What the JavaScript runtime supplies ([Number.prototype.toString],
      [parseFloat], the local calendar of [Date], [Math.pow]) is the interface
      [JsRuntime]. *)

From Stdlib Require Import Floats QArith Qminmax Qabs ZArith Lqa Lia.
From Stdlib Require Import DecimalString.
From stdpp Require Import base strings list gmap.

Local Open Scope Q_scope.

(** ** JavaScript numbers *)

Definition num_lt (a b : Q) : bool := negb (Qle_bool b a).
Definition num_gt (a b : Q) : bool := num_lt b a.
Definition num_le (a b : Q) : bool := Qle_bool a b.
Definition num_ge (a b : Q) : bool := Qle_bool b a.

(** Truthiness of a number: every number except zero. *)
Definition truthy (a : Q) : bool := negb (Qeq_bool a 0).

(** Truthiness of an optional number ([undefined] is falsy). *)
Definition optTruthy (a : option Q) : bool :=
  match a with
  | Some x => truthy x
  | None => false
  end.

(** [a || b] on an optional number [a]. *)
Definition orDefault (a : option Q) (b : Q) : Q :=
  match a with
  | Some x => if truthy x then x else b
  | None => b
  end.

Definition ofNat (n : nat) : Q := inject_Z (Z.of_nat n).

(** What the host supplies. *)
Class JsRuntime := {
  (** [String(x)] for a number [x], as used by template literals *)
  numToString : Q -> string;
  (** [(getFullYear(), getMonth(), getDate())] of [new Date(t)] *)
  localDate : Z -> Z * Z * Z;
  (** [Math.pow] *)
  mathPow : Q -> Q -> Q;
  (** [parseFloat] on a string that denotes a number *)
  parseFloat : string -> Q
}.

(** ** Shared types (types/signals.ts, types/bingx.ts, types/config.ts) *)

Inductive SignalAction := BUY | SELL | CLOSE.

Module Strength.
Inductive t := STRONG | MEDIUM | WEAK.
End Strength.

Inductive RiskLevel := LOW | MEDIUM | HIGH | CRITICAL.

Inductive PositionSide := LONG | SHORT.

(** The fields of [ProcessedSignal] read by the pipeline. *)
Record ProcessedSignal := {
  sig_symbol : string;
  sig_action : SignalAction;
  sig_strength : Strength.t;
  sig_price : Q;
  sig_confidence : Q
}.

(** The fields of [BingXPosition] read by the pipeline; [positionAmt] and
    [entryPrice] are the results of [parseFloat] on the exchange's strings. *)
Record BingXPosition := {
  pos_symbol : string;
  pos_positionAmt : Q;
  pos_entryPrice : Q
}.

Record RiskManagementConfig := {
  stopLossPercent : Q;
  takeProfitPercent : Q;
  trailingStopPercent : Q;
  useVolatilityStops : bool;
  maxRiskPerTrade : Q;
  riskRewardRatio : Q
}.

Record TradingConfig := {
  positionSizePercent : Q;
  maxDailyLoss : Q;
  maxOpenPositions : Q;
  leverageMultiplier : Q;
  paperTrading : bool
}.

(** ** trading/risk-manager.ts *)

Module RiskManager.

Record RiskCheckResult := {
  shouldTrade : bool;
  riskLevel : RiskLevel;
  warnings : list string;
  maxPositionSize : Q;
  stopLossPrice : Q;
  takeProfitPrice : Q;
  trailingStopPrice : option Q
}.

(** The fields of the class that [checkTradeRisk] reads or writes. *)
Record State := {
  config : RiskManagementConfig;
  dailyPnL : Q;
  maxDrawdown : Q;
  peakBalance : Q
}.

Definition setPeakBalance (st : State) (b : Q) : State :=
  {| config := config st; dailyPnL := dailyPnL st;
     maxDrawdown := maxDrawdown st; peakBalance := b |}.

(** [calculateDrawdown]: the division is by a [peakBalance] that is not 0. *)
Definition calculateDrawdown (st : State) (currentBalance : Q) : Q * State :=
  if Qeq_bool (peakBalance st) 0 then (0, setPeakBalance st currentBalance)
  else if num_gt currentBalance (peakBalance st)
       then (0, setPeakBalance st currentBalance)
       else (((peakBalance st - currentBalance) / peakBalance st) * 100, st).

Definition riskMultipliers (l : RiskLevel) : Q :=
  match l with
  | LOW => 1
  | MEDIUM => 7 # 10
  | HIGH => 4 # 10
  | CRITICAL => 0
  end.

(** [calculateRiskAdjustedPositionSize]; with [price = 0] JavaScript
    yields an infinity or [NaN] where [Q] yields 0. *)
Definition calculateRiskAdjustedPositionSize
    (accountBalance price : Q) (l : RiskLevel) : Q :=
  let baseSize := accountBalance * (2 # 100) in
  (baseSize * riskMultipliers l) / price.

Definition calculateStopLevels (cfg : RiskManagementConfig)
    (signal : ProcessedSignal) (currentPrice : Q) (volatility : option Q)
    : Q * Q :=
  let '(stopLossDistance, takeProfitDistance) :=
    match volatility with
    | Some v =>
        if truthy v && useVolatilityStops cfg then
          let d := (v / 100) * currentPrice * 2 in
          (d, d * riskRewardRatio cfg)
        else
          (currentPrice * (stopLossPercent cfg / 100),
           currentPrice * (takeProfitPercent cfg / 100))
    | None =>
        (currentPrice * (stopLossPercent cfg / 100),
         currentPrice * (takeProfitPercent cfg / 100))
    end in
  match sig_action signal with
  | BUY => (currentPrice - stopLossDistance, currentPrice + takeProfitDistance)
  | _ => (currentPrice + stopLossDistance, currentPrice - takeProfitDistance)
  end.

(** [calculateTrailingStop]; of the four strings its [side] parameter
    admits, [checkTradeRisk] passes ['LONG'] or ['SHORT']. *)
Definition calculateTrailingStop (currentPrice volatility : Q)
    (side : PositionSide) : Q :=
  let trailingDistance := (volatility / 100) * currentPrice * (15 # 10) in
  match side with
  | LONG => currentPrice - trailingDistance
  | SHORT => currentPrice + trailingDistance
  end.

(** The three locals that the checks of [checkTradeRisk] assign. *)
Record Verdict := {
  v_shouldTrade : bool;
  v_riskLevel : RiskLevel;
  v_warnings : list string
}.

Definition checkTradeRisk (st : State) (signal : ProcessedSignal)
    (currentPrice accountBalance : Q) (openPositions : list BingXPosition)
    (volatility : option Q) : RiskCheckResult * State :=
  let cfg := config st in
  let v := {| v_shouldTrade := true; v_riskLevel := LOW; v_warnings := [] |} in
  (* Check daily loss limit *)
  let v :=
    if num_lt (dailyPnL st) (- (accountBalance * maxRiskPerTrade cfg / 100))
    then {| v_shouldTrade := false; v_riskLevel := CRITICAL;
            v_warnings := v_warnings v ++ ["Daily loss limit reached"%string] |}
    else v in
  (* Check maximum drawdown *)
  let '(currentDrawdown, st) := calculateDrawdown st accountBalance in
  let v :=
    if num_gt currentDrawdown 10
    then {| v_shouldTrade := false; v_riskLevel := CRITICAL;
            v_warnings := v_warnings v ++ ["Maximum drawdown exceeded"%string] |}
    else v in
  (* Check position concentration *)
  let symbolPositions :=
    filter (fun p => pos_symbol p = sig_symbol signal) openPositions in
  let v :=
    if bool_decide (0 < length symbolPositions)%nat
    then {| v_shouldTrade := v_shouldTrade v; v_riskLevel := HIGH;
            v_warnings := v_warnings v
                            ++ ["Position already exists for this symbol"%string] |}
    else v in
  (* Check volatility *)
  let v :=
    if optTruthy volatility
       && match volatility with Some x => num_gt x 50 | None => false end
    then {| v_shouldTrade := v_shouldTrade v; v_riskLevel := HIGH;
            v_warnings := v_warnings v ++ ["High volatility detected"%string] |}
    else v in
  let maxPositionSize :=
    calculateRiskAdjustedPositionSize accountBalance currentPrice (v_riskLevel v) in
  let '(stopLossPrice, takeProfitPrice) :=
    calculateStopLevels cfg signal currentPrice volatility in
  let trailingStopPrice :=
    match volatility with
    | Some x =>
        if useVolatilityStops cfg && truthy x then
          let side := match sig_action signal with BUY => LONG | _ => SHORT end in
          Some (calculateTrailingStop currentPrice x side)
        else None
    | None => None
    end in
  ({| shouldTrade := v_shouldTrade v;
      riskLevel := v_riskLevel v;
      warnings := v_warnings v;
      maxPositionSize := maxPositionSize;
      stopLossPrice := stopLossPrice;
      takeProfitPrice := takeProfitPrice;
      trailingStopPrice := trailingStopPrice |}, st).

End RiskManager.

(** The fields of [RiskMetrics] (risk-manager.ts) read by the safety manager. *)
Record RiskMetrics := {
  rm_currentDrawdown : Q;
  rm_dailyPnL : Q;
  rm_maxDrawdown : Q;
  rm_volatility : Q
}.

(** [BingXAccountInfo]: [availableBalance] is the result of [parseFloat]. *)
Record BingXAccountInfo := {
  availableBalance : Q
}.

(** The fields of [TradeRecord] (database/trading-db.ts) read here; [pnl]
    is optional in the source. *)
Record TradeRecord := {
  tr_id : string;
  tr_symbol : string;
  tr_pnl : option Q
}.

(** ** trading/safety-manager.ts *)

Module SafetyManager.

Record SafetyThresholds := {
  maxDailyLoss : Q;
  maxDrawdown : Q;
  maxOpenPositions : Q;
  maxPositionSize : Q;
  maxLeverage : Q;
  minBalance : Q;
  maxConsecutiveLosses : Q;
  maxVolatility : Q;
  emergencyStopLoss : Q
}.

Record SafetyStatus := {
  isTradingEnabled : bool;
  circuitBreakerActive : bool;
  emergencyStopActive : bool;
  warnings : list string;
  lastCheck : Z;
  riskLevel : RiskLevel
}.

Record CircuitBreakerState := {
  isActive : bool;
  triggerTime : Z;
  triggerReason : string;
  cooldownPeriod : Z;
  autoReset : bool
}.

Record Session := {
  startTime : Z;
  endTime : option Z;
  session_pnl : Q;
  session_trades : Q
}.

Record State := {
  thresholds : SafetyThresholds;
  circuitBreaker : CircuitBreakerState;
  emergencyStop : bool;
  consecutiveLosses : nat;
  dailyLoss : Q;
  lastResetTime : Z;
  tradingSessions : list Session
}.

Definition setCircuitBreaker (st : State) (cb : CircuitBreakerState) : State :=
  {| thresholds := thresholds st; circuitBreaker := cb;
     emergencyStop := emergencyStop st;
     consecutiveLosses := consecutiveLosses st; dailyLoss := dailyLoss st;
     lastResetTime := lastResetTime st; tradingSessions := tradingSessions st |}.

Definition setEmergencyStop (st : State) (b : bool) : State :=
  {| thresholds := thresholds st; circuitBreaker := circuitBreaker st;
     emergencyStop := b;
     consecutiveLosses := consecutiveLosses st; dailyLoss := dailyLoss st;
     lastResetTime := lastResetTime st; tradingSessions := tradingSessions st |}.

Definition setConsecutiveLosses (st : State) (n : nat) : State :=
  {| thresholds := thresholds st; circuitBreaker := circuitBreaker st;
     emergencyStop := emergencyStop st;
     consecutiveLosses := n; dailyLoss := dailyLoss st;
     lastResetTime := lastResetTime st; tradingSessions := tradingSessions st |}.

Definition setTradingSessions (st : State) (l : list Session) : State :=
  {| thresholds := thresholds st; circuitBreaker := circuitBreaker st;
     emergencyStop := emergencyStop st;
     consecutiveLosses := consecutiveLosses st; dailyLoss := dailyLoss st;
     lastResetTime := lastResetTime st; tradingSessions := l |}.

(** The constructor; [now] initialises [lastResetTime]. *)
Definition create (th : SafetyThresholds) (now : Z) : State :=
  {| thresholds := th;
     circuitBreaker := {| isActive := false; triggerTime := 0;
                          triggerReason := ""; cooldownPeriod := 30 * 60 * 1000;
                          autoReset := true |};
     emergencyStop := false;
     consecutiveLosses := 0;
     dailyLoss := 0;
     lastResetTime := now;
     tradingSessions := [] |}.

Definition triggerCircuitBreaker (now : Z) (reason : string) (st : State) : State :=
  setCircuitBreaker st
    {| isActive := true; triggerTime := now; triggerReason := reason;
       cooldownPeriod := 30 * 60 * 1000; autoReset := true |}.

Definition resetCircuitBreaker (st : State) : State :=
  let cb := circuitBreaker st in
  setCircuitBreaker st
    {| isActive := false; triggerTime := triggerTime cb;
       triggerReason := triggerReason cb;
       cooldownPeriod := cooldownPeriod cb; autoReset := autoReset cb |}.

Definition activateEmergencyStop (st : State) : State := setEmergencyStop st true.

Definition deactivateEmergencyStop (st : State) : State := setEmergencyStop st false.

Definition updateDailyLoss `{JsRuntime} (now : Z) (pnl : Q) (st : State) : State :=
  let accumulated := dailyLoss st + pnl in
  if bool_decide (localDate (lastResetTime st) = localDate now)
  then
    {| thresholds := thresholds st; circuitBreaker := circuitBreaker st;
       emergencyStop := emergencyStop st;
       consecutiveLosses := consecutiveLosses st; dailyLoss := accumulated;
       lastResetTime := lastResetTime st; tradingSessions := tradingSessions st |}
  else
    (* Reset daily loss at start of new day *)
    {| thresholds := thresholds st; circuitBreaker := circuitBreaker st;
       emergencyStop := emergencyStop st;
       consecutiveLosses := 0; dailyLoss := pnl;
       lastResetTime := now; tradingSessions := tradingSessions st |}.

Definition startTradingSession (now : Z) (st : State) : State :=
  setTradingSessions st
    (tradingSessions st
       ++ [{| startTime := now; endTime := None; session_pnl := 0;
              session_trades := 0 |}]).

Definition endTradingSession (now : Z) (pnl trades : Q) (st : State) : State :=
  match reverse (tradingSessions st) with
  | [] => st
  | cur :: before =>
      setTradingSessions st
        (reverse before
           ++ [{| startTime := startTime cur; endTime := Some now;
                  session_pnl := pnl; session_trades := trades |}])
  end.

(** [trade && trade.pnl && trade.pnl < 0] *)
Definition isLoss (t : TradeRecord) : bool :=
  match tr_pnl t with
  | Some p => truthy p && num_lt p 0
  | None => false
  end.

(** The loop of [updateConsecutiveLosses], on the trades from the most
    recent one backwards. *)
Fixpoint countLosses (newestFirst : list TradeRecord) : nat :=
  match newestFirst with
  | [] => 0
  | t :: older => if isLoss t then S (countLosses older) else 0
  end.

Definition updateConsecutiveLosses (recentTrades : list TradeRecord)
    (st : State) : State :=
  setConsecutiveLosses st (countLosses (reverse recentTrades)).

(** [currentLeverage > maxLeverage] where [currentLeverage] is
    [totalPositionValue / balance]: with a zero balance the quotient is
    [Infinity] (above every cap) for a positive value, and [NaN] or
    [-Infinity] (above none) otherwise. *)
Definition leverageExceeds (totalPositionValue balance cap : Q) : bool :=
  if Qeq_bool balance 0 then num_gt totalPositionValue 0
  else num_gt (totalPositionValue / balance) cap.

(** The three locals that the checks of [checkSafety] assign. *)
Record Verdict := {
  v_isTradingEnabled : bool;
  v_riskLevel : RiskLevel;
  v_warnings : list string
}.

Definition flag (v : Verdict) (enabled : bool) (l : RiskLevel) (w : string)
    : Verdict :=
  {| v_isTradingEnabled := enabled; v_riskLevel := l;
     v_warnings := v_warnings v ++ [w] |}.

Definition checkSafety `{JsRuntime} (now : Z) (st : State)
    (accountInfo : BingXAccountInfo) (openPositions : list BingXPosition)
    (riskMetrics : RiskMetrics) (recentTrades : list TradeRecord)
    : SafetyStatus * State :=
  (* Check emergency stop *)
  if emergencyStop st then
    ({| isTradingEnabled := false; circuitBreakerActive := false;
        emergencyStopActive := true;
        warnings := ["Emergency stop is active"%string];
        lastCheck := now; riskLevel := CRITICAL |}, st)
  else
  (* Check circuit breaker *)
  let cb := circuitBreaker st in
  if isActive cb && (now - triggerTime cb <? cooldownPeriod cb)%Z then
    ({| isTradingEnabled := false; circuitBreakerActive := true;
        emergencyStopActive := false;
        warnings := [("Circuit breaker active: " +:+ triggerReason cb)%string];
        lastCheck := now; riskLevel := HIGH |}, st)
  else
  let st := if isActive cb && autoReset cb then resetCircuitBreaker st else st in
  let th := thresholds st in
  let balance := availableBalance accountInfo in
  let v := {| v_isTradingEnabled := true; v_riskLevel := LOW; v_warnings := [] |} in
  (* Check minimum balance *)
  let v :=
    if num_lt balance (minBalance th)
    then flag v false CRITICAL
           ("Balance below minimum threshold: " +:+ numToString balance)
    else v in
  (* Check daily loss limit *)
  let '(v, st) :=
    if num_lt (dailyLoss st) (- maxDailyLoss th)
    then (flag v false CRITICAL
            ("Daily loss limit exceeded: " +:+ numToString (dailyLoss st)),
          triggerCircuitBreaker now "Daily loss limit exceeded" st)
    else (v, st) in
  (* Check maximum drawdown *)
  let '(v, st) :=
    if num_gt (rm_maxDrawdown riskMetrics) (maxDrawdown th)
    then (flag v false CRITICAL
            ("Maximum drawdown exceeded: "
               +:+ numToString (rm_maxDrawdown riskMetrics) +:+ "%"),
          triggerCircuitBreaker now "Maximum drawdown exceeded" st)
    else (v, st) in
  (* Check open positions limit *)
  let v :=
    if num_ge (ofNat (length openPositions)) (maxOpenPositions th)
    then flag v (v_isTradingEnabled v) HIGH
           ("Maximum open positions reached: "
              +:+ numToString (ofNat (length openPositions)))
    else v in
  (* Check position size limits *)
  let totalPositionValue :=
    fold_left (fun sum pos => sum + pos_positionAmt pos * pos_entryPrice pos)
      openPositions 0 in
  let v :=
    if num_gt totalPositionValue (maxPositionSize th)
    then flag v (v_isTradingEnabled v) HIGH
           ("Maximum position size exceeded: " +:+ numToString totalPositionValue)
    else v in
  (* Check consecutive losses *)
  let '(v, st) :=
    if num_ge (ofNat (consecutiveLosses st)) (maxConsecutiveLosses th)
    then (flag v (v_isTradingEnabled v) HIGH
            ("Maximum consecutive losses reached: "
               +:+ numToString (ofNat (consecutiveLosses st))),
          triggerCircuitBreaker now "Maximum consecutive losses reached" st)
    else (v, st) in
  (* Check volatility *)
  let v :=
    if num_gt (rm_volatility riskMetrics) (maxVolatility th)
    then flag v (v_isTradingEnabled v) MEDIUM
           ("High volatility detected: "
              +:+ numToString (rm_volatility riskMetrics) +:+ "%")
    else v in
  (* Check leverage; with a zero balance the text reads Infinity *)
  let v :=
    if leverageExceeds totalPositionValue balance (maxLeverage th)
    then flag v (v_isTradingEnabled v) HIGH
           ("Maximum leverage exceeded: "
              +:+ numToString (totalPositionValue / balance) +:+ "x")
    else v in
  (* Update consecutive losses count *)
  let st := updateConsecutiveLosses recentTrades st in
  ({| isTradingEnabled := v_isTradingEnabled v;
      circuitBreakerActive := isActive (circuitBreaker st);
      emergencyStopActive := emergencyStop st;
      warnings := v_warnings v;
      lastCheck := now;
      riskLevel := v_riskLevel v |}, st).

(** [getCurrentRiskLevel], the level reported by [getSafetySummary]. *)
Definition getCurrentRiskLevel (st : State) : RiskLevel :=
  let th := thresholds st in
  if emergencyStop st || isActive (circuitBreaker st) then CRITICAL
  else if num_lt (dailyLoss st) (- (maxDailyLoss th * (8 # 10)))
          || num_ge (ofNat (consecutiveLosses st)) (maxConsecutiveLosses th)
  then HIGH
  else if num_lt (dailyLoss st) (- (maxDailyLoss th * (5 # 10)))
          || num_ge (ofNat (consecutiveLosses st))
               (maxConsecutiveLosses th * (5 # 10))
  then MEDIUM
  else LOW.

(** The calls that a client of the class can make on it. *)
Inductive Op :=
| CheckSafety (accountInfo : BingXAccountInfo)
    (openPositions : list BingXPosition) (riskMetrics : RiskMetrics)
    (recentTrades : list TradeRecord)
| TriggerCircuitBreaker (reason : string)
| ResetCircuitBreaker
| ActivateEmergencyStop
| DeactivateEmergencyStop
| UpdateDailyLoss (pnl : Q)
| StartTradingSession
| EndTradingSession (pnl trades : Q).

(** The state after one call made at time [now]. *)
Definition step `{JsRuntime} (st : State) (call : Z * Op) : State :=
  let '(now, op) := call in
  match op with
  | CheckSafety a p m t => snd (checkSafety now st a p m t)
  | TriggerCircuitBreaker reason => triggerCircuitBreaker now reason st
  | ResetCircuitBreaker => resetCircuitBreaker st
  | ActivateEmergencyStop => activateEmergencyStop st
  | DeactivateEmergencyStop => deactivateEmergencyStop st
  | UpdateDailyLoss pnl => updateDailyLoss now pnl st
  | StartTradingSession => startTradingSession now st
  | EndTradingSession pnl trades => endTradingSession now pnl trades st
  end.

Definition run `{JsRuntime} (st : State) (calls : list (Z * Op)) : State :=
  fold_left step calls st.

End SafetyManager.

(** ** trading/position-sizer.ts *)

Module PositionSizer.

Record PositionSizeRequest := {
  symbol : string;
  price : Q;
  confidence : Q;
  signalStrength : Strength.t;
  accountBalance : Q;
  currentPositions : Q;
  volatility : option Q;
  maxRiskPerTrade : option Q
}.

Record PositionSizeResult := {
  quantity : Q;
  notionalValue : Q;
  riskAmount : Q;
  riskPercentage : Q;
  leverage : Q;
  strategy : string;
  result_confidence : Q;
  warnings : list string
}.

Record Sized := {
  sized_quantity : Q;
  sized_strategy : string
}.

Section WithConfig.
Context `{JsRuntime}.
Variable config : TradingConfig.
Variable riskConfig : RiskManagementConfig.

Definition getSignalStrengthMultiplier (s : Strength.t) : Q :=
  match s with
  | Strength.STRONG => 12 # 10
  | Strength.MEDIUM => 1
  | Strength.WEAK => 7 # 10
  end.

Definition calculateFixedPercentage (request : PositionSizeRequest) : Q :=
  let basePercentage := positionSizePercent config / 100 in
  let adjustedPercentage :=
    basePercentage * getSignalStrengthMultiplier (signalStrength request) in
  (accountBalance request * adjustedPercentage) / price request.

Definition calculateKellyCriterion (request : PositionSizeRequest) : Q :=
  let winProbability := confidence request in
  let lossProbability := 1 - winProbability in
  let winLossRatio := 25 # 10 in
  let kellyFraction :=
    (winProbability * winLossRatio - lossProbability) / winLossRatio in
  let conservativeKelly := Qmax 0 (kellyFraction * (25 # 100)) in
  (accountBalance request * conservativeKelly) / price request.

Definition calculateVolatilityAdjusted (request : PositionSizeRequest) : Q :=
  match volatility request with
  | Some v =>
      if truthy v then
        let volatilityMultiplier := Qmax (1 # 10) (1 - v / 100) in
        calculateFixedPercentage request * volatilityMultiplier
      else 0
  | None => 0
  end.

Definition calculateConfidenceBased (request : PositionSizeRequest) : Q :=
  let confidenceMultiplier := mathPow (confidence request) (15 # 10) in
  calculateFixedPercentage request * confidenceMultiplier.

Record Weights := {
  w_fixedPercentage : Q;
  w_kellyCriterion : Q;
  w_volatilityAdjusted : Q;
  w_confidenceBased : Q
}.

(** [combineStrategies]; [x || 0] is [x] on a number. *)
Definition combineStrategies
    (fixedPercentage kellyCriterion volatilityAdjusted confidenceBased : Q)
    (conf : Q) : Sized :=
  let weights :=
    {| w_fixedPercentage := 3 # 10; w_kellyCriterion := 25 # 100;
       w_volatilityAdjusted := 25 # 100; w_confidenceBased := 2 # 10 |} in
  let weights :=
    if num_gt conf (8 # 10) then
      {| w_fixedPercentage := w_fixedPercentage weights - (1 # 10);
         w_kellyCriterion := w_kellyCriterion weights + (1 # 10);
         w_volatilityAdjusted := w_volatilityAdjusted weights - (1 # 10);
         w_confidenceBased := w_confidenceBased weights + (1 # 10) |}
    else if num_lt conf (5 # 10) then
      {| w_fixedPercentage := w_fixedPercentage weights + (1 # 10);
         w_kellyCriterion := w_kellyCriterion weights - (1 # 10);
         w_volatilityAdjusted := w_volatilityAdjusted weights + (1 # 10);
         w_confidenceBased := w_confidenceBased weights - (1 # 10) |}
    else weights in
  let weightedQuantity :=
    fixedPercentage * w_fixedPercentage weights
    + kellyCriterion * w_kellyCriterion weights
    + volatilityAdjusted * w_volatilityAdjusted weights
    + confidenceBased * w_confidenceBased weights in
  {| sized_quantity := weightedQuantity;
     sized_strategy := "COMBINED_STRATEGY" |}.

(** [maxRiskAmount] of [applyRiskConstraints]:
    [request.maxRiskPerTrade || accountBalance * stopLossPercent / 100]. *)
Definition maxRiskAmount (request : PositionSizeRequest) : Q :=
  orDefault (maxRiskPerTrade request)
    (accountBalance request * stopLossPercent riskConfig / 100).

Definition applyRiskConstraints (size : Sized) (request : PositionSizeRequest)
    : Sized :=
  let finalQuantity := sized_quantity size in
  (* Maximum risk per trade constraint *)
  let maxQuantityByRisk :=
    maxRiskAmount request
      / (price request * stopLossPercent riskConfig / 100) in
  let finalQuantity :=
    if num_gt (finalQuantity * price request) (maxRiskAmount request)
    then maxQuantityByRisk else finalQuantity in
  (* Minimum position size *)
  let minQuantity := 1 # 1000 in
  let finalQuantity :=
    if num_lt finalQuantity minQuantity then 0 else finalQuantity in
  (* Maximum position size (5% of account) *)
  let maxPositionSize := accountBalance request * (5 # 100) in
  let maxQuantityBySize := maxPositionSize / price request in
  let finalQuantity :=
    if num_gt (finalQuantity * price request) maxPositionSize
    then maxQuantityBySize else finalQuantity in
  {| sized_quantity := Qmax 0 finalQuantity;
     sized_strategy := sized_strategy size |}.

Definition createZeroPosition (request : PositionSizeRequest)
    (warnings : list string) : PositionSizeResult :=
  {| quantity := 0; notionalValue := 0; riskAmount := 0;
     riskPercentage := 0; leverage := 0; strategy := "ZERO_POSITION";
     result_confidence := confidence request; warnings := warnings |}.

(** [calculatePositionSize]; [inl] is the message of the thrown [Error].
    With a zero notional value the [leverage] of the source is [NaN]. *)
Definition calculatePositionSize (request : PositionSizeRequest)
    : string + PositionSizeResult :=
  if num_le (price request) 0 then
    inl "Invalid price: must be greater than 0"%string
  else if num_le (accountBalance request) 0 then
    inl "Invalid account balance: must be greater than 0"%string
  else if num_ge (currentPositions request) (maxOpenPositions config) then
    inr (createZeroPosition request
           [("Maximum open positions ("
               +:+ numToString (maxOpenPositions config) +:+ ") reached")%string])
  else
    let finalSize :=
      combineStrategies
        (calculateFixedPercentage request)
        (calculateKellyCriterion request)
        (calculateVolatilityAdjusted request)
        (calculateConfidenceBased request)
        (confidence request) in
    let constrainedSize := applyRiskConstraints finalSize request in
    let notionalValue := sized_quantity constrainedSize * price request in
    let riskAmount := notionalValue * (stopLossPercent riskConfig / 100) in
    let riskPercentage := (riskAmount / accountBalance request) * 100 in
    let leverage := notionalValue / (notionalValue / leverageMultiplier config) in
    inr {| quantity := sized_quantity constrainedSize;
           notionalValue := notionalValue;
           riskAmount := riskAmount;
           riskPercentage := riskPercentage;
           leverage := leverage;
           strategy := sized_strategy constrainedSize;
           result_confidence := confidence request;
           warnings := [] |}.

End WithConfig.

End PositionSizer.

(** ** trading/execution-engine.ts *)

Module ExecutionEngine.

Inductive OrderSide := OrderBUY | OrderSELL.

(** The keys of [BingXOrderRequest] that the engine writes.  The entry
    order sets the key [type], the bracket orders set [orderType]. *)
Record BingXOrderRequest := {
  req_symbol : string;
  req_side : OrderSide;
  req_type : option string;
  req_orderType : option string;
  req_quantity : string;
  req_positionSide : PositionSide;
  req_price : option string;
  req_stopPrice : option string;
  req_timeInForce : string;
  req_reduceOnly : bool;
  req_newClientOrderId : string
}.

Record BingXOrderResponse := {
  resp_orderId : Z
}.

(** What the engine does to the outside world, in order. *)
Inductive Event :=
| PlaceOrder (request : BingXOrderRequest)
| Delay (ms : Z).

(** The exchange collaborator: [client.placeOrder] answers a request,
    given everything that happened before, with a response or by
    throwing an [Error] with a message ([inl]). *)
Definition Client := list Event -> BingXOrderRequest -> string + BingXOrderResponse.

Inductive OrderStatus := PENDING | FILLED | CANCELLED | REJECTED.

Record OrderManagementData := {
  om_orderId : string;
  om_clientOrderId : string;
  om_symbol : string;
  om_side : OrderSide;
  om_quantity : Q;
  om_price : Q;
  om_stopLossPrice : Q;
  om_takeProfitPrice : Q;
  om_status : OrderStatus;
  om_timestamp : Z;
  om_retryCount : Z;
  om_maxRetries : nat
}.

(** The fields of the class, and the events so far. *)
Record Engine := {
  activeOrders : gmap string OrderManagementData;
  orderHistory : list OrderManagementData;
  maxRetries : nat;
  retryDelay : Z;
  events : list Event
}.

Definition create : Engine :=
  {| activeOrders := ∅; orderHistory := []; maxRetries := 3;
     retryDelay := 1000; events := [] |}.

Record TradeExecutionResult := {
  success : bool;
  orderId : option string;
  clientOrderId : option string;
  executedPrice : option Q;
  executedQuantity : option Q;
  fees : option Q;
  error : option string;
  warnings : list string;
  timestamp : Z
}.

Record TradeExecutionRequest := {
  signal : ProcessedSignal;
  positionSize : PositionSizer.PositionSizeResult;
  riskCheck : RiskManager.RiskCheckResult;
  currentPrice : Q;
  accountInfo : BingXAccountInfo
}.

(** *** Computations that change the engine and may throw *)

Definition Exec (A : Type) : Type := Engine -> (string + A) * Engine.

Definition ret {A} (a : A) : Exec A := fun e => (inr a, e).

Definition throw {A} (msg : string) : Exec A := fun e => (inl msg, e).

Definition bind {A B} (c : Exec A) (k : A -> Exec B) : Exec B :=
  fun e =>
    match c e with
    | (inr a, e') => k a e'
    | (inl msg, e') => (inl msg, e')
    end.

(** [try { c } catch (error) { handler(error.message) }] *)
Definition tryCatch {A} (c : Exec A) (handler : string -> Exec A) : Exec A :=
  fun e =>
    match c e with
    | (inr a, e') => (inr a, e')
    | (inl msg, e') => handler msg e'
    end.

Declare Scope exec_scope.
Delimit Scope exec_scope with exec.
Notation "'let!' x ':=' c 'in' k" := (bind c (fun x => k))
  (at level 10, x name, c at level 200, k at level 200) : exec_scope.
Local Open Scope exec_scope.

Definition record (ev : Event) (e : Engine) : Engine :=
  {| activeOrders := activeOrders e; orderHistory := orderHistory e;
     maxRetries := maxRetries e; retryDelay := retryDelay e;
     events := events e ++ [ev] |}.

Definition setActiveOrder (d : OrderManagementData) : Exec unit :=
  fun e =>
    (inr tt,
     {| activeOrders := <[om_clientOrderId d := d]> (activeOrders e);
        orderHistory := orderHistory e;
        maxRetries := maxRetries e; retryDelay := retryDelay e;
        events := events e |}).

Definition delay (ms : Z) : Exec unit :=
  fun e => (inr tt, record (Delay ms) e).

Definition getMaxRetries : Exec nat := fun e => (inr (maxRetries e), e).

Definition getRetryDelay : Exec Z := fun e => (inr (retryDelay e), e).

Section WithClient.
Context `{JsRuntime}.
Variable client : Client.

(** [await this.client.placeOrder(request)] *)
Definition clientPlaceOrder (request : BingXOrderRequest)
    : Exec BingXOrderResponse :=
  fun e => (client (events e) request, record (PlaceOrder request) e).

Definition failure (now : Z) (err : string) (ws : list string)
    : TradeExecutionResult :=
  {| success := false; orderId := None; clientOrderId := None;
     executedPrice := None; executedQuantity := None; fees := None;
     error := Some err; warnings := ws; timestamp := now |}.

Definition placed (now : Z) (id : Z) (clientId : string)
    : TradeExecutionResult :=
  {| success := true; orderId := Some (numToString (inject_Z id));
     clientOrderId := Some clientId;
     executedPrice := None; executedQuantity := None; fees := None;
     error := None; warnings := []; timestamp := now |}.

(** The [for] loop of [placeOrderWithRetry], entered with [attempt] and
    [remaining] iterations to go ([attempt + remaining = maxRetries + 1]). *)
Fixpoint retryLoop (now : Z) (orderRequest : BingXOrderRequest)
    (remaining : nat) (attempt : Z) (lastError : string)
    : Exec TradeExecutionResult :=
  match remaining with
  | O =>
      (let! n := getMaxRetries in
       ret (failure now
              ("Order placement failed after " +:+ numToString (ofNat n)
                 +:+ " attempts: " +:+ lastError) []))
  | S remaining' =>
      tryCatch
        (let! response := clientPlaceOrder orderRequest in
         let! n := getMaxRetries in
         let! stored := setActiveOrder
              {| om_orderId := numToString (inject_Z (resp_orderId response));
                 om_clientOrderId := req_newClientOrderId orderRequest;
                 om_symbol := req_symbol orderRequest;
                 om_side := req_side orderRequest;
                 om_quantity := parseFloat (req_quantity orderRequest);
                 om_price := 0; om_stopLossPrice := 0; om_takeProfitPrice := 0;
                 om_status := PENDING; om_timestamp := now;
                 om_retryCount := (attempt - 1)%Z; om_maxRetries := n |} in
         ret (placed now (resp_orderId response)
                (req_newClientOrderId orderRequest)))
        (fun msg =>
           let! n := getMaxRetries in
           let! d := getRetryDelay in
           let! waited := (if (attempt <? Z.of_nat n)%Z
                    then delay (d * attempt)%Z else ret tt) in
           retryLoop now orderRequest remaining' (attempt + 1)%Z msg)
  end.

Definition placeOrderWithRetry (now : Z) (orderRequest : BingXOrderRequest)
    : Exec TradeExecutionResult :=
  let! n := getMaxRetries in
  retryLoop now orderRequest n 1%Z "".

Definition closingSide (positionSide : PositionSide) : OrderSide :=
  match positionSide with
  | LONG => OrderSELL
  | SHORT => OrderBUY
  end.

Definition stopLossRequest (now : Z) (symbol : string) (quantity stopPrice : Q)
    (positionSide : PositionSide) (parentOrderId : string)
    : BingXOrderRequest :=
  {| req_symbol := symbol; req_side := closingSide positionSide;
     req_type := None; req_orderType := Some "STOP_MARKET"%string;
     req_quantity := numToString quantity;
     req_positionSide := positionSide;
     req_price := None; req_stopPrice := Some (numToString stopPrice);
     req_timeInForce := "GTC"; req_reduceOnly := true;
     req_newClientOrderId :=
       "sl_" +:+ parentOrderId +:+ "_" +:+ numToString (inject_Z now) |}.

Definition placeStopLossOrder (now : Z) (symbol : string) (quantity stopPrice : Q)
    (positionSide : PositionSide) (parentOrderId : string)
    : Exec TradeExecutionResult :=
  tryCatch
    (let request :=
       stopLossRequest now symbol quantity stopPrice positionSide parentOrderId in
     let! response := clientPlaceOrder request in
     ret (placed now (resp_orderId response) (req_newClientOrderId request)))
    (fun msg => ret (failure now msg ["Failed to place stop loss order"%string])).

Definition takeProfitRequest (now : Z) (symbol : string)
    (quantity takeProfitPrice : Q)
    (positionSide : PositionSide) (parentOrderId : string)
    : BingXOrderRequest :=
  {| req_symbol := symbol; req_side := closingSide positionSide;
     req_type := None; req_orderType := Some "LIMIT"%string;
     req_quantity := numToString quantity;
     req_positionSide := positionSide;
     req_price := Some (numToString takeProfitPrice); req_stopPrice := None;
     req_timeInForce := "GTC"; req_reduceOnly := true;
     req_newClientOrderId :=
       "tp_" +:+ parentOrderId +:+ "_" +:+ numToString (inject_Z now) |}.

Definition placeTakeProfitOrder (now : Z) (symbol : string)
    (quantity takeProfitPrice : Q)
    (positionSide : PositionSide) (parentOrderId : string)
    : Exec TradeExecutionResult :=
  tryCatch
    (let request :=
       takeProfitRequest now symbol quantity takeProfitPrice positionSide
         parentOrderId in
     let! response := clientPlaceOrder request in
     ret (placed now (resp_orderId response) (req_newClientOrderId request)))
    (fun msg => ret (failure now msg ["Failed to place take profit order"%string])).

Definition entrySide (a : SignalAction) : OrderSide :=
  match a with BUY => OrderBUY | _ => OrderSELL end.

Definition entryPositionSide (a : SignalAction) : PositionSide :=
  match a with BUY => LONG | _ => SHORT end.

(** The market entry order; [rnd] is the value of
    [Math.random().toString(36).substr(2, 9)]. *)
Definition entryOrderRequest (now : Z) (rnd : string)
    (request : TradeExecutionRequest) : BingXOrderRequest :=
  let sg := signal request in
  let ps := positionSize request in
  {| req_symbol := sig_symbol sg; req_side := entrySide (sig_action sg);
     req_type := Some "MARKET"%string; req_orderType := None;
     req_quantity := numToString (PositionSizer.quantity ps);
     req_positionSide := entryPositionSide (sig_action sg);
     req_price := None; req_stopPrice := None;
     req_timeInForce := "IOC"; req_reduceOnly := false;
     req_newClientOrderId :=
       "bot_" +:+ numToString (inject_Z now) +:+ "_" +:+ rnd |}.

(** The [try] block of [executeTrade]. *)
Definition executeTradeBody (now : Z) (rnd : string)
    (request : TradeExecutionRequest) : Exec TradeExecutionResult :=
  let sg := signal request in
  let ps := positionSize request in
  let rc := riskCheck request in
  let warnings : list string := [] in
  (* Validate execution conditions *)
  if negb (RiskManager.shouldTrade rc) then
    ret (failure now
           ("Risk check failed: "
              +:+ String.concat ", " (RiskManager.warnings rc))
           (RiskManager.warnings rc))
  else if num_le (PositionSizer.quantity ps) 0 then
    ret (failure now "Invalid position size" (PositionSizer.warnings ps))
  else
    (* Create order request *)
    let orderRequest := entryOrderRequest now rnd request in
    (* Execute the order *)
    let! orderResponse := placeOrderWithRetry now orderRequest in
    if negb (success orderResponse) then
      ret (failure now
             (default "Order placement failed"%string (error orderResponse))
             (warnings ++ ExecutionEngine.warnings orderResponse))
    else
      let parent := default "undefined"%string (clientOrderId orderResponse) in
      (* Place stop loss and take profit orders *)
      let! stopLossOrder :=
        placeStopLossOrder now (sig_symbol sg) (PositionSizer.quantity ps)
          (RiskManager.stopLossPrice rc)
          (entryPositionSide (sig_action sg)) parent in
      let! takeProfitOrder :=
        placeTakeProfitOrder now (sig_symbol sg) (PositionSizer.quantity ps)
          (RiskManager.takeProfitPrice rc)
          (entryPositionSide (sig_action sg)) parent in
      ret {| success := true;
             orderId := orderId orderResponse;
             clientOrderId := clientOrderId orderResponse;
             executedPrice := Some (currentPrice request);
             executedQuantity := Some (PositionSizer.quantity ps);
             fees := Some 0;
             error := None;
             warnings := (warnings ++ ExecutionEngine.warnings stopLossOrder)
                           ++ ExecutionEngine.warnings takeProfitOrder;
             timestamp := now |}.

(** [executeTrade]: the [catch] clause turns a thrown error into a
    failure result, so the call itself never throws. *)
Definition executeTrade (now : Z) (rnd : string)
    (request : TradeExecutionRequest) (e : Engine)
    : TradeExecutionResult * Engine :=
  match executeTradeBody now rnd request e with
  | (inr r, e') => (r, e')
  | (inl msg, e') => (failure now msg [], e')
  end.

End WithClient.

End ExecutionEngine.

(** ** webhook/validator.ts *)

Module Validator.

(** The untyped payload handed to [validateWebhookPayload], when it is an
    object (a payload that is not is treated in [Binary64.Validator]).  A
    key that is missing or holds a value of the wrong type is [None].  A
    numeric key is [Some x] when it holds the finite number [x], or a
    string that Joi converts to it.  [raw_timestamp] is [Some t] when the
    key holds a string in ISO 8601 format, [t] being the instant [new Date]
    reads from it (milliseconds).  A string is the list of its code units,
    all taken to be below 256, so that its length is the one Joi counts. *)
Record RawPayload := {
  raw_timestamp : option Z;
  raw_symbol : option string;
  raw_action : option string;
  raw_signal_strength : option string;
  raw_price : option Q;
  raw_mfi_value : option Q;
  raw_rsi_value : option Q;
  raw_timeframe : option string;
  raw_strategy : option string;
  raw_secret : option string
}.

Record TradingViewWebhookPayload := {
  timestamp : Z;
  symbol : string;
  action : SignalAction;
  signal_strength : Strength.t;
  price : Q;
  mfi_value : Q;
  rsi_value : Q;
  timeframe : string;
  strategy : string;
  secret : string
}.

Record SignalValidationResult := {
  isValid : bool;
  errors : list string;
  warnings : list string;
  confidence : Q
}.

(** *** webhookPayloadSchema *)

Definition keep {A} (ok : A -> bool) (o : option A) : option A :=
  match o with
  | Some a => if ok a then Some a else None
  | None => None
  end.

Definition lengthBetween (lo hi : nat) (s : string) : bool :=
  bool_decide (lo <= String.length s)%nat && bool_decide (String.length s <= hi)%nat.

Definition parseAction (s : string) : option SignalAction :=
  if String.eqb s "BUY" then Some BUY
  else if String.eqb s "SELL" then Some SELL
  else if String.eqb s "CLOSE" then Some CLOSE
  else None.

Definition parseStrength (s : string) : option Strength.t :=
  if String.eqb s "STRONG" then Some Strength.STRONG
  else if String.eqb s "MEDIUM" then Some Strength.MEDIUM
  else if String.eqb s "WEAK" then Some Strength.WEAK
  else None.

Definition timeframes : list string :=
  ["1m"; "3m"; "5m"; "15m"; "30m"; "1h"; "2h"; "4h"; "6h"; "8h"; "12h";
   "1d"; "3d"; "1w"; "1M"]%string.

Definition percentage (x : Q) : bool := num_ge x 0 && num_le x 100.

Definition okTimestamp (p : RawPayload) := raw_timestamp p.
Definition okSymbol (p : RawPayload) := keep (lengthBetween 3 20) (raw_symbol p).
Definition okAction (p : RawPayload) := raw_action p ≫= parseAction.
Definition okStrength (p : RawPayload) := raw_signal_strength p ≫= parseStrength.
(** [Joi.number()] refuses a number beyond [Number.MAX_SAFE_INTEGER]. *)
Definition safeNumber (x : Q) : bool :=
  num_ge x (-9007199254740991) && num_le x 9007199254740991.

Definition okPrice (p : RawPayload) :=
  keep (fun x => safeNumber x && num_gt x 0) (raw_price p).
Definition okMfi (p : RawPayload) := keep percentage (raw_mfi_value p).
Definition okRsi (p : RawPayload) := keep percentage (raw_rsi_value p).
Definition okTimeframe (p : RawPayload) :=
  keep (fun s => bool_decide (s ∈ timeframes)) (raw_timeframe p).
Definition okStrategy (p : RawPayload) := keep (lengthBetween 1 50) (raw_strategy p).
Definition okSecret (p : RawPayload) :=
  keep (fun s => bool_decide (1 <= String.length s)%nat) (raw_secret p).

Definition blame {A} (key : string) (o : option A) : list string :=
  match o with
  | Some _ => []
  | None => [key]
  end.

(** [webhookPayloadSchema.validate(payload, { abortEarly: false })]: the
    typed payload, or the violations.  A violation is represented by the
    key it is about; its text is Joi's. *)
Definition schemaValidate (p : RawPayload)
    : list string + TradingViewWebhookPayload :=
  match okTimestamp p, okSymbol p, okAction p, okStrength p, okPrice p,
        okMfi p, okRsi p, okTimeframe p, okStrategy p, okSecret p with
  | Some ts, Some sy, Some ac, Some st, Some pr,
    Some mfi, Some rsi, Some tf, Some sg, Some se =>
      inr {| timestamp := ts; symbol := sy; action := ac;
             signal_strength := st; price := pr; mfi_value := mfi;
             rsi_value := rsi; timeframe := tf; strategy := sg; secret := se |}
  | _, _, _, _, _, _, _, _, _, _ =>
      inl (blame "timestamp" (okTimestamp p) ++ blame "symbol" (okSymbol p)
           ++ blame "action" (okAction p)
           ++ blame "signal_strength" (okStrength p)
           ++ blame "price" (okPrice p) ++ blame "mfi_value" (okMfi p)
           ++ blame "rsi_value" (okRsi p) ++ blame "timeframe" (okTimeframe p)
           ++ blame "strategy" (okStrategy p) ++ blame "secret" (okSecret p))
  end.

(** *** signalLogicRules *)

Definition mfiRsiCorrelation (mfi rsi : Q) (a : SignalAction) : bool :=
  match a with
  | BUY => num_lt mfi 50 && num_lt rsi 50
  | SELL => num_gt mfi 50 && num_gt rsi 50
  | CLOSE => true
  end.

Definition signalStrengthLogic (mfi rsi : Q) (strength : Strength.t) : bool :=
  let extremeOversold := num_lt mfi 20 && num_lt rsi 30 in
  let extremeOverbought := num_gt mfi 80 && num_gt rsi 70 in
  let moderateOversold := num_lt mfi 40 && num_lt rsi 40 in
  let moderateOverbought := num_gt mfi 60 && num_gt rsi 60 in
  match strength with
  | Strength.STRONG => extremeOversold || extremeOverbought
  | Strength.MEDIUM => moderateOversold || moderateOverbought
  | Strength.WEAK =>
      negb extremeOversold && negb extremeOverbought
      && negb moderateOversold && negb moderateOverbought
  end.

(** [hay.includes(needle)] *)
Fixpoint includes (needle hay : string) : bool :=
  String.prefix needle hay
  || match hay with
     | EmptyString => false
     | String _ rest => includes needle rest
     end.

Definition priceValidation (price : Q) (symbol : string) : bool :=
  if includes "BTC" symbol then num_gt price 1000 && num_lt price 200000
  else if includes "ETH" symbol then num_gt price 10 && num_lt price 10000
  else num_gt price (1 # 1000000) && num_lt price 100000.

Definition timestampValidation (now signalTime : Z) : bool :=
  let fiveMinutesAgo := (now - 5 * 60 * 1000)%Z in
  let oneMinuteInFuture := (now + 60 * 1000)%Z in
  (fiveMinutesAgo <=? signalTime)%Z && (signalTime <=? oneMinuteInFuture)%Z.

(** *** validateWebhookPayload *)

Record Validation := {
  rule : string;
  valid : bool;
  impact : Q
}.

(** The [result] object while the function runs. *)
Record Score := {
  sc_warnings : list string;
  sc_confidence : Q
}.

Definition warn (s : Score) (w : string) : Score :=
  {| sc_warnings := sc_warnings s ++ [w]; sc_confidence := sc_confidence s |}.

Definition penalise (s : Score) (w : string) (by_ : Q) : Score :=
  {| sc_warnings := sc_warnings s ++ [w];
     sc_confidence := sc_confidence s - by_ |}.

Definition applyValidation (s : Score) (v : Validation) : Score :=
  if valid v then s else penalise s (rule v +:+ " check failed") (impact v).

Definition validationResults (now : Z) (p : TradingViewWebhookPayload)
    : list Validation :=
  [ {| rule := "MFI-RSI Correlation";
       valid := mfiRsiCorrelation (mfi_value p) (rsi_value p) (action p);
       impact := 2 # 10 |};
    {| rule := "Signal Strength Logic";
       valid := signalStrengthLogic (mfi_value p) (rsi_value p) (signal_strength p);
       impact := 15 # 100 |};
    {| rule := "Price Validation";
       valid := priceValidation (price p) (symbol p);
       impact := 1 # 10 |};
    {| rule := "Timestamp Validation";
       valid := timestampValidation now (timestamp p);
       impact := 5 # 100 |} ].

Definition isBuy (a : SignalAction) : bool :=
  match a with BUY => true | _ => false end.

Definition isSell (a : SignalAction) : bool :=
  match a with SELL => true | _ => false end.

Definition score (now : Z) (p : TradingViewWebhookPayload) : Score :=
  let s := {| sc_warnings := []; sc_confidence := 1 |} in
  (* Process validation results *)
  let s := fold_left applyValidation (validationResults now p) s in
  (* Additional warnings for edge cases *)
  let s :=
    if num_gt (mfi_value p) 95 || num_lt (mfi_value p) 5
    then warn s "Extreme MFI value detected" else s in
  let s :=
    if num_gt (rsi_value p) 95 || num_lt (rsi_value p) 5
    then warn s "Extreme RSI value detected" else s in
  (* Check for conflicting signals *)
  let s :=
    if isBuy (action p) && (num_gt (mfi_value p) 70 || num_gt (rsi_value p) 70)
    then penalise s "Buy signal in overbought conditions" (1 # 10) else s in
  let s :=
    if isSell (action p) && (num_lt (mfi_value p) 30 || num_lt (rsi_value p) 30)
    then penalise s "Sell signal in oversold conditions" (1 # 10) else s in
  (* Ensure confidence is within bounds *)
  {| sc_warnings := sc_warnings s;
     sc_confidence := Qmax 0 (Qmin 1 (sc_confidence s)) |}.

Definition validateWebhookPayload (now : Z) (payload : RawPayload)
    : SignalValidationResult :=
  match schemaValidate payload with
  | inl violations =>
      {| isValid := false; errors := violations; warnings := [];
         confidence := 0 |}
  | inr validatedPayload =>
      let s := score now validatedPayload in
      {| isValid := true; errors := []; warnings := sc_warnings s;
         confidence := sc_confidence s |}
  end.

End Validator.

(** ** trading/risk-manager.ts: monitoring of open positions and metrics *)

Module RiskMonitor.

Record PositionRiskData := {
  symbol : string;
  entryPrice : Q;
  currentPrice : Q;
  quantity : Q;
  side : PositionSide;
  unrealizedPnL : Q;
  stopLossPrice : Q;
  takeProfitPrice : Q;
  trailingStopPrice : option Q;
  volatility : Q;
  timeOpen : Q
}.

Record PositionRiskResult := {
  shouldClose : bool;
  reason : string;
  newStopLoss : option Q;
  newTakeProfit : option Q
}.

Definition isLong (s : PositionSide) : bool :=
  match s with LONG => true | SHORT => false end.

Definition isShort (s : PositionSide) : bool :=
  match s with LONG => false | SHORT => true end.

Definition closing (why : string) : PositionRiskResult :=
  {| shouldClose := true; reason := why; newStopLoss := None;
     newTakeProfit := None |}.

(** [checkPositionRisk]; the suggested trailing stop is returned under the
    key [newStopLoss]. *)
Definition checkPositionRisk (cfg : RiskManagementConfig)
    (position : PositionRiskData) : PositionRiskResult :=
  let cur := currentPrice position in
  let sd := side position in
  (* Check stop loss *)
  if (isLong sd && num_le cur (stopLossPrice position))
     || (isShort sd && num_ge cur (stopLossPrice position))
  then closing "Stop loss triggered"
  (* Check take profit *)
  else if (isLong sd && num_ge cur (takeProfitPrice position))
          || (isShort sd && num_le cur (takeProfitPrice position))
  then closing "Take profit triggered"
  (* Check trailing stop *)
  else if match trailingStopPrice position with
          | Some trail =>
              truthy trail
              && ((isLong sd && num_le cur trail) || (isShort sd && num_ge cur trail))
          | None => false
          end
  then closing "Trailing stop triggered"
  else
    (* Update trailing stop if needed *)
    let newTrailingStop :=
      if useVolatilityStops cfg && truthy (volatility position)
      then Some (RiskManager.calculateTrailingStop cur (volatility position) sd)
      else None in
    {| shouldClose := false; reason := ""; newStopLoss := newTrailingStop;
       newTakeProfit := None |}.


(** A number that need not be finite: the value of [maxDrawdown], which
    [updateRiskMetrics] computes by a division whose divisor can be 0. *)
Inductive ExtNum :=
| Finite (q : Q)
| PosInfinity
| NegInfinity
| NotANumber.

(** [n / d * 100] *)
Definition percentOf (n d : Q) : ExtNum :=
  if Qeq_bool d 0 then
    if Qeq_bool n 0 then NotANumber
    else if num_gt n 0 then PosInfinity else NegInfinity
  else Finite (n / d * 100).

(** [Math.max(a, b)] *)
Definition extMax (a b : ExtNum) : ExtNum :=
  match a, b with
  | NotANumber, _ | _, NotANumber => NotANumber
  | PosInfinity, _ | _, PosInfinity => PosInfinity
  | NegInfinity, x | x, NegInfinity => x
  | Finite x, Finite y => Finite (Qmax x y)
  end.

Record TradeEntry := {
  te_timestamp : Z;
  te_pnl : Q
}.

(** The fields of the class that [updateRiskMetrics], [resetDailyMetrics]
    and [updateVolatility] read or write. *)
Record Tracker := {
  dailyPnL : Q;
  maxDrawdown : ExtNum;
  peakBalance : Q;
  tradeHistory : list TradeEntry;
  volatilityData : gmap string (list Q)
}.

(** A new [RiskManager]. *)
Definition create : Tracker :=
  {| dailyPnL := 0; maxDrawdown := Finite 0; peakBalance := 0;
     tradeHistory := []; volatilityData := ∅ |}.

(** [l.slice(-n)] *)
Definition lastN {A} (n : nat) (l : list A) : list A :=
  drop (length l - n) l.

(** [updateRiskMetrics(pnl, timestamp = Date.now())] *)
Definition updateRiskMetrics (now : Z) (pnl : Q) (timestamp : option Z)
    (t : Tracker) : Tracker :=
  let daily := dailyPnL t + pnl in
  let history :=
    tradeHistory t ++ [{| te_timestamp := default now timestamp; te_pnl := pnl |}] in
  (* Update max drawdown *)
  let currentBalance := peakBalance t + daily in
  let '(peak, worst) :=
    if num_gt currentBalance (peakBalance t)
    then (currentBalance, maxDrawdown t)
    else (peakBalance t,
          extMax (maxDrawdown t)
            (percentOf (peakBalance t - currentBalance) (peakBalance t))) in
  (* Clean old trade history (keep last 1000 trades) *)
  let history :=
    if bool_decide (1000 < length history)%nat then lastN 1000 history
    else history in
  {| dailyPnL := daily; maxDrawdown := worst; peakBalance := peak;
     tradeHistory := history; volatilityData := volatilityData t |}.

Definition resetDailyMetrics (t : Tracker) : Tracker :=
  {| dailyPnL := 0; maxDrawdown := maxDrawdown t; peakBalance := peakBalance t;
     tradeHistory := tradeHistory t; volatilityData := volatilityData t |}.

(** [updateVolatility]: the price is pushed on the symbol's array, which
    loses its first element when it has more than 100. *)
Definition updateVolatility (sym : string) (price : Q) (t : Tracker) : Tracker :=
  let prices := default [] (volatilityData t !! sym) ++ [price] in
  let prices :=
    if bool_decide (100 < length prices)%nat then tail prices else prices in
  {| dailyPnL := dailyPnL t; maxDrawdown := maxDrawdown t;
     peakBalance := peakBalance t; tradeHistory := tradeHistory t;
     volatilityData := <[sym := prices]> (volatilityData t) |}.

End RiskMonitor.

(** ** trading/safety-manager.ts: reports *)

Module SafetyReports.
Import SafetyManager.

Record SessionStats := {
  totalSessions : nat;
  averageSessionDuration : Q;
  averageSessionPnL : Q;
  bestSession : Q;
  worstSession : Q
}.

(** [s.endTime] as a condition: set, and not 0. *)
Definition completed (s : Session) : bool :=
  match endTime s with
  | Some t => negb (t =? 0)%Z
  | None => false
  end.

(** Minutes from [startTime] to [endTime]. *)
Definition duration (s : Session) : Q :=
  inject_Z (default 0%Z (endTime s) - startTime s) / 1000 / 60.

Definition total (l : list Q) : Q := fold_left Qplus l 0.

(** [Math.max(...l)] and [Math.min(...l)] on a list that has elements. *)
Definition maxOf (l : list Q) : Q :=
  match l with
  | [] => 0
  | x :: rest => fold_left Qmax rest x
  end.

Definition minOf (l : list Q) : Q :=
  match l with
  | [] => 0
  | x :: rest => fold_left Qmin rest x
  end.

Definition getSessionStats (st : State) : SessionStats :=
  let completedSessions := List.filter completed (tradingSessions st) in
  match completedSessions with
  | [] =>
      {| totalSessions := 0; averageSessionDuration := 0;
         averageSessionPnL := 0; bestSession := 0; worstSession := 0 |}
  | _ :: _ =>
      let durations := map duration completedSessions in
      let pnls := map session_pnl completedSessions in
      {| totalSessions := length completedSessions;
         averageSessionDuration := total durations / ofNat (length durations);
         averageSessionPnL := total pnls / ofNat (length pnls);
         bestSession := maxOf pnls;
         worstSession := minOf pnls |}
  end.

Definition adviseDailyLoss : string :=
  "Approaching daily loss limit - consider reducing position sizes".

Definition advisePositions : string :=
  "Approaching maximum open positions - consider closing some positions".

Definition adviseLosses : string :=
  "Approaching maximum consecutive losses - consider reviewing strategy".

Definition adviseBalance : string :=
  "Balance approaching minimum threshold - consider reducing risk".

Definition getSafetyRecommendations (st : State)
    (accountInfo : BingXAccountInfo) (openPositions : list BingXPosition)
    : list string :=
  let th := thresholds st in
  let balance := availableBalance accountInfo in
  (if num_lt (dailyLoss st) (- (maxDailyLoss th * (8 # 10)))
   then [adviseDailyLoss] else [])
  ++ (if num_ge (ofNat (length openPositions)) (maxOpenPositions th * (8 # 10))
      then [advisePositions] else [])
  ++ (if num_ge (ofNat (consecutiveLosses st)) (maxConsecutiveLosses th * (8 # 10))
      then [adviseLosses] else [])
  ++ (if num_lt balance (minBalance th * (12 # 10))
      then [adviseBalance] else []).

Record SafetySummary := {
  sum_dailyLoss : Q;
  sum_consecutiveLosses : nat;
  sum_circuitBreakerActive : bool;
  sum_emergencyStopActive : bool;
  sum_riskLevel : RiskLevel
}.

Definition getSafetySummary (st : State) : SafetySummary :=
  {| sum_dailyLoss := dailyLoss st;
     sum_consecutiveLosses := consecutiveLosses st;
     sum_circuitBreakerActive := isActive (circuitBreaker st);
     sum_emergencyStopActive := emergencyStop st;
     sum_riskLevel := getCurrentRiskLevel st |}.

End SafetyReports.

(** ** trading/execution-engine.ts: closing positions and order management *)

Module OrderBook.
Import ExecutionEngine.
Local Open Scope exec_scope.

(** The fields of [BingXOrderStatus] that the engine reads. *)
Record BingXOrderStatus := {
  os_status : string;
  os_avgPrice : option string
}.

(** [client.getOrderStatus(symbol, orderId)]: a status, or a thrown error. *)
Definition StatusClient := string -> Z -> string + BingXOrderStatus.

(** [client.cancelOrder(symbol, orderId)]: done, or a thrown error. *)
Definition CancelClient := string -> Z -> string + unit.

Definition mapOrderStatus (bingxStatus : string) : OrderStatus :=
  if String.eqb bingxStatus "NEW" then PENDING
  else if String.eqb bingxStatus "PARTIALLY_FILLED" then PENDING
  else if String.eqb bingxStatus "FILLED" then FILLED
  else if String.eqb bingxStatus "CANCELED" then CANCELLED
  else if String.eqb bingxStatus "REJECTED" then REJECTED
  else if String.eqb bingxStatus "EXPIRED" then REJECTED
  else PENDING.

Definition setStatus (d : OrderManagementData) (s : OrderStatus)
    : OrderManagementData :=
  {| om_orderId := om_orderId d; om_clientOrderId := om_clientOrderId d;
     om_symbol := om_symbol d; om_side := om_side d;
     om_quantity := om_quantity d; om_price := om_price d;
     om_stopLossPrice := om_stopLossPrice d;
     om_takeProfitPrice := om_takeProfitPrice d;
     om_status := s; om_timestamp := om_timestamp d;
     om_retryCount := om_retryCount d; om_maxRetries := om_maxRetries d |}.

Definition setPrice (d : OrderManagementData) (p : Q) : OrderManagementData :=
  {| om_orderId := om_orderId d; om_clientOrderId := om_clientOrderId d;
     om_symbol := om_symbol d; om_side := om_side d;
     om_quantity := om_quantity d; om_price := p;
     om_stopLossPrice := om_stopLossPrice d;
     om_takeProfitPrice := om_takeProfitPrice d;
     om_status := om_status d; om_timestamp := om_timestamp d;
     om_retryCount := om_retryCount d; om_maxRetries := om_maxRetries d |}.

Definition setOrders (e : Engine) (active : gmap string OrderManagementData)
    (history : list OrderManagementData) : Engine :=
  {| activeOrders := active; orderHistory := history;
     maxRetries := maxRetries e; retryDelay := retryDelay e;
     events := events e |}.

(** [s || '0'] on an optional string. *)
Definition orZero (s : option string) : string :=
  match s with
  | Some x => if String.eqb x "" then "0" else x
  | None => "0"
  end.

Section WithRuntime.
Context `{JsRuntime}.

(** [parseInt] on the identifier that [placeOrderWithRetry] stored. *)
Variable parseInt : string -> Z.

Definition closeRequest (now : Z) (rnd : string) (symbol : string)
    (positionSide : PositionSide) (quantity : Q) : BingXOrderRequest :=
  {| req_symbol := symbol; req_side := closingSide positionSide;
     req_type := None; req_orderType := Some "MARKET"%string;
     req_quantity := numToString quantity;
     req_positionSide := positionSide;
     req_price := None; req_stopPrice := None;
     req_timeInForce := "IOC"; req_reduceOnly := true;
     req_newClientOrderId :=
       "close_" +:+ numToString (inject_Z now) +:+ "_" +:+ rnd |}.

(** [closePosition]: one attempt; a thrown error becomes a failure result. *)
Definition closePosition (client : Client) (now : Z) (rnd : string)
    (symbol : string) (positionSide : PositionSide) (quantity : Q)
    : Exec TradeExecutionResult :=
  tryCatch
    (let request := closeRequest now rnd symbol positionSide quantity in
     let! response := clientPlaceOrder client request in
     ret {| success := true;
            orderId := Some (numToString (inject_Z (resp_orderId response)));
            clientOrderId := Some (req_newClientOrderId request);
            executedPrice := None; executedQuantity := Some quantity;
            fees := None; error := None; warnings := []; timestamp := now |})
    (fun msg => ret (failure now msg [])).

(** [updateOrderStatus]: the order object is the one held by the table of
    active orders, so its new status shows there; [None] is [null]. *)
Definition updateOrderStatus (statusOf : StatusClient) (id : string) (e : Engine)
    : option OrderManagementData * Engine :=
  match activeOrders e !! id with
  | None => (None, e)
  | Some orderData =>
      match statusOf (om_symbol orderData) (parseInt (om_orderId orderData)) with
      | inl _ => (None, e)
      | inr status =>
          let updated := setStatus orderData (mapOrderStatus (os_status status)) in
          if String.eqb (os_status status) "FILLED" then
            let filled := setPrice updated (parseFloat (orZero (os_avgPrice status))) in
            (Some filled,
             setOrders e (delete id (activeOrders e)) (orderHistory e ++ [filled]))
          else
            (Some updated,
             setOrders e (<[id := updated]> (activeOrders e)) (orderHistory e))
      end
  end.

Definition cancelOrder (cancel : CancelClient) (id : string) (e : Engine)
    : bool * Engine :=
  match activeOrders e !! id with
  | None => (false, e)
  | Some orderData =>
      match cancel (om_symbol orderData) (parseInt (om_orderId orderData)) with
      | inl _ => (false, e)
      | inr _ =>
          let cancelled := setStatus orderData CANCELLED in
          (true,
           setOrders e (delete id (activeOrders e)) (orderHistory e ++ [cancelled]))
      end
  end.

(** [cleanupOldOrders(maxAge = 24 * 60 * 60 * 1000)] *)
Definition cleanupOldOrders (now : Z) (maxAge : option Z) (e : Engine) : Engine :=
  let limit := default (24 * 60 * 60 * 1000)%Z maxAge in
  setOrders e
    (filter (fun entry => ~ (limit < now - om_timestamp entry.2)%Z) (activeOrders e))
    (orderHistory e).

End WithRuntime.

End OrderBook.


(** ** trading/trading-engine.ts: closing all positions *)

Module TradingEngine.
Import ExecutionEngine.

Section WithRuntime.
Context `{JsRuntime}.

(** The loop of [closeAllPositions]: one [closePosition] call for each open
    position; the [k]-th call reads the clock and the random suffix
    [tick k]. *)
Fixpoint closeAllFrom (client : Client) (tick : nat -> Z * string) (k : nat)
    (openPositions : list BingXPosition) (e : Engine) : Engine :=
  match openPositions with
  | [] => e
  | position :: rest =>
      let quantity := Qabs (pos_positionAmt position) in
      let side := if num_gt (pos_positionAmt position) 0 then LONG else SHORT in
      let e' :=
        snd (OrderBook.closePosition client (fst (tick k)) (snd (tick k))
               (pos_symbol position) side quantity e) in
      closeAllFrom client tick (S k) rest e'
  end.

Definition closeAllPositions (client : Client) (tick : nat -> Z * string)
    (openPositions : list BingXPosition) (e : Engine) : Engine :=
  closeAllFrom client tick 0 openPositions e.

End WithRuntime.

End TradingEngine.

(** ** The arithmetic in double precision

    The functions whose results depend on how a sum, a product or a quotient
    is rounded are transcribed a second time, over Rocq's primitive
    floating-point numbers: these are the IEEE 754 binary64 numbers of
    JavaScript, with the same rounding (to nearest, ties to even) of [+],
    [-], [*] and [/], the same comparisons, [NaN], the infinities and the
    two zeros.  A decimal literal denotes the nearest binary64 number, as
    it does in the source. *)

Module Binary64.

#[local] Set Warnings "-inexact-float".
Local Open Scope float_scope.

(** *** JavaScript numbers *)

Definition num_lt (a b : float) : bool := a <? b.
Definition num_gt (a b : float) : bool := b <? a.
Definition num_le (a b : float) : bool := a <=? b.
Definition num_ge (a b : float) : bool := b <=? a.

(** Truthiness of a number: every number except [0], [-0] and [NaN]. *)
Definition truthy (a : float) : bool := negb (PrimFloat.is_zero a || PrimFloat.is_nan a).

(** [a || b] on an optional number [a]. *)
Definition orDefault (a : option float) (b : float) : float :=
  match a with
  | Some x => if truthy x then x else b
  | None => b
  end.

(** [Math.max] and [Math.min] of two numbers: [NaN] when one of them is,
    and [+0] above [-0]. *)
Definition mathMax (a b : float) : float :=
  if PrimFloat.is_nan a || PrimFloat.is_nan b then PrimFloat.nan
  else if a <? b then b
  else if b <? a then a
  else if PrimFloat.get_sign a then b else a.

Definition mathMin (a b : float) : float :=
  if PrimFloat.is_nan a || PrimFloat.is_nan b then PrimFloat.nan
  else if a <? b then a
  else if b <? a then b
  else if PrimFloat.get_sign a then a else b.

(** The length of an array as a number. *)
Definition ofNat (n : nat) : float := PrimFloat.of_uint63 (Uint63.of_Z (Z.of_nat n)).

(** The value of a finite number, as a rational. *)
Definition exact (x : float) : option Q :=
  match FloatOps.Prim2SF x with
  | S754_zero _ => Some 0%Q
  | S754_finite s m e =>
      Some ((if s then - inject_Z (Zpos m) else inject_Z (Zpos m)) * 2 ^ e)%Q
  | S754_infinity _ => None
  | S754_nan => None
  end.

(** What the host supplies. *)
Class JsRuntime := {
  (** [String(x)] for a number [x], as used by template literals *)
  numToString : float -> string;
  (** [Math.pow] *)
  mathPow : float -> float -> float
}.

(** *** Shared types *)

Record ProcessedSignal := {
  sig_symbol : string;
  sig_action : SignalAction;
  sig_strength : Strength.t;
  sig_price : float;
  sig_confidence : float
}.

(** [BingXPosition] as the exchange returns it: the amounts are strings. *)
Record BingXPosition := {
  pos_symbol : string;
  pos_positionAmt : string;
  pos_entryPrice : string
}.

Record RiskManagementConfig := {
  stopLossPercent : float;
  takeProfitPercent : float;
  trailingStopPercent : float;
  useVolatilityStops : bool;
  maxRiskPerTrade : float;
  riskRewardRatio : float
}.

Record TradingConfig := {
  positionSizePercent : float;
  maxDailyLoss : float;
  maxOpenPositions : float;
  leverageMultiplier : float;
  paperTrading : bool
}.

(** *** trading/risk-manager.ts *)

Module RiskManager.

Record RiskCheckResult := {
  shouldTrade : bool;
  riskLevel : RiskLevel;
  warnings : list string;
  maxPositionSize : float;
  stopLossPrice : float;
  takeProfitPrice : float;
  trailingStopPrice : option float
}.

Record State := {
  config : RiskManagementConfig;
  dailyPnL : float;
  maxDrawdown : float;
  peakBalance : float
}.

Definition setPeakBalance (st : State) (b : float) : State :=
  {| config := config st; dailyPnL := dailyPnL st;
     maxDrawdown := maxDrawdown st; peakBalance := b |}.

Definition calculateDrawdown (st : State) (currentBalance : float)
    : float * State :=
  if peakBalance st =? 0 then (0, setPeakBalance st currentBalance)
  else if num_gt currentBalance (peakBalance st)
       then (0, setPeakBalance st currentBalance)
       else (((peakBalance st - currentBalance) / peakBalance st) * 100, st).

Definition riskMultipliers (l : RiskLevel) : float :=
  match l with
  | LOW => 1.0
  | MEDIUM => 0.7
  | HIGH => 0.4
  | CRITICAL => 0.0
  end.

Definition calculateRiskAdjustedPositionSize
    (accountBalance price : float) (l : RiskLevel) : float :=
  let baseSize := accountBalance * 0.02 in
  (baseSize * riskMultipliers l) / price.

Definition calculateStopLevels (cfg : RiskManagementConfig)
    (signal : ProcessedSignal) (currentPrice : float)
    (volatility : option float) : float * float :=
  let '(stopLossDistance, takeProfitDistance) :=
    match volatility with
    | Some v =>
        if truthy v && useVolatilityStops cfg then
          let d := (v / 100) * currentPrice * 2 in
          (d, d * riskRewardRatio cfg)
        else
          (currentPrice * (stopLossPercent cfg / 100),
           currentPrice * (takeProfitPercent cfg / 100))
    | None =>
        (currentPrice * (stopLossPercent cfg / 100),
         currentPrice * (takeProfitPercent cfg / 100))
    end in
  match sig_action signal with
  | BUY => (currentPrice - stopLossDistance, currentPrice + takeProfitDistance)
  | _ => (currentPrice + stopLossDistance, currentPrice - takeProfitDistance)
  end.

Definition calculateTrailingStop (currentPrice volatility : float)
    (side : PositionSide) : float :=
  let trailingDistance := (volatility / 100) * currentPrice * 1.5 in
  match side with
  | LONG => currentPrice - trailingDistance
  | SHORT => currentPrice + trailingDistance
  end.

(** The three locals that the checks of [checkTradeRisk] assign. *)
Record Verdict := {
  v_shouldTrade : bool;
  v_riskLevel : RiskLevel;
  v_warnings : list string
}.

Definition checkTradeRisk (st : State) (signal : ProcessedSignal)
    (currentPrice accountBalance : float) (openPositions : list BingXPosition)
    (volatility : option float) : RiskCheckResult * State :=
  let cfg := config st in
  let v := {| v_shouldTrade := true; v_riskLevel := LOW; v_warnings := [] |} in
  (* Check daily loss limit *)
  let v :=
    if num_lt (dailyPnL st) (- (accountBalance * maxRiskPerTrade cfg / 100))
    then {| v_shouldTrade := false; v_riskLevel := CRITICAL;
            v_warnings := v_warnings v ++ ["Daily loss limit reached"%string] |}
    else v in
  (* Check maximum drawdown *)
  let '(currentDrawdown, st) := calculateDrawdown st accountBalance in
  let v :=
    if num_gt currentDrawdown 10
    then {| v_shouldTrade := false; v_riskLevel := CRITICAL;
            v_warnings := v_warnings v ++ ["Maximum drawdown exceeded"%string] |}
    else v in
  (* Check position concentration *)
  let symbolPositions :=
    List.filter (fun p => String.eqb (pos_symbol p) (sig_symbol signal))
      openPositions in
  let v :=
    if bool_decide (0 < length symbolPositions)%nat
    then {| v_shouldTrade := v_shouldTrade v; v_riskLevel := HIGH;
            v_warnings := v_warnings v
                            ++ ["Position already exists for this symbol"%string] |}
    else v in
  (* Check volatility *)
  let v :=
    if match volatility with
       | Some x => truthy x && num_gt x 50
       | None => false
       end
    then {| v_shouldTrade := v_shouldTrade v; v_riskLevel := HIGH;
            v_warnings := v_warnings v ++ ["High volatility detected"%string] |}
    else v in
  let maxPositionSize :=
    calculateRiskAdjustedPositionSize accountBalance currentPrice (v_riskLevel v) in
  let '(stopLossPrice, takeProfitPrice) :=
    calculateStopLevels cfg signal currentPrice volatility in
  let trailingStopPrice :=
    match volatility with
    | Some x =>
        if useVolatilityStops cfg && truthy x then
          let side := match sig_action signal with BUY => LONG | _ => SHORT end in
          Some (calculateTrailingStop currentPrice x side)
        else None
    | None => None
    end in
  ({| shouldTrade := v_shouldTrade v;
      riskLevel := v_riskLevel v;
      warnings := v_warnings v;
      maxPositionSize := maxPositionSize;
      stopLossPrice := stopLossPrice;
      takeProfitPrice := takeProfitPrice;
      trailingStopPrice := trailingStopPrice |}, st).

End RiskManager.

(** *** trading/position-sizer.ts *)

Module PositionSizer.

Record PositionSizeRequest := {
  symbol : string;
  price : float;
  confidence : float;
  signalStrength : Strength.t;
  accountBalance : float;
  currentPositions : float;
  volatility : option float;
  maxRiskPerTrade : option float
}.

Record PositionSizeResult := {
  quantity : float;
  notionalValue : float;
  riskAmount : float;
  riskPercentage : float;
  leverage : float;
  strategy : string;
  result_confidence : float;
  warnings : list string
}.

Record Sized := {
  sized_quantity : float;
  sized_strategy : string
}.

Section WithConfig.
Context `{JsRuntime}.
Variable config : TradingConfig.
Variable riskConfig : RiskManagementConfig.

Definition getSignalStrengthMultiplier (s : Strength.t) : float :=
  match s with
  | Strength.STRONG => 1.2
  | Strength.MEDIUM => 1.0
  | Strength.WEAK => 0.7
  end.

Definition calculateFixedPercentage (request : PositionSizeRequest) : float :=
  let basePercentage := positionSizePercent config / 100 in
  let adjustedPercentage :=
    basePercentage * getSignalStrengthMultiplier (signalStrength request) in
  (accountBalance request * adjustedPercentage) / price request.

Definition calculateKellyCriterion (request : PositionSizeRequest) : float :=
  let winProbability := confidence request in
  let lossProbability := 1 - winProbability in
  let winLossRatio := 2.5 in
  let kellyFraction :=
    (winProbability * winLossRatio - lossProbability) / winLossRatio in
  let conservativeKelly := mathMax 0 (kellyFraction * 0.25) in
  (accountBalance request * conservativeKelly) / price request.

Definition calculateVolatilityAdjusted (request : PositionSizeRequest) : float :=
  match volatility request with
  | Some v =>
      if truthy v then
        let volatilityMultiplier := mathMax 0.1 (1 - (v / 100)) in
        calculateFixedPercentage request * volatilityMultiplier
      else 0
  | None => 0
  end.

Definition calculateConfidenceBased (request : PositionSizeRequest) : float :=
  let confidenceMultiplier := mathPow (confidence request) 1.5 in
  calculateFixedPercentage request * confidenceMultiplier.

Record Weights := {
  w_fixedPercentage : float;
  w_kellyCriterion : float;
  w_volatilityAdjusted : float;
  w_confidenceBased : float
}.

(** [x || 0] *)
Definition orZero (x : float) : float := if truthy x then x else 0.

Definition combineStrategies
    (fixedPercentage kellyCriterion volatilityAdjusted confidenceBased : float)
    (conf : float) : Sized :=
  let weights :=
    {| w_fixedPercentage := 0.3; w_kellyCriterion := 0.25;
       w_volatilityAdjusted := 0.25; w_confidenceBased := 0.2 |} in
  let weights :=
    if num_gt conf 0.8 then
      {| w_fixedPercentage := w_fixedPercentage weights - 0.1;
         w_kellyCriterion := w_kellyCriterion weights + 0.1;
         w_volatilityAdjusted := w_volatilityAdjusted weights - 0.1;
         w_confidenceBased := w_confidenceBased weights + 0.1 |}
    else if num_lt conf 0.5 then
      {| w_fixedPercentage := w_fixedPercentage weights + 0.1;
         w_kellyCriterion := w_kellyCriterion weights - 0.1;
         w_volatilityAdjusted := w_volatilityAdjusted weights + 0.1;
         w_confidenceBased := w_confidenceBased weights - 0.1 |}
    else weights in
  let weightedQuantity :=
    orZero fixedPercentage * w_fixedPercentage weights
    + orZero kellyCriterion * w_kellyCriterion weights
    + orZero volatilityAdjusted * w_volatilityAdjusted weights
    + orZero confidenceBased * w_confidenceBased weights in
  {| sized_quantity := weightedQuantity;
     sized_strategy := "COMBINED_STRATEGY" |}.

(** [maxRiskAmount] of [applyRiskConstraints]:
    [request.maxRiskPerTrade || accountBalance * stopLossPercent / 100]. *)
Definition maxRiskAmount (request : PositionSizeRequest) : float :=
  orDefault (maxRiskPerTrade request)
    (accountBalance request * stopLossPercent riskConfig / 100).

(** [maxQuantityByRisk] of [applyRiskConstraints]. *)
Definition maxQuantityByRisk (request : PositionSizeRequest) : float :=
  maxRiskAmount request / (price request * stopLossPercent riskConfig / 100).

(** [maxQuantityBySize] of [applyRiskConstraints]. *)
Definition maxQuantityBySize (request : PositionSizeRequest) : float :=
  (accountBalance request * 0.05) / price request.

Definition applyRiskConstraints (size : Sized) (request : PositionSizeRequest)
    : Sized :=
  let finalQuantity := sized_quantity size in
  (* Maximum risk per trade constraint *)
  let finalQuantity :=
    if num_gt (finalQuantity * price request) (maxRiskAmount request)
    then maxQuantityByRisk request else finalQuantity in
  (* Minimum position size *)
  let minQuantity := 0.001 in
  let finalQuantity :=
    if num_lt finalQuantity minQuantity then 0 else finalQuantity in
  (* Maximum position size (5% of account) *)
  let maxPositionSize := accountBalance request * 0.05 in
  let finalQuantity :=
    if num_gt (finalQuantity * price request) maxPositionSize
    then maxQuantityBySize request else finalQuantity in
  {| sized_quantity := mathMax 0 finalQuantity;
     sized_strategy := sized_strategy size |}.

Definition createZeroPosition (request : PositionSizeRequest)
    (warnings : list string) : PositionSizeResult :=
  {| quantity := 0; notionalValue := 0; riskAmount := 0;
     riskPercentage := 0; leverage := 0; strategy := "ZERO_POSITION";
     result_confidence := confidence request; warnings := warnings |}.

(** The size before the constraints. *)
Definition combinedSize (request : PositionSizeRequest) : Sized :=
  combineStrategies
    (calculateFixedPercentage request)
    (calculateKellyCriterion request)
    (calculateVolatilityAdjusted request)
    (calculateConfidenceBased request)
    (confidence request).

(** [calculatePositionSize]; [inl] is the message of the thrown [Error]. *)
Definition calculatePositionSize (request : PositionSizeRequest)
    : string + PositionSizeResult :=
  if num_le (price request) 0 then
    inl "Invalid price: must be greater than 0"%string
  else if num_le (accountBalance request) 0 then
    inl "Invalid account balance: must be greater than 0"%string
  else if num_ge (currentPositions request) (maxOpenPositions config) then
    inr (createZeroPosition request
           [("Maximum open positions ("
               +:+ numToString (maxOpenPositions config) +:+ ") reached")%string])
  else
    let finalSize := combinedSize request in
    let constrainedSize := applyRiskConstraints finalSize request in
    let notionalValue := sized_quantity constrainedSize * price request in
    let riskAmount := notionalValue * (stopLossPercent riskConfig / 100) in
    let riskPercentage := (riskAmount / accountBalance request) * 100 in
    let leverage := notionalValue / (notionalValue / leverageMultiplier config) in
    inr {| quantity := sized_quantity constrainedSize;
           notionalValue := notionalValue;
           riskAmount := riskAmount;
           riskPercentage := riskPercentage;
           leverage := leverage;
           strategy := sized_strategy constrainedSize;
           result_confidence := confidence request;
           warnings := [] |}.

End WithConfig.

End PositionSizer.

(** *** webhook/validator.ts *)

Module Validator.

(** The payload after the schema; [timestamp] is the instant that
    [new Date] reads from the ISO string (milliseconds). *)
Record TradingViewWebhookPayload := {
  timestamp : Z;
  symbol : string;
  action : SignalAction;
  signal_strength : Strength.t;
  price : float;
  mfi_value : float;
  rsi_value : float;
  timeframe : string;
  strategy : string;
  secret : string
}.

Record SignalValidationResult := {
  isValid : bool;
  errors : list string;
  warnings : list string;
  confidence : float
}.

(** **** signalLogicRules *)

Definition mfiRsiCorrelation (mfi rsi : float) (a : SignalAction) : bool :=
  match a with
  | BUY => num_lt mfi 50 && num_lt rsi 50
  | SELL => num_gt mfi 50 && num_gt rsi 50
  | CLOSE => true
  end.

Definition signalStrengthLogic (mfi rsi : float) (strength : Strength.t) : bool :=
  let extremeOversold := num_lt mfi 20 && num_lt rsi 30 in
  let extremeOverbought := num_gt mfi 80 && num_gt rsi 70 in
  let moderateOversold := num_lt mfi 40 && num_lt rsi 40 in
  let moderateOverbought := num_gt mfi 60 && num_gt rsi 60 in
  match strength with
  | Strength.STRONG => extremeOversold || extremeOverbought
  | Strength.MEDIUM => moderateOversold || moderateOverbought
  | Strength.WEAK =>
      negb extremeOversold && negb extremeOverbought
      && negb moderateOversold && negb moderateOverbought
  end.

Definition priceValidation (price : float) (symbol : string) : bool :=
  if Validator.includes "BTC" symbol then num_gt price 1000 && num_lt price 200000
  else if Validator.includes "ETH" symbol then num_gt price 10 && num_lt price 10000
  else num_gt price 0.000001 && num_lt price 100000.

(** **** validateWebhookPayload *)

Record Validation := {
  rule : string;
  valid : bool;
  impact : float
}.

(** The [result] object while the function runs. *)
Record Score := {
  sc_warnings : list string;
  sc_confidence : float
}.

Definition warn (s : Score) (w : string) : Score :=
  {| sc_warnings := sc_warnings s ++ [w]; sc_confidence := sc_confidence s |}.

Definition penalise (s : Score) (w : string) (by_ : float) : Score :=
  {| sc_warnings := sc_warnings s ++ [w];
     sc_confidence := sc_confidence s - by_ |}.

Definition applyValidation (s : Score) (v : Validation) : Score :=
  if valid v then s else penalise s (rule v +:+ " check failed") (impact v).

Definition validationResults (now : Z) (p : TradingViewWebhookPayload)
    : list Validation :=
  [ {| rule := "MFI-RSI Correlation";
       valid := mfiRsiCorrelation (mfi_value p) (rsi_value p) (action p);
       impact := 0.2 |};
    {| rule := "Signal Strength Logic";
       valid := signalStrengthLogic (mfi_value p) (rsi_value p) (signal_strength p);
       impact := 0.15 |};
    {| rule := "Price Validation";
       valid := priceValidation (price p) (symbol p);
       impact := 0.1 |};
    {| rule := "Timestamp Validation";
       valid := Validator.timestampValidation now (timestamp p);
       impact := 0.05 |} ].

Definition score (now : Z) (p : TradingViewWebhookPayload) : Score :=
  let s := {| sc_warnings := []; sc_confidence := 1.0 |} in
  (* Process validation results *)
  let s := fold_left applyValidation (validationResults now p) s in
  (* Additional warnings for edge cases *)
  let s :=
    if num_gt (mfi_value p) 95 || num_lt (mfi_value p) 5
    then warn s "Extreme MFI value detected" else s in
  let s :=
    if num_gt (rsi_value p) 95 || num_lt (rsi_value p) 5
    then warn s "Extreme RSI value detected" else s in
  (* Check for conflicting signals *)
  let s :=
    if Validator.isBuy (action p)
       && (num_gt (mfi_value p) 70 || num_gt (rsi_value p) 70)
    then penalise s "Buy signal in overbought conditions" 0.1 else s in
  let s :=
    if Validator.isSell (action p)
       && (num_lt (mfi_value p) 30 || num_lt (rsi_value p) 30)
    then penalise s "Sell signal in oversold conditions" 0.1 else s in
  (* Ensure confidence is within bounds *)
  {| sc_warnings := sc_warnings s;
     sc_confidence := mathMax 0 (mathMin 1 (sc_confidence s)) |}.

(** What [webhookPayloadSchema.validate] (the Joi library) answers: the
    messages of the violations, or the value, which is [undefined] ([None])
    when the payload is. *)
Definition SchemaResult : Type := list string + option TradingViewWebhookPayload.

Section WithSchema.
Variable Payload : Type.
Variable validate : Payload -> SchemaResult.
(** The message of the [TypeError] thrown by reading a property of
    [undefined]. *)
Variable typeError : string.

Definition validateWebhookPayload (now : Z) (payload : Payload)
    : SignalValidationResult :=
  match validate payload with
  | inl violations =>
      {| isValid := false; errors := violations; warnings := [];
         confidence := 0 |}
  | inr None =>
      {| isValid := false;
         errors := [("Validation error: " +:+ typeError)%string];
         warnings := []; confidence := 0 |}
  | inr (Some validatedPayload) =>
      let s := score now validatedPayload in
      {| isValid := true; errors := []; warnings := sc_warnings s;
         confidence := sc_confidence s |}
  end.

End WithSchema.

(** **** validateSignalConsistency *)

Definition sameAction (a b : SignalAction) : bool :=
  match a, b with
  | BUY, BUY | SELL, SELL | CLOSE, CLOSE => true
  | _, _ => false
  end.

Definition strengthValues (s : Strength.t) : float :=
  match s with
  | Strength.WEAK => 1
  | Strength.MEDIUM => 2
  | Strength.STRONG => 3
  end.

(** [new Set(l)]: the values of [l], each once, in the order they first occur. *)
Fixpoint setOf (l seen : list SignalAction) : list SignalAction :=
  match l with
  | [] => seen
  | a :: rest =>
      if existsb (sameAction a) seen then setOf rest seen
      else setOf rest (seen ++ [a])
  end.

(** [new Set(l).size] *)
Definition distinct (l : list SignalAction) : nat := length (setOf l []).

Definition clamp (s : Score) : SignalValidationResult :=
  {| isValid := true; errors := []; warnings := sc_warnings s;
     confidence := mathMax 0 (mathMin 1 (sc_confidence s)) |}.

Definition unchecked : SignalValidationResult :=
  {| isValid := true; errors := []; warnings := []; confidence := 1.0 |}.

(** [recentSignals]: the last five earlier signals of the same symbol. *)
Definition recentSignals (currentSignal : TradingViewWebhookPayload)
    (previousSignals : list TradingViewWebhookPayload)
    : list TradingViewWebhookPayload :=
  RiskMonitor.lastN 5
    (List.filter (fun s => String.eqb (symbol s) (symbol currentSignal))
       previousSignals).

(** [avgRecentStrength] *)
Definition averageStrength (recent : list TradingViewWebhookPayload) : float :=
  fold_left (fun sum sg => sum + strengthValues (signal_strength sg)) recent 0
  / ofNat (length recent).

Definition validateSignalConsistency (currentSignal : TradingViewWebhookPayload)
    (previousSignals : list TradingViewWebhookPayload) : SignalValidationResult :=
  match previousSignals with
  | [] => unchecked
  | _ :: _ =>
      let recent := recentSignals currentSignal previousSignals in
      match last recent with
      | None => unchecked
      | Some lastSignal =>
          let s := {| sc_warnings := []; sc_confidence := 1.0 |} in
          (* Check for signal flip-flopping *)
          let s :=
            if bool_decide (2 < distinct (map action recent))%nat
               && bool_decide (3 <= length recent)%nat
            then penalise s "Rapid signal direction changes detected" 0.15
            else s in
          (* Check for duplicate signals *)
          let timeDiff := (timestamp currentSignal - timestamp lastSignal)%Z in
          let s :=
            if (timeDiff <? 60000)%Z
               && sameAction (action lastSignal) (action currentSignal)
               && num_lt (PrimFloat.abs (price lastSignal - price currentSignal))
                    (price lastSignal * 0.001)
            then penalise s "Potential duplicate signal detected" 0.2
            else s in
          (* Check for signal strength consistency *)
          let s :=
            if num_gt (PrimFloat.abs (strengthValues (signal_strength currentSignal)
                            - averageStrength recent)) 1.5
            then penalise s "Signal strength inconsistent with recent signals"
                   0.1
            else s in
          clamp s
      end
  end.

End Validator.

(** *** webhook/server.ts *)

Module WebhookServer.
Import Validator.

Definition calculateConfidence (payload : TradingViewWebhookPayload) : float :=
  let confidence := 0.5 in
  (* Adjust based on signal strength *)
  let confidence :=
    match signal_strength payload with
    | Strength.STRONG => confidence + 0.3
    | Strength.MEDIUM => confidence + 0.1
    | Strength.WEAK => confidence - 0.1
    end in
  let mfi := mfi_value payload in
  let rsi := rsi_value payload in
  (* Strong oversold/overbought conditions increase confidence *)
  let confidence :=
    if (num_lt mfi 20 && num_lt rsi 30 && Validator.isBuy (action payload))
       || (num_gt mfi 80 && num_gt rsi 70 && Validator.isSell (action payload))
    then confidence + 0.2 else confidence in
  (* Conflicting signals decrease confidence *)
  let confidence :=
    if (num_gt mfi 50 && num_lt rsi 50) || (num_lt mfi 50 && num_gt rsi 50)
    then confidence - 0.1 else confidence in
  mathMax 0 (mathMin 1 confidence).

(** [processSignal], on the fields of [ProcessedSignal] that are modelled. *)
Definition processSignal (payload : TradingViewWebhookPayload) : ProcessedSignal :=
  {| sig_symbol := symbol payload;
     sig_action := action payload;
     sig_strength := signal_strength payload;
     sig_price := price payload;
     sig_confidence := calculateConfidence payload |}.

End WebhookServer.

End Binary64.

(** ** A runtime to run the model on concrete inputs

    [numToString] and [parseFloat] are exact on integers, [localDate] on
    the instants of January 1970, and [mathPow] on the bases 0 and 1,
    which is what the examples below use. *)

Definition sampleNumToString (x : Q) : string :=
  let r := Qred x in
  if (Zpos (Qden r) =? 1)%Z then NilZero.string_of_int (Z.to_int (Qnum r))
  else (NilZero.string_of_int (Z.to_int (Qnum r)) +:+ "/"
          +:+ NilZero.string_of_int (Z.to_int (Zpos (Qden r))))%string.

Definition sampleParseFloat (s : string) : Q :=
  match NilZero.int_of_string s with
  | Some i => inject_Z (Z.of_int i)
  | None => 0
  end.

Definition sampleLocalDate (t : Z) : Z * Z * Z :=
  (1970, 0, 1 + t / 86400000)%Z.

Definition samplePow (base exponent : Q) : Q := base.

Definition sampleRuntime : JsRuntime :=
  {| numToString := sampleNumToString;
     localDate := sampleLocalDate;
     mathPow := samplePow;
     parseFloat := sampleParseFloat |}.

(** ** Definitions used to state the properties *)

Module Stated.

(** The outcome of a call that threw. *)
Definition threw {A} (outcome : string + A) : bool :=
  match outcome with
  | inl _ => true
  | inr _ => false
  end.

End Stated.

(** ** Definitions used to state further properties *)

Module Described.

(** One [updateRiskMetrics] call: the clock, the PnL, the timestamp. *)
Definition MetricsUpdate : Type := Z * Q * option Z.

Definition applyUpdate (t : RiskMonitor.Tracker) (u : MetricsUpdate)
    : RiskMonitor.Tracker :=
  let '(now, pnl, timestamp) := u in
  RiskMonitor.updateRiskMetrics now pnl timestamp t.

Definition entryOf (u : MetricsUpdate) : RiskMonitor.TradeEntry :=
  let '(now, pnl, timestamp) := u in
  {| RiskMonitor.te_timestamp := default now timestamp;
     RiskMonitor.te_pnl := pnl |}.

(** [this.dailyPnL += pnl] *)
Definition addPnl (daily : Q) (u : MetricsUpdate) : Q :=
  daily + RiskMonitor.te_pnl (entryOf u).

Definition pushPrice (t : RiskMonitor.Tracker) (u : string * Q)
    : RiskMonitor.Tracker :=
  RiskMonitor.updateVolatility (fst u) (snd u) t.

End Described.

Module DescribedSafety.

(** One [updateDailyLoss] call: the clock and the PnL. *)
Definition recordLoss `{JsRuntime} (st : SafetyManager.State) (u : Z * Q)
    : SafetyManager.State :=
  SafetyManager.updateDailyLoss (fst u) (snd u) st.

(** [this.dailyLoss += pnl] *)
Definition addLoss (daily : Q) (u : Z * Q) : Q := daily + snd u.

(** The three checks of [checkSafety] that trigger the circuit breaker. *)
Definition breakerChecks (st : SafetyManager.State) (riskMetrics : RiskMetrics)
    : bool :=
  let th := SafetyManager.thresholds st in
  num_lt (SafetyManager.dailyLoss st) (- SafetyManager.maxDailyLoss th)
  || num_gt (rm_maxDrawdown riskMetrics) (SafetyManager.maxDrawdown th)
  || num_ge (ofNat (SafetyManager.consecutiveLosses st))
       (SafetyManager.maxConsecutiveLosses th).

End DescribedSafety.

Module DescribedOrders.
Import ExecutionEngine.

(** The orders sent to the exchange, in order. *)
Definition ordersIn (evs : list Event) : list BingXOrderRequest :=
  omap (fun ev => match ev with PlaceOrder r => Some r | Delay _ => None end) evs.

(** What [placeOrderWithRetry] does when every attempt fails, from attempt
    [attempt] with [remaining] attempts to go out of [n]: an order, then a
    pause of [d * attempt] unless it was the last attempt. *)
Fixpoint backoff (request : BingXOrderRequest) (d : Z) (n : nat)
    (remaining : nat) (attempt : Z) : list Event :=
  match remaining with
  | O => []
  | S remaining' =>
      PlaceOrder request
      :: (if (attempt <? Z.of_nat n)%Z then [Delay (d * attempt)%Z] else [])
      ++ backoff request d n remaining' (attempt + 1)%Z
  end.

Definition withEvents (e : Engine) (evs : list Event) : Engine :=
  {| activeOrders := activeOrders e; orderHistory := orderHistory e;
     maxRetries := maxRetries e; retryDelay := retryDelay e; events := evs |}.

End DescribedOrders.

Module DescribedClosing.
Import ExecutionEngine.

(** The order that [closeAllPositions] sends for the [k]-th open position. *)
Definition forcedClose `{JsRuntime} (tick : nat -> Z * string) (k : nat)
    (position : BingXPosition) : BingXOrderRequest :=
  OrderBook.closeRequest (fst (tick k)) (snd (tick k)) (pos_symbol position)
    (if num_gt (pos_positionAmt position) 0 then LONG else SHORT)
    (Qabs (pos_positionAmt position)).

(** The orders the engine keeps, active or archived. *)
Definition tracked (e : Engine) : nat :=
  (size (activeOrders e) + length (orderHistory e))%nat.

End DescribedClosing.

(** ** Definitions used to state the properties in double precision *)

Module Binary64Stated.

(** The timestamp rule does not compute on numbers. *)
Definition timestampValidation := Validator.timestampValidation.

Import Binary64.

#[local] Set Warnings "-inexact-float".
Local Open Scope float_scope.


(** The confidence of a BUY payload with [mfi_value = 80] and
    [rsi_value = 85] before the clamp: the base 1, less 0.2 for the
    correlation rule, less what the three rules that these values do not
    decide cost, less 0.1 for buying in overbought conditions. *)
Definition overboughtBuyConfidence (p : Validator.TradingViewWebhookPayload)
    (now : Z) : float :=
  let c := 1.0 - 0.2 in
  let c :=
    match Validator.signal_strength p with
    | Strength.MEDIUM => c
    | _ => c - 0.15
    end in
  let c :=
    if Validator.priceValidation (Validator.price p) (Validator.symbol p)
    then c else c - 0.1 in
  let c :=
    if timestampValidation now (Validator.timestamp p)
    then c else c - 0.05 in
  c - 0.1.

(** The average of [strengthValues] over a list of strengths. *)
Definition strengthAverage (l : list Strength.t) : float :=
  fold_left (fun sum s => sum + Validator.strengthValues s) l 0
  / ofNat (length l).

End Binary64Stated.

(** ** Concrete inputs: the fixtures of the test suite, and variations *)

Definition mockRiskConfig : RiskManagementConfig :=
  {| stopLossPercent := 2; takeProfitPercent := 4; trailingStopPercent := 1;
     useVolatilityStops := true; maxRiskPerTrade := 2; riskRewardRatio := 2 |}.

Definition mockTradingConfig : TradingConfig :=
  {| positionSizePercent := 2; maxDailyLoss := 5; maxOpenPositions := 3;
     leverageMultiplier := 10; paperTrading := true |}.

Definition mockSafetyThresholds : SafetyManager.SafetyThresholds :=
  {| SafetyManager.maxDailyLoss := 5; SafetyManager.maxDrawdown := 10;
     SafetyManager.maxOpenPositions := 3; SafetyManager.maxPositionSize := 1000;
     SafetyManager.maxLeverage := 10; SafetyManager.minBalance := 100;
     SafetyManager.maxConsecutiveLosses := 5; SafetyManager.maxVolatility := 50;
     SafetyManager.emergencyStopLoss := 5 |}.

(** The same thresholds for a small account: [minBalance] is 10. *)
Definition smallAccountThresholds : SafetyManager.SafetyThresholds :=
  {| SafetyManager.maxDailyLoss := 5; SafetyManager.maxDrawdown := 10;
     SafetyManager.maxOpenPositions := 3; SafetyManager.maxPositionSize := 1000;
     SafetyManager.maxLeverage := 10; SafetyManager.minBalance := 10;
     SafetyManager.maxConsecutiveLosses := 5; SafetyManager.maxVolatility := 50;
     SafetyManager.emergencyStopLoss := 5 |}.

Definition mockSignal : ProcessedSignal :=
  {| sig_symbol := "BTCUSDT"; sig_action := BUY; sig_strength := Strength.STRONG;
     sig_price := 50000; sig_confidence := 8 # 10 |}.

Definition mockAccountInfo : BingXAccountInfo := {| availableBalance := 10000 |}.

Definition mockRiskMetrics : RiskMetrics :=
  {| rm_currentDrawdown := 2; rm_dailyPnL := -100; rm_maxDrawdown := 5;
     rm_volatility := 25 |}.

(** The metrics of the fixture with a volatility of 60. *)
Definition volatileRiskMetrics : RiskMetrics :=
  {| rm_currentDrawdown := 2; rm_dailyPnL := -100; rm_maxDrawdown := 5;
     rm_volatility := 60 |}.

(** A new risk manager. *)
Definition newRiskManager : RiskManager.State :=
  {| RiskManager.config := mockRiskConfig; RiskManager.dailyPnL := 0;
     RiskManager.maxDrawdown := 0; RiskManager.peakBalance := 0 |}.

(** A risk manager whose accumulated daily PnL is -600. *)
Definition riskManagerAfterLoss : RiskManager.State :=
  {| RiskManager.config := mockRiskConfig; RiskManager.dailyPnL := -600;
     RiskManager.maxDrawdown := 0; RiskManager.peakBalance := 0 |}.

Definition btcPosition : BingXPosition :=
  {| pos_symbol := "BTCUSDT"; pos_positionAmt := 1 # 100; pos_entryPrice := 50000 |}.

Definition losingTrade (id : string) : TradeRecord :=
  {| tr_id := id; tr_symbol := "BTCUSDT"; tr_pnl := Some (-10) |}.

Definition fiveLosses : list TradeRecord :=
  [losingTrade "t1"; losingTrade "t2"; losingTrade "t3"; losingTrade "t4";
   losingTrade "t5"].

(** Calls made on a safety manager while the emergency stop is on. *)
Definition callsWhileStopped : list (Z * SafetyManager.Op) :=
  [ (1000, SafetyManager.UpdateDailyLoss (-600));
    (2000, SafetyManager.CheckSafety mockAccountInfo [] mockRiskMetrics fiveLosses);
    (3000, SafetyManager.ResetCircuitBreaker);
    (4000, SafetyManager.TriggerCircuitBreaker "manual");
    (5000, SafetyManager.StartTradingSession);
    (6000, SafetyManager.EndTradingSession 100 5);
    (7000, SafetyManager.ActivateEmergencyStop) ]%Z.

(** A sizing request that supplies no [maxRiskPerTrade]. *)
Definition sampleRequest : PositionSizer.PositionSizeRequest :=
  {| PositionSizer.symbol := "BTCUSDT"; PositionSizer.price := 100;
     PositionSizer.confidence := 1;
     PositionSizer.signalStrength := Strength.STRONG;
     PositionSizer.accountBalance := 10000;
     PositionSizer.currentPositions := 1;
     PositionSizer.volatility := Some 30;
     PositionSizer.maxRiskPerTrade := None |}.

Definition fiveUnits : PositionSizer.PositionSizeResult :=
  {| PositionSizer.quantity := 5; PositionSizer.notionalValue := 500;
     PositionSizer.riskAmount := 10; PositionSizer.riskPercentage := 1 # 10;
     PositionSizer.leverage := 10; PositionSizer.strategy := "COMBINED_STRATEGY";
     PositionSizer.result_confidence := 1; PositionSizer.warnings := [] |}.

(** An execution request whose risk check failed on the daily loss limit. *)
Definition rejectedRequest : ExecutionEngine.TradeExecutionRequest :=
  {| ExecutionEngine.signal := mockSignal;
     ExecutionEngine.positionSize := fiveUnits;
     ExecutionEngine.riskCheck :=
       fst (RiskManager.checkTradeRisk riskManagerAfterLoss mockSignal
              50000 10000 [] None);
     ExecutionEngine.currentPrice := 50000;
     ExecutionEngine.accountInfo := mockAccountInfo |}.

(** An execution request that passed the risk check. *)
Definition acceptedRequest : ExecutionEngine.TradeExecutionRequest :=
  {| ExecutionEngine.signal := mockSignal;
     ExecutionEngine.positionSize := fiveUnits;
     ExecutionEngine.riskCheck :=
       {| RiskManager.shouldTrade := true; RiskManager.riskLevel := LOW;
          RiskManager.warnings := []; RiskManager.maxPositionSize := 4 # 1000;
          RiskManager.stopLossPrice := 49000;
          RiskManager.takeProfitPrice := 52000;
          RiskManager.trailingStopPrice := None |};
     ExecutionEngine.currentPrice := 50000;
     ExecutionEngine.accountInfo := mockAccountInfo |}.

(** An exchange that accepts every order. *)
Definition acceptingClient : ExecutionEngine.Client :=
  fun _ _ => inr {| ExecutionEngine.resp_orderId := 12345 |}.

(** An exchange that rejects stop orders and accepts the others. *)
Definition rejectingStops : ExecutionEngine.Client :=
  fun _ request =>
    match ExecutionEngine.req_orderType request with
    | Some "STOP_MARKET"%string => inl "stop orders are disabled"%string
    | _ => inr {| ExecutionEngine.resp_orderId := 12345 |}
    end.

(** Two calls of [updateRiskMetrics]: a loss, then a gain with its own
    timestamp. *)
Definition sampleUpdates : list Described.MetricsUpdate :=
  [ (1000%Z, -50, None); (2000%Z, 20, Some 1500%Z) ].

(** Two losses recorded on the first day. *)
Definition sampleLosses : list (Z * Q) := [ (1000%Z, -30); (2000%Z, -20) ].

(** A new safety manager. *)
Definition newSafetyManager : SafetyManager.State :=
  SafetyManager.create mockSafetyThresholds 0.

(** A safety manager that has completed one session. *)
Definition oneSession : SafetyManager.State :=
  SafetyManager.endTradingSession 2000 100 5
    (SafetyManager.startTradingSession 1000 newSafetyManager).

(** An exchange that rejects every order. *)
Definition rejectingClient : ExecutionEngine.Client :=
  fun _ _ => inl "exchange unavailable"%string.

(** ** Concrete inputs in double precision *)

Module Binary64Inputs.
Import Binary64.

#[local] Set Warnings "-inexact-float".
Local Open Scope float_scope.

Definition numberToString (x : float) : string :=
  match exact x with
  | Some q => sampleNumToString q
  | None => "NaN"
  end.

(** [Math.pow] on the bases 0 and 1. *)
Definition samplePow (base exponent : float) : float := base.

Definition sampleRuntime : JsRuntime :=
  {| numToString := numberToString; mathPow := samplePow |}.

Definition mockRiskConfig : RiskManagementConfig :=
  {| stopLossPercent := 2; takeProfitPercent := 4; trailingStopPercent := 1;
     useVolatilityStops := true; maxRiskPerTrade := 2; riskRewardRatio := 2 |}.

(** The configuration of the fixture with a stop-loss of 2.5%. *)
Definition tightRiskConfig : RiskManagementConfig :=
  {| stopLossPercent := 2.5; takeProfitPercent := 4; trailingStopPercent := 1;
     useVolatilityStops := true; maxRiskPerTrade := 2; riskRewardRatio := 2 |}.

Definition mockTradingConfig : TradingConfig :=
  {| positionSizePercent := 2; maxDailyLoss := 5; maxOpenPositions := 3;
     leverageMultiplier := 10; paperTrading := true |}.

Definition mockSignal : ProcessedSignal :=
  {| sig_symbol := "BTCUSDT"; sig_action := BUY; sig_strength := Strength.STRONG;
     sig_price := 50000; sig_confidence := 0.8 |}.

Definition newRiskManager (cfg : RiskManagementConfig) : RiskManager.State :=
  {| RiskManager.config := cfg; RiskManager.dailyPnL := 0;
     RiskManager.maxDrawdown := 0; RiskManager.peakBalance := 0 |}.



(** A BUY alert in overbought conditions, as the schema returns it. *)
Definition overboughtBuy : Validator.TradingViewWebhookPayload :=
  {| Validator.timestamp := 1000; Validator.symbol := "BTCUSDT";
     Validator.action := BUY; Validator.signal_strength := Strength.MEDIUM;
     Validator.price := 45000; Validator.mfi_value := 80;
     Validator.rsi_value := 85; Validator.timeframe := "1h";
     Validator.strategy := "MFI_RSI"; Validator.secret := "shared-secret" |}.

(** A schema that its payload satisfies: the value is the payload. *)
Definition satisfiedSchema (payload : Validator.TradingViewWebhookPayload)
    : Validator.SchemaResult :=
  inr (Some payload).

End Binary64Inputs.

(** ** Facts about the comparisons *)

Lemma num_lt_true a b : num_lt a b = true <-> a < b.
Proof.
  unfold num_lt. rewrite negb_true_iff. split.
  - intros Hb. apply Qnot_le_lt. intros Hle.
    apply Qle_bool_iff in Hle. congruence.
  - intros Hlt. destruct (Qle_bool b a) eqn:E; [|reflexivity].
    apply Qle_bool_iff in E. exfalso. apply (Qlt_not_le _ _ Hlt E).
Qed.

Lemma num_lt_false a b : num_lt a b = false <-> b <= a.
Proof. unfold num_lt. rewrite negb_false_iff. apply Qle_bool_iff. Qed.

Lemma num_gt_true a b : num_gt a b = true <-> b < a.
Proof. apply num_lt_true. Qed.

Lemma num_gt_false a b : num_gt a b = false <-> a <= b.
Proof. apply num_lt_false. Qed.

Lemma num_le_false a b : num_le a b = false <-> b < a.
Proof.
  unfold num_le. split.
  - intros Hb. apply Qnot_le_lt. intros Hle.
    apply Qle_bool_iff in Hle. congruence.
  - intros Hlt. destruct (Qle_bool a b) eqn:E; [|reflexivity].
    apply Qle_bool_iff in E. exfalso. apply (Qlt_not_le _ _ Hlt E).
Qed.

Lemma num_ge_false a b : num_ge a b = false <-> a < b.
Proof. apply num_le_false. Qed.

Lemma num_lt_proper a a' b : a == a' -> num_lt a b = num_lt a' b.
Proof.
  intros Ha. destruct (num_lt a' b) eqn:E.
  - apply num_lt_true. rewrite Ha. now apply num_lt_true.
  - apply num_lt_false. rewrite Ha. now apply num_lt_false.
Qed.

Lemma num_gt_proper a a' b : a == a' -> num_gt a b = num_gt a' b.
Proof.
  intros Ha. destruct (num_gt a' b) eqn:E.
  - apply num_gt_true. rewrite Ha. now apply num_gt_true.
  - apply num_gt_false. rewrite Ha. now apply num_gt_false.
Qed.

Lemma falsy_zero v : v == 0 -> truthy v = false.
Proof.
  intros Hv. unfold truthy. apply negb_false_iff. now apply Qeq_bool_iff.
Qed.

Lemma truthy_positive a : 0 < a -> truthy a = true.
Proof.
  intros Ha. unfold truthy. apply negb_true_iff.
  destruct (Qeq_bool a 0) eqn:E; [|reflexivity].
  apply Qeq_bool_iff in E. rewrite E in Ha. exfalso. apply (Qlt_irrefl _ Ha).
Qed.

(** ** Properties of the risk manager *)

Module RiskManagerFacts.
Import RiskManager.




(** The level that [checkTradeRisk] returns is the one of the last check
    that fired. *)
Lemma checkTradeRisk_level st signal P balance positions vol :
  riskLevel (fst (checkTradeRisk st signal P balance positions vol))
  = if optTruthy vol
       && match vol with Some x => num_gt x 50 | None => false end
    then HIGH
    else if bool_decide
              (0 < length (filter (fun p => pos_symbol p = sig_symbol signal)
                             positions))%nat
    then HIGH
    else if num_gt (fst (calculateDrawdown st balance)) 10 then CRITICAL
    else if num_lt (dailyPnL st)
              (- (balance * maxRiskPerTrade (config st) / 100))
    then CRITICAL
    else LOW.
Proof.
  unfold checkTradeRisk.
  destruct (calculateDrawdown st balance) as [dd st'].
  destruct (calculateStopLevels (config st) signal P vol) as [sl tp].
  cbn [fst riskLevel].
  destruct (optTruthy vol && _), (bool_decide _), (num_gt dd 10), (num_lt _ _);
    reflexivity.
Qed.



End RiskManagerFacts.

(** ** Properties of the safety manager *)

Module SafetyManagerFacts.
Import SafetyManager.

Section Latch.
Context `{JsRuntime}.

Lemma checkSafety_stopped now st a p m t :
  emergencyStop st = true ->
  checkSafety now st a p m t
  = ({| isTradingEnabled := false; circuitBreakerActive := false;
        emergencyStopActive := true;
        warnings := ["Emergency stop is active"%string];
        lastCheck := now; riskLevel := CRITICAL |}, st).
Proof. intros Hstop. unfold checkSafety. rewrite Hstop. reflexivity. Qed.

Lemma step_keeps_latch st call :
  emergencyStop st = true ->
  snd call <> DeactivateEmergencyStop ->
  emergencyStop (step st call) = true.
Proof.
  intros Hstop Hop. destruct call as [now op]. simpl in Hop.
  destruct op; simpl; try assumption; try reflexivity.
  - rewrite checkSafety_stopped by assumption. exact Hstop.
  - contradiction.
  - unfold updateDailyLoss. case_bool_decide; exact Hstop.
  - unfold endTradingSession.
    destruct (reverse (tradingSessions st)); exact Hstop.
Qed.

Lemma run_keeps_latch calls : forall st,
  emergencyStop st = true ->
  Forall (fun call => snd call <> DeactivateEmergencyStop) calls ->
  emergencyStop (run st calls) = true.
Proof.
  induction calls as [|call calls IH]; intros st Hstop Hall; simpl.
  - exact Hstop.
  - inversion Hall as [|? ? Hcall Hrest]; subst.
    apply IH; [apply step_keeps_latch; assumption | assumption].
Qed.

(** C5. After [activateEmergencyStop], and as long as
    [deactivateEmergencyStop] is not called, whatever other calls are
    made on the safety manager (the methods that only read it are left
    out of [Op]), the latch stays set and every [checkSafety] call
    returns [isTradingEnabled = false], [emergencyStopActive = true] and
    [riskLevel = CRITICAL], for every account info, open positions, risk
    metrics and recent trades. *)
Theorem emergency_stop_latched st calls :
  Forall (fun call => snd call <> DeactivateEmergencyStop) calls ->
  let st' := run (activateEmergencyStop st) calls in
  emergencyStop st' = true
  /\ forall now a p m t,
       let r := fst (checkSafety now st' a p m t) in
       isTradingEnabled r = false
       /\ emergencyStopActive r = true
       /\ riskLevel r = CRITICAL.
Proof.
  intros Hall st'.
  assert (Hstop : emergencyStop st' = true)
    by (apply run_keeps_latch; [reflexivity | exact Hall]).
  split; [exact Hstop|].
  intros now a p m t r. subst r.
  rewrite checkSafety_stopped by exact Hstop. simpl. auto.
Qed.

(** The latch is cleared by [deactivateEmergencyStop]. *)
Lemma deactivate_clears_latch st :
  emergencyStop (deactivateEmergencyStop st) = false.
Proof. reflexivity. Qed.

End Latch.

Section Checks.
Context `{JsRuntime}.

(** The status that [checkSafety] returns does not depend on the trades it
    is passed; they only set the count that the next call reads. *)
Lemma checkSafety_status_ignores_trades now st a p m trades trades' :
  fst (checkSafety now st a p m trades) = fst (checkSafety now st a p m trades').
Proof.
  unfold checkSafety.
  destruct (emergencyStop st); [reflexivity|].
  destruct (isActive (circuitBreaker st) && _); [reflexivity|].
  repeat match goal with
         | |- context [let '(_, _) := (if ?c then _ else _) in _] => destruct c
         end; reflexivity.
Qed.

Lemma checkSafety_stores_count now st a p m trades :
  emergencyStop st = false ->
  isActive (circuitBreaker st)
  && (now - triggerTime (circuitBreaker st) <? cooldownPeriod (circuitBreaker st))%Z
  = false ->
  consecutiveLosses (snd (checkSafety now st a p m trades))
  = countLosses (reverse trades).
Proof.
  intros Hstop Hcool. unfold checkSafety. rewrite Hstop, Hcool.
  repeat match goal with
         | |- context [let '(_, _) := (if ?c then _ else _) in _] => destruct c
         end; reflexivity.
Qed.

(** Outside the emergency stop and the cooldown, the level that
    [checkSafety] returns is the one of the last check that fired. *)
Lemma checkSafety_level now st a p m trades :
  emergencyStop st = false ->
  isActive (circuitBreaker st)
  && (now - triggerTime (circuitBreaker st) <? cooldownPeriod (circuitBreaker st))%Z
  = false ->
  riskLevel (fst (checkSafety now st a p m trades))
  = let th := thresholds st in
    let balance := availableBalance a in
    let total :=
      fold_left (fun sum pos => sum + pos_positionAmt pos * pos_entryPrice pos)
        p 0 in
    if leverageExceeds total balance (maxLeverage th) then HIGH
    else if num_gt (rm_volatility m) (maxVolatility th) then MEDIUM
    else if num_ge (ofNat (consecutiveLosses st)) (maxConsecutiveLosses th)
    then HIGH
    else if num_gt total (maxPositionSize th) then HIGH
    else if num_ge (ofNat (length p)) (maxOpenPositions th) then HIGH
    else if num_gt (rm_maxDrawdown m) (maxDrawdown th) then CRITICAL
    else if num_lt (dailyLoss st) (- maxDailyLoss th) then CRITICAL
    else if num_lt balance (minBalance th) then CRITICAL
    else LOW.
Proof.
  intros Hstop Hcool. unfold checkSafety. rewrite Hstop, Hcool. cbv zeta.
  destruct (isActive (circuitBreaker st) && autoReset (circuitBreaker st));
    repeat (cbn [triggerCircuitBreaker resetCircuitBreaker setCircuitBreaker
                   thresholds dailyLoss consecutiveLosses];
            match goal with
            | |- context [if ?c then _ else _] => destruct c
            end);
    reflexivity.
Qed.

(** What holds of the daily loss limit: outside the emergency stop and the
    cooldown, a daily PnL below [-maxDailyLoss], taken as an amount,
    disables trading and leaves the circuit breaker active. *)
Lemma daily_loss_breach_absolute now st a p m trades :
  emergencyStop st = false ->
  isActive (circuitBreaker st)
  && (now - triggerTime (circuitBreaker st) <? cooldownPeriod (circuitBreaker st))%Z
  = false ->
  dailyLoss st < - maxDailyLoss (thresholds st) ->
  let r := fst (checkSafety now st a p m trades) in
  isTradingEnabled r = false /\ circuitBreakerActive r = true.
Proof.
  intros Hstop Hcool Hloss. unfold checkSafety. rewrite Hstop, Hcool.
  assert (Hfire : forall st0, dailyLoss st0 = dailyLoss st ->
                              thresholds st0 = thresholds st ->
                              num_lt (dailyLoss st0) (- maxDailyLoss (thresholds st0))
                              = true).
  { intros st0 -> ->. now apply num_lt_true. }
  destruct (isActive (circuitBreaker st) && autoReset (circuitBreaker st));
    rewrite Hfire by reflexivity;
    repeat match goal with
           | |- context [if ?c then _ else _] => destruct c
           end; split; reflexivity.
Qed.

End Checks.

Lemma emergency_stop_latched_witness :
  Forall (fun call => snd call <> DeactivateEmergencyStop) callsWhileStopped
  /\ let st' := run (H := sampleRuntime)
                  (activateEmergencyStop (create mockSafetyThresholds 0))
                  callsWhileStopped in
     emergencyStop st' = true
     /\ forall now a p m t,
          let r := fst (checkSafety (H := sampleRuntime) now st' a p m t) in
          isTradingEnabled r = false
          /\ emergencyStopActive r = true
          /\ riskLevel r = CRITICAL.
Proof.
  assert (Hall : Forall (fun call => snd call <> DeactivateEmergencyStop)
                   callsWhileStopped)
    by (repeat constructor; simpl; discriminate).
  split; [exact Hall|].
  exact (emergency_stop_latched (H := sampleRuntime)
           (create mockSafetyThresholds 0) callsWhileStopped Hall).
Defined.

(** C2, evaluated.  With [maxDailyLoss = 5]:
    - balance 50 ([minBalance = 10]), one [updateDailyLoss(-3)]: the daily
      PnL is below -(50 * 5%) = -2.5, yet [checkSafety] sees no daily-loss
      breach (it compares the PnL with -5): trading stays enabled, the
      level is LOW and the circuit breaker inactive;
    - balance 10000 (the thresholds of the test suite), one
      [updateDailyLoss(-600)], volatility 60: the breach is seen and the
      breaker triggered, but the level returned is MEDIUM, the one of the
      volatility check that runs later. *)
Theorem daily_loss_breach_evaluated :
  (let st := updateDailyLoss (H := sampleRuntime) 0 (-3)
               (create smallAccountThresholds 0) in
   let r := fst (checkSafety (H := sampleRuntime) 1000 st
                   {| availableBalance := 50 |} [] mockRiskMetrics []) in
   dailyLoss st < - (50 * (maxDailyLoss smallAccountThresholds / 100))
   /\ warnings r = []
   /\ isTradingEnabled r = true
   /\ riskLevel r = LOW
   /\ circuitBreakerActive r = false)
  /\
  (let st := updateDailyLoss (H := sampleRuntime) 0 (-600)
               (create mockSafetyThresholds 0) in
   let r := fst (checkSafety (H := sampleRuntime) 1000 st mockAccountInfo []
                   volatileRiskMetrics []) in
   dailyLoss st < - (10000 * (maxDailyLoss mockSafetyThresholds / 100))
   /\ warnings r = ["Daily loss limit exceeded: -600"%string;
                    "High volatility detected: 60%"%string]
   /\ isTradingEnabled r = false
   /\ riskLevel r = MEDIUM
   /\ circuitBreakerActive r = true).
Proof.
  split; cbv zeta; (split; [reflexivity | vm_compute; repeat split]).
Qed.

(** C4, evaluated.  On a new safety manager ([maxConsecutiveLosses = 5])
    a [checkSafety] call whose [recentTrades] are five losing trades adds
    no warning, returns LOW and leaves the circuit breaker inactive; it
    stores the count 5.  The next call, which is passed no trade at all,
    then adds the consecutive-losses warning, returns HIGH and triggers
    the circuit breaker. *)
Theorem consecutive_losses_evaluated :
  let s0 := create mockSafetyThresholds 0 in
  let c1 := checkSafety (H := sampleRuntime) 1000 s0 mockAccountInfo []
              mockRiskMetrics fiveLosses in
  let c2 := checkSafety (H := sampleRuntime) 2000 (snd c1) mockAccountInfo []
              mockRiskMetrics [] in
  (warnings (fst c1) = []
   /\ riskLevel (fst c1) = LOW
   /\ circuitBreakerActive (fst c1) = false
   /\ consecutiveLosses (snd c1) = 5%nat)
  /\ (warnings (fst c2) = ["Maximum consecutive losses reached: 5"%string]
      /\ riskLevel (fst c2) = HIGH
      /\ circuitBreakerActive (fst c2) = true
      /\ consecutiveLosses (snd c2) = 0%nat).
Proof. vm_compute. repeat split. Qed.

End SafetyManagerFacts.

(** C1, evaluated.  In both functions a check that fires assigns its level
    to [riskLevel], whatever the level already is.
    - [checkTradeRisk] with a daily PnL of -600 on a balance of 10000 and an
      open position in the signal's symbol: the daily-loss check (CRITICAL)
      and the concentration check (HIGH) fire, the result is HIGH, and with
      it a [maxPositionSize] that is not 0.
    - [checkSafety] after [updateDailyLoss(-600)] with a volatility of 60:
      the daily-loss check (CRITICAL) and the volatility check (MEDIUM)
      fire, the result is MEDIUM. *)
Theorem risk_level_overwritten :
  (let r := fst (RiskManager.checkTradeRisk riskManagerAfterLoss mockSignal
                   50000 10000 [btcPosition] None) in
   RiskManager.warnings r = ["Daily loss limit reached"%string;
                             "Position already exists for this symbol"%string]
   /\ RiskManager.shouldTrade r = false
   /\ RiskManager.riskLevel r = HIGH
   /\ 0 < RiskManager.maxPositionSize r)
  /\
  (let st := SafetyManager.updateDailyLoss (H := sampleRuntime) 0 (-600)
               (SafetyManager.create mockSafetyThresholds 0) in
   let r := fst (SafetyManager.checkSafety (H := sampleRuntime) 1000 st
                   mockAccountInfo [] volatileRiskMetrics []) in
   SafetyManager.warnings r = ["Daily loss limit exceeded: -600"%string;
                               "High volatility detected: 60%"%string]
   /\ SafetyManager.isTradingEnabled r = false
   /\ SafetyManager.riskLevel r = MEDIUM).
Proof. split; vm_compute; repeat split. Qed.

(** ** Properties of the execution engine *)

Module ExecutionEngineFacts.
Import ExecutionEngine Stated.

Section WithClient.
Context `{JsRuntime}.
Variable client : Client.

(** C6. If [riskCheck.shouldTrade] is false, or [positionSize.quantity]
    is not positive, [executeTrade] makes no call to the exchange client
    (the engine, and with it the record of calls, is unchanged) and
    returns a failure whose warnings are those of the risk check when
    [shouldTrade] is false, and those of the position size otherwise. *)
Theorem rejected_without_exchange_call now rnd request e :
  RiskManager.shouldTrade (riskCheck request) = false
  \/ PositionSizer.quantity (positionSize request) <= 0 ->
  let res := executeTrade client now rnd request e in
  snd res = e
  /\ events (snd res) = events e
  /\ success (fst res) = false
  /\ warnings (fst res)
     = if RiskManager.shouldTrade (riskCheck request)
       then PositionSizer.warnings (positionSize request)
       else RiskManager.warnings (riskCheck request).
Proof.
  intros Hrej. unfold executeTrade, executeTradeBody. cbv zeta.
  destruct (RiskManager.shouldTrade (riskCheck request)) eqn:Htrade; simpl.
  - destruct Hrej as [Hf | Hq]; [discriminate Hf|].
    apply Qle_bool_iff in Hq. unfold num_le. rewrite Hq. simpl. auto.
  - auto.
Qed.

(** [placeOrderWithRetry] returns a result, it never throws. *)
Lemma retryLoop_returns now request remaining : forall attempt lastError e,
  exists r e', retryLoop client now request remaining attempt lastError e
               = (inr r, e').
Proof.
  induction remaining as [|remaining IH]; intros attempt lastError e.
  - simpl. unfold bind, getMaxRetries, ret. eauto.
  - simpl. unfold tryCatch, bind, clientPlaceOrder, getMaxRetries,
      getRetryDelay, setActiveOrder, ret.
    destruct (client (events e) request) as [msg | response]; [|eauto].
    destruct (attempt <? Z.of_nat (maxRetries (record (PlaceOrder request) e)))%Z;
      unfold delay, ret; apply IH.
Qed.

Lemma placeStopLossOrder_run now symbol quantity stopPrice side parent e :
  let request := stopLossRequest now symbol quantity stopPrice side parent in
  exists r,
    placeStopLossOrder client now symbol quantity stopPrice side parent e
    = (inr r, record (PlaceOrder request) e)
    /\ warnings r
       = if threw (client (events e) request)
         then ["Failed to place stop loss order"%string] else [].
Proof.
  intros request. unfold placeStopLossOrder, tryCatch, bind, clientPlaceOrder, ret.
  fold request. destruct (client (events e) request); simpl; eauto.
Qed.

Lemma placeTakeProfitOrder_run now symbol quantity takeProfitPrice side parent e :
  let request :=
    takeProfitRequest now symbol quantity takeProfitPrice side parent in
  exists r,
    placeTakeProfitOrder client now symbol quantity takeProfitPrice side parent e
    = (inr r, record (PlaceOrder request) e)
    /\ warnings r
       = if threw (client (events e) request)
         then ["Failed to place take profit order"%string] else [].
Proof.
  intros request.
  unfold placeTakeProfitOrder, tryCatch, bind, clientPlaceOrder, ret.
  fold request. destruct (client (events e) request); simpl; eauto.
Qed.

(** C8. If the market entry order succeeds, [executeTrade] returns
    [success = true] whether or not placing the stop-loss or the
    take-profit order throws, and its warnings are exactly one warning
    for each of the two bracket orders that threw; both bracket orders
    are attempted. *)
Theorem bracket_failures_are_warnings now rnd request e entry :
  RiskManager.shouldTrade (riskCheck request) = true ->
  0 < PositionSizer.quantity (positionSize request) ->
  let attempt :=
    placeOrderWithRetry client now (entryOrderRequest now rnd request) e in
  fst attempt = inr entry ->
  success entry = true ->
  let e1 := snd attempt in
  let side := entryPositionSide (sig_action (signal request)) in
  let parent := default "undefined"%string (clientOrderId entry) in
  let sl :=
    stopLossRequest now (sig_symbol (signal request))
      (PositionSizer.quantity (positionSize request))
      (RiskManager.stopLossPrice (riskCheck request)) side parent in
  let tp :=
    takeProfitRequest now (sig_symbol (signal request))
      (PositionSizer.quantity (positionSize request))
      (RiskManager.takeProfitPrice (riskCheck request)) side parent in
  let res := executeTrade client now rnd request e in
  success (fst res) = true
  /\ warnings (fst res)
     = (if threw (client (events e1) sl)
        then ["Failed to place stop loss order"%string] else [])
       ++ (if threw (client (events e1 ++ [PlaceOrder sl]) tp)
           then ["Failed to place take profit order"%string] else [])
  /\ events (snd res) = events e1 ++ [PlaceOrder sl; PlaceOrder tp].
Proof.
  intros Htrade Hq attempt Hentry Hok e1 side parent sl tp res.
  assert (Hattempt : placeOrderWithRetry client now
                       (entryOrderRequest now rnd request) e = (inr entry, e1)).
  { subst e1. fold attempt. destruct attempt as [out e1']. simpl in Hentry.
    subst out. reflexivity. }
  destruct (placeStopLossOrder_run now (sig_symbol (signal request))
              (PositionSizer.quantity (positionSize request))
              (RiskManager.stopLossPrice (riskCheck request)) side parent e1)
    as (rsl & Hrsl & Hsl).
  destruct (placeTakeProfitOrder_run now (sig_symbol (signal request))
              (PositionSizer.quantity (positionSize request))
              (RiskManager.takeProfitPrice (riskCheck request)) side parent
              (record (PlaceOrder sl) e1))
    as (rtp & Hrtp & Htp).
  assert (Hres : res
                 = ({| success := true;
                       orderId := orderId entry;
                       clientOrderId := clientOrderId entry;
                       executedPrice := Some (currentPrice request);
                       executedQuantity :=
                         Some (PositionSizer.quantity (positionSize request));
                       fees := Some 0;
                       error := None;
                       warnings := ([] ++ warnings rsl) ++ warnings rtp;
                       timestamp := now |},
                    record (PlaceOrder tp) (record (PlaceOrder sl) e1))).
  { subst res. unfold executeTrade, executeTradeBody. cbv zeta.
    rewrite Htrade, (proj2 (num_le_false _ _) Hq). cbn [negb].
    unfold bind. rewrite Hattempt, Hok. cbn [negb].
    fold side parent. rewrite Hrsl. fold sl. rewrite Hrtp. reflexivity. }
  rewrite Hres. cbn [fst snd success warnings events record].
  rewrite Hsl, Htp. fold sl tp.
  split; [reflexivity|]. split; [reflexivity|].
  rewrite <- app_assoc. reflexivity.
Qed.

End WithClient.

Lemma rejected_without_exchange_call_witness :
  let res := executeTrade (H := sampleRuntime) acceptingClient 1000 "k3x9a7q2m"
               rejectedRequest create in
  snd res = create
  /\ events (snd res) = []
  /\ success (fst res) = false
  /\ warnings (fst res) = ["Daily loss limit reached"%string].
Proof.
  apply (rejected_without_exchange_call (H := sampleRuntime) acceptingClient
           1000 "k3x9a7q2m" rejectedRequest create).
  left. reflexivity.
Defined.

Lemma bracket_failures_are_warnings_witness :
  let res := executeTrade (H := sampleRuntime) rejectingStops 1000 "k3x9a7q2m"
               acceptedRequest create in
  success (fst res) = true
  /\ warnings (fst res) = ["Failed to place stop loss order"%string]
  /\ length (events (snd res)) = 3%nat.
Proof.
  pose proof (bracket_failures_are_warnings (H := sampleRuntime) rejectingStops
                1000 "k3x9a7q2m" acceptedRequest create
                (placed (H := sampleRuntime) 1000 12345 "bot_1000_k3x9a7q2m")
                eq_refl eq_refl eq_refl eq_refl) as (Hs & Hw & He).
  split; [exact Hs|]. split; [exact Hw|].
  rewrite He. reflexivity.
Defined.

End ExecutionEngineFacts.

(** ** Properties of position monitoring and risk metrics *)

Module RiskMonitorFacts.
Import RiskMonitor Described.

(** X1. [checkPositionRisk] leaves a position open exactly when the current
    price is strictly inside the stop-loss and take-profit levels on the
    side of the position, and strictly clear of the trailing stop when one
    is set and is not 0: any touch of a level closes the position. *)
Theorem position_kept_open_iff cfg position :
  shouldClose (checkPositionRisk cfg position) = false
  <-> match side position with
      | LONG =>
          stopLossPrice position < currentPrice position
          /\ currentPrice position < takeProfitPrice position
          /\ forall trail, trailingStopPrice position = Some trail ->
               trail == 0 \/ trail < currentPrice position
      | SHORT =>
          currentPrice position < stopLossPrice position
          /\ takeProfitPrice position < currentPrice position
          /\ forall trail, trailingStopPrice position = Some trail ->
               trail == 0 \/ currentPrice position < trail
      end.
Proof.
  unfold checkPositionRisk. cbv zeta.
  destruct (side position); cbn [isLong isShort andb orb];
    rewrite ?orb_false_r.
  - destruct (num_le (currentPrice position) (stopLossPrice position)) eqn:Esl.
    { cbn. split; [discriminate|]. intros (Hsl & _).
      apply Qle_bool_iff in Esl. exfalso. apply (Qlt_not_le _ _ Hsl Esl). }
    apply num_le_false in Esl.
    destruct (num_ge (currentPrice position) (takeProfitPrice position)) eqn:Etp.
    { cbn. split; [discriminate|]. intros (_ & Htp & _).
      apply Qle_bool_iff in Etp. exfalso. apply (Qlt_not_le _ _ Htp Etp). }
    apply num_ge_false in Etp.
    destruct (trailingStopPrice position) as [trail|].
    + destruct (truthy trail) eqn:Etruthy; cbn [andb].
      * destruct (num_le (currentPrice position) trail) eqn:Etr; cbn.
        -- split; [discriminate|]. intros (_ & _ & Htr).
           destruct (Htr trail eq_refl) as [Hz | Hlt].
           ++ rewrite (falsy_zero _ Hz) in Etruthy. discriminate.
           ++ apply Qle_bool_iff in Etr. exfalso. apply (Qlt_not_le _ _ Hlt Etr).
        -- apply num_le_false in Etr. split; [|reflexivity].
           intros _. repeat split; try assumption.
           intros tr [= <-]. now right.
      * cbn. split; [|reflexivity]. intros _. repeat split; try assumption.
        intros tr [= <-]. left.
        unfold truthy in Etruthy. apply negb_false_iff in Etruthy.
        now apply Qeq_bool_iff.
    + cbn. split; [|reflexivity]. intros _. repeat split; try assumption.
      intros tr Htr. discriminate Htr.
  - destruct (num_ge (currentPrice position) (stopLossPrice position)) eqn:Esl.
    { cbn. split; [discriminate|]. intros (Hsl & _).
      apply Qle_bool_iff in Esl. exfalso. apply (Qlt_not_le _ _ Hsl Esl). }
    apply num_ge_false in Esl.
    destruct (num_le (currentPrice position) (takeProfitPrice position)) eqn:Etp.
    { cbn. split; [discriminate|]. intros (_ & Htp & _).
      apply Qle_bool_iff in Etp. exfalso. apply (Qlt_not_le _ _ Htp Etp). }
    apply num_le_false in Etp.
    destruct (trailingStopPrice position) as [trail|].
    + destruct (truthy trail) eqn:Etruthy; cbn [andb].
      * destruct (num_ge (currentPrice position) trail) eqn:Etr; cbn.
        -- split; [discriminate|]. intros (_ & _ & Htr).
           destruct (Htr trail eq_refl) as [Hz | Hlt].
           ++ rewrite (falsy_zero _ Hz) in Etruthy. discriminate.
           ++ apply Qle_bool_iff in Etr. exfalso. apply (Qlt_not_le _ _ Hlt Etr).
        -- apply num_ge_false in Etr. split; [|reflexivity].
           intros _. repeat split; try assumption.
           intros tr [= <-]. now right.
      * cbn. split; [|reflexivity]. intros _. repeat split; try assumption.
        intros tr [= <-]. left.
        unfold truthy in Etruthy. apply negb_false_iff in Etruthy.
        now apply Qeq_bool_iff.
    + cbn. split; [|reflexivity]. intros _. repeat split; try assumption.
      intros tr Htr. discriminate Htr.
Qed.


Lemma lastN_all {A} n (l : list A) : (length l <= n)%nat -> lastN n l = l.
Proof.
  intros Hl. unfold lastN. replace (length l - n)%nat with 0%nat by lia.
  reflexivity.
Qed.

Lemma lastN_length {A} n (l : list A) : length (lastN n l) = Nat.min n (length l).
Proof. unfold lastN. rewrite length_drop. lia. Qed.

Lemma lastN_snoc {A} n (l : list A) x :
  (0 < n)%nat -> lastN n (lastN n l ++ [x]) = lastN n (l ++ [x]).
Proof.
  intros Hn. unfold lastN.
  destruct (decide (length l <= n)%nat) as [Hle|Hgt].
  - replace (length l - n)%nat with 0%nat by lia. reflexivity.
  - assert (Hk : length (drop (length l - n) l) = n)
      by (rewrite length_drop; lia).
    rewrite !length_app, Hk. cbn [length].
    replace (n + 1 - n)%nat with 1%nat by lia.
    rewrite (drop_app_le (drop (length l - n) l) [x] 1) by lia.
    rewrite (drop_app_le l [x] (length l + 1 - n)) by lia.
    rewrite drop_drop. f_equal. f_equal. lia.
Qed.

Lemma updateRiskMetrics_history now pnl timestamp t :
  (length (tradeHistory t) <= 1000)%nat ->
  tradeHistory (updateRiskMetrics now pnl timestamp t)
  = lastN 1000 (tradeHistory t ++ [entryOf (now, pnl, timestamp)]).
Proof.
  intros Hl. unfold updateRiskMetrics. cbv zeta.
  destruct (num_gt _ _); cbn [tradeHistory entryOf];
    (case_bool_decide as Hlen; [reflexivity|];
     symmetry; apply lastN_all; lia).
Qed.

(** X4. After any sequence of [updateRiskMetrics] calls on a history of at
    most 1000 trades, the trade history is the last 1000 entries of the old
    history followed by the new trades in order, and never holds more than
    1000. *)
Theorem trade_history_keeps_last_1000 updates t :
  (length (tradeHistory t) <= 1000)%nat ->
  let t' := fold_left applyUpdate updates t in
  tradeHistory t' = lastN 1000 (tradeHistory t ++ map entryOf updates)
  /\ (length (tradeHistory t') <= 1000)%nat.
Proof.
  intros Hl. induction updates as [|u updates IH] using rev_ind.
  - cbn [fold_left map]. rewrite app_nil_r, lastN_all by exact Hl.
    split; [reflexivity | exact Hl].
  - cbv zeta in IH. destruct IH as [Heq Hlen].
    cbv zeta. rewrite fold_left_app, map_app. cbn [fold_left map].
    destruct u as [[now pnl] timestamp]. cbn [applyUpdate].
    rewrite (updateRiskMetrics_history now pnl timestamp _ Hlen), Heq.
    rewrite lastN_snoc by lia. rewrite app_assoc.
    split; [reflexivity|]. rewrite lastN_length. lia.
Qed.

(** X5. After any sequence of [updateRiskMetrics] calls the daily PnL is
    the old one with the reported PnLs added to it one after the other, in
    call order, whichever branch of the drawdown update each call takes,
    and the peak balance has not decreased; [resetDailyMetrics] then sets
    the daily PnL to 0 and keeps the trade history. *)
Theorem daily_pnl_accumulates_peak_grows updates t :
  let t' := fold_left applyUpdate updates t in
  dailyPnL t' = fold_left addPnl updates (dailyPnL t)
  /\ peakBalance t <= peakBalance t'
  /\ dailyPnL (resetDailyMetrics t') = 0
  /\ tradeHistory (resetDailyMetrics t') = tradeHistory t'.
Proof.
  cbv zeta. split; [|split; [|split; reflexivity]].
  - induction updates as [|u updates IH] using rev_ind.
    + reflexivity.
    + rewrite !fold_left_app. cbn [fold_left]. rewrite <- IH.
      destruct u as [[now pnl] timestamp].
      unfold addPnl. cbn [applyUpdate entryOf te_pnl].
      unfold updateRiskMetrics. cbv zeta.
      destruct (num_gt _ _); reflexivity.
  - induction updates as [|u updates IH] using rev_ind.
    + apply Qle_refl.
    + rewrite fold_left_app. cbn [fold_left].
      destruct u as [[now pnl] timestamp]. cbn [applyUpdate].
      eapply Qle_trans; [exact IH|].
      unfold updateRiskMetrics. cbv zeta.
      destruct (num_gt _ _) eqn:E; cbn [peakBalance]; [|apply Qle_refl].
      apply num_gt_true in E. apply Qlt_le_weak. exact E.
Qed.

(** X6. With a peak balance of 0, an [updateRiskMetrics] call that leaves
    the daily PnL negative divides by the peak and sets [maxDrawdown] to
    [Infinity] (unless it was already [NaN]). *)
Theorem loss_at_zero_peak_is_infinite_drawdown now pnl timestamp t :
  peakBalance t == 0 ->
  dailyPnL t + pnl < 0 ->
  maxDrawdown t <> NotANumber ->
  maxDrawdown (updateRiskMetrics now pnl timestamp t) = PosInfinity.
Proof.
  intros Hpeak Hloss Hnan. unfold updateRiskMetrics. cbv zeta.
  assert (Hcur : num_gt (peakBalance t + (dailyPnL t + pnl)) (peakBalance t) = false)
    by (apply num_gt_false; lra).
  rewrite Hcur. cbn [maxDrawdown]. unfold percentOf.
  rewrite (proj2 (Qeq_bool_iff _ _) Hpeak).
  assert (Hn : Qeq_bool (peakBalance t - (peakBalance t + (dailyPnL t + pnl))) 0
               = false).
  { destruct (Qeq_bool _ 0) eqn:E; [|reflexivity].
    apply Qeq_bool_iff in E. lra. }
  rewrite Hn.
  assert (Hpos : num_gt (peakBalance t - (peakBalance t + (dailyPnL t + pnl))) 0
                 = true)
    by (apply num_gt_true; lra).
  rewrite Hpos. destruct (maxDrawdown t); try reflexivity. contradiction.
Qed.

Lemma updateVolatility_window sym price t :
  (forall w, volatilityData t !! sym = Some w -> (length w <= 100)%nat) ->
  exists w,
    volatilityData (updateVolatility sym price t) !! sym = Some w
    /\ (length w <= 100)%nat
    /\ last w = Some price.
Proof.
  intros Hold. unfold updateVolatility. cbv zeta. cbn [volatilityData].
  rewrite lookup_insert_eq. eexists. split; [reflexivity|].
  assert (Hlen : (length (default [] (volatilityData t !! sym)) <= 100)%nat).
  { destruct (volatilityData t !! sym) as [w|] eqn:E; cbn; [|lia].
    apply (Hold w eq_refl). }
  set (old := default [] (volatilityData t !! sym)) in *.
  case_bool_decide as Hbig.
  - rewrite length_app in Hbig. cbn [length] in Hbig.
    destruct old as [|x old']; cbn [length] in *; [lia|].
    cbn [app tail]. split; [rewrite length_app; cbn; lia|].
    apply last_snoc.
  - rewrite length_app in *. cbn [length] in *.
    split; [lia | apply last_snoc].
Qed.

(** X7. Whatever prices are pushed with [updateVolatility] on a new risk
    manager, no symbol ever holds more than 100 prices. *)
Theorem volatility_windows_bounded pushes :
  let t := fold_left pushPrice pushes create in
  map_Forall (fun _ w => (length w <= 100)%nat) (volatilityData t).
Proof.
  cbv zeta. induction pushes as [|[sym price] pushes IH] using rev_ind.
  - cbn. apply map_Forall_empty.
  - rewrite fold_left_app. cbn [fold_left]. unfold pushPrice at 1. cbn [fst snd].
    set (t := fold_left pushPrice pushes create) in *.
    destruct (updateVolatility_window sym price t) as (w & Hw & Hlen & _).
    { intros w0 Hw0. exact (IH sym w0 Hw0). }
    intros sym' w' Hlook.
    destruct (decide (sym' = sym)) as [->|Hne].
    + rewrite Hw in Hlook. injection Hlook as <-. exact Hlen.
    + unfold updateVolatility in Hlook. cbn [volatilityData] in Hlook.
      rewrite lookup_insert_ne in Hlook by congruence.
      exact (IH sym' w' Hlook).
Qed.

(** One [updateVolatility] call: the price is the last of its symbol's
    prices, and the other symbols are untouched. *)
Lemma volatility_push_is_local sym price t :
  (exists w, volatilityData (updateVolatility sym price t) !! sym = Some w
             /\ last w = Some price)
  /\ forall other, other <> sym ->
       volatilityData (updateVolatility sym price t) !! other
       = volatilityData t !! other.
Proof.
  split.
  - unfold updateVolatility. cbv zeta. cbn [volatilityData].
    rewrite lookup_insert_eq. eexists. split; [reflexivity|].
    set (old := default [] (volatilityData t !! sym)).
    case_bool_decide as Hbig; [|apply last_snoc].
    destruct old as [|x old']; [cbn in Hbig; lia|].
    cbn [app tail]. apply last_snoc.
  - intros other Hne. unfold updateVolatility. cbn [volatilityData].
    apply lookup_insert_ne. congruence.
Qed.


Lemma trade_history_keeps_last_1000_witness :
  let t' := fold_left applyUpdate sampleUpdates create in
  tradeHistory t' = lastN 1000 (tradeHistory create ++ map entryOf sampleUpdates)
  /\ (length (tradeHistory t') <= 1000)%nat.
Proof.
  apply (trade_history_keeps_last_1000 sampleUpdates create). cbn. lia.
Defined.

Lemma loss_at_zero_peak_is_infinite_drawdown_witness :
  maxDrawdown (updateRiskMetrics 1000 (-50) None create) = PosInfinity.
Proof.
  apply (loss_at_zero_peak_is_infinite_drawdown 1000 (-50) None create).
  - reflexivity.
  - reflexivity.
  - discriminate.
Defined.

End RiskMonitorFacts.

(** ** Properties of the circuit breaker, the daily loss and the sessions *)

Module SafetyManagerMoreFacts.
Import SafetyManager SafetyReports DescribedSafety.

Section WithRuntime.
Context `{JsRuntime}.

(** A call during the cooldown of a tripped breaker. *)
Lemma checkSafety_in_cooldown st t0 reason now a p m trades :
  emergencyStop st = false ->
  (now - t0 < 30 * 60 * 1000)%Z ->
  checkSafety now (triggerCircuitBreaker t0 reason st) a p m trades
  = ({| isTradingEnabled := false; circuitBreakerActive := true;
        emergencyStopActive := false;
        warnings := [("Circuit breaker active: " +:+ reason)%string];
        lastCheck := now; riskLevel := HIGH |},
     triggerCircuitBreaker t0 reason st).
Proof.
  intros Hstop Hcool. unfold checkSafety.
  cbn [triggerCircuitBreaker setCircuitBreaker emergencyStop circuitBreaker
         isActive triggerTime cooldownPeriod triggerReason andb].
  rewrite Hstop. rewrite (proj2 (Z.ltb_lt _ _) Hcool). reflexivity.
Qed.

(** Outside the emergency stop and the cooldown, the breaker flag that
    [checkSafety] returns is the one of the state it leaves. *)
Lemma checkSafety_breaker_flag now st a p m trades :
  emergencyStop st = false ->
  isActive (circuitBreaker st)
  && (now - triggerTime (circuitBreaker st) <? cooldownPeriod (circuitBreaker st))%Z
  = false ->
  let res := checkSafety now st a p m trades in
  circuitBreakerActive (fst res) = isActive (circuitBreaker (snd res))
  /\ emergencyStopActive (fst res) = false
  /\ isActive (circuitBreaker (snd res))
     = (isActive (circuitBreaker st) && negb (autoReset (circuitBreaker st)))
       || breakerChecks st m.
Proof.
  intros Hstop Hcool. unfold checkSafety, breakerChecks. rewrite Hstop, Hcool.
  cbv zeta.
  set (st1 := if isActive (circuitBreaker st) && autoReset (circuitBreaker st)
              then resetCircuitBreaker st else st).
  assert (Hth : thresholds st1 = thresholds st)
    by (subst st1;
        destruct (isActive (circuitBreaker st) && autoReset (circuitBreaker st));
        reflexivity).
  assert (Hdl : dailyLoss st1 = dailyLoss st)
    by (subst st1;
        destruct (isActive (circuitBreaker st) && autoReset (circuitBreaker st));
        reflexivity).
  assert (Hcl : consecutiveLosses st1 = consecutiveLosses st)
    by (subst st1;
        destruct (isActive (circuitBreaker st) && autoReset (circuitBreaker st));
        reflexivity).
  assert (Hes : emergencyStop st1 = false)
    by (subst st1;
        destruct (isActive (circuitBreaker st) && autoReset (circuitBreaker st));
        exact Hstop).
  assert (Hact : isActive (circuitBreaker st1)
                 = isActive (circuitBreaker st)
                   && negb (autoReset (circuitBreaker st)))
    by (subst st1; destruct (isActive (circuitBreaker st)) eqn:E1,
          (autoReset (circuitBreaker st)) eqn:E2; cbn; rewrite ?E1; reflexivity).
  rewrite <- Hth, <- Hdl, <- Hcl, <- Hact. clearbody st1.
  repeat match goal with
         | |- context [let '(_, _) := (if ?c then _ else _) in _] => destruct c
         end;
    cbn [fst snd circuitBreakerActive emergencyStopActive
           updateConsecutiveLosses setConsecutiveLosses
           triggerCircuitBreaker setCircuitBreaker circuitBreaker emergencyStop
           isActive orb];
    rewrite ?orb_true_r, ?orb_false_r; auto.
Qed.

(** A call after the cooldown of a tripped breaker. *)
Lemma checkSafety_after_cooldown st t0 reason now a p m trades :
  emergencyStop st = false ->
  (30 * 60 * 1000 <= now - t0)%Z ->
  let res := checkSafety now (triggerCircuitBreaker t0 reason st) a p m trades in
  circuitBreakerActive (fst res) = breakerChecks st m
  /\ isActive (circuitBreaker (snd res)) = breakerChecks st m.
Proof.
  intros Hstop Hcool res.
  destruct (checkSafety_breaker_flag now (triggerCircuitBreaker t0 reason st)
              a p m trades) as (Hflag & _ & Hact).
  - exact Hstop.
  - cbn. apply Z.ltb_ge. exact Hcool.
  - fold res in Hflag, Hact. rewrite Hflag, Hact. cbn. split; reflexivity.
Qed.

(** X8. After [triggerCircuitBreaker] at time [t0] (emergency stop off), a
    [checkSafety] call less than 30 minutes later returns at once with
    trading disabled, the breaker active, level HIGH and the trigger reason,
    and changes nothing; a call 30 minutes later or more resets the breaker
    and leaves it active exactly when one of this call's three breaker
    checks (daily loss, drawdown, consecutive losses) fires. *)
Theorem tripped_breaker_cools_down st t0 reason now a p m trades :
  emergencyStop st = false ->
  let tripped := triggerCircuitBreaker t0 reason st in
  let res := checkSafety now tripped a p m trades in
  ((now - t0 < 30 * 60 * 1000)%Z ->
     res = ({| isTradingEnabled := false; circuitBreakerActive := true;
               emergencyStopActive := false;
               warnings := [("Circuit breaker active: " +:+ reason)%string];
               lastCheck := now; riskLevel := HIGH |},
            tripped))
  /\ ((30 * 60 * 1000 <= now - t0)%Z ->
        circuitBreakerActive (fst res) = breakerChecks st m
        /\ isActive (circuitBreaker (snd res)) = breakerChecks st m).
Proof.
  intros Hstop tripped res. split; intros Hcool.
  - exact (checkSafety_in_cooldown st t0 reason now a p m trades Hstop Hcool).
  - exact (checkSafety_after_cooldown st t0 reason now a p m trades Hstop Hcool).
Qed.

(** X9. Whenever the status returned by [checkSafety] reports the circuit
    breaker or the emergency stop as active, [getSafetySummary] on the
    state it leaves reports the risk level CRITICAL. *)
Theorem active_status_means_critical_summary now st a p m trades :
  let res := checkSafety now st a p m trades in
  circuitBreakerActive (fst res) = true \/ emergencyStopActive (fst res) = true ->
  sum_riskLevel (getSafetySummary (snd res)) = CRITICAL.
Proof.
  intros res Hactive. unfold getSafetySummary, getCurrentRiskLevel.
  cbn [sum_riskLevel].
  destruct (emergencyStop st) eqn:Hstop.
  - subst res. rewrite (SafetyManagerFacts.checkSafety_stopped now st a p m trades Hstop).
    cbn [snd]. rewrite Hstop. reflexivity.
  - destruct (isActive (circuitBreaker st)
              && (now - triggerTime (circuitBreaker st)
                  <? cooldownPeriod (circuitBreaker st))%Z) eqn:Hcool.
    + subst res. unfold checkSafety. rewrite Hstop, Hcool. cbn [snd].
      apply andb_true_iff in Hcool. destruct Hcool as [-> _].
      rewrite orb_true_r. reflexivity.
    + destruct (checkSafety_breaker_flag now st a p m trades Hstop Hcool)
        as (Hflag & Hnostop & _).
      fold res in Hflag, Hnostop.
      destruct Hactive as [Hcb | Hes]; [|congruence].
      rewrite <- Hflag, Hcb, orb_true_r. reflexivity.
Qed.

Lemma updateDailyLoss_same_day now pnl st :
  localDate now = localDate (lastResetTime st) ->
  let st' := updateDailyLoss now pnl st in
  dailyLoss st' = dailyLoss st + pnl
  /\ consecutiveLosses st' = consecutiveLosses st
  /\ lastResetTime st' = lastResetTime st.
Proof.
  intros Hday. unfold updateDailyLoss.
  rewrite bool_decide_eq_true_2 by congruence. cbn. auto.
Qed.

(** X10. [updateDailyLoss] calls made on the local calendar day of the
    last reset add their PnLs to [dailyLoss] one after the other, in call
    order, without a reset in between, and change neither the
    consecutive-loss count nor the reset time. *)
Theorem daily_loss_accumulates_within_a_day updates st :
  Forall (fun u => localDate (fst u) = localDate (lastResetTime st)) updates ->
  let st' := fold_left recordLoss updates st in
  dailyLoss st' = fold_left addLoss updates (dailyLoss st)
  /\ consecutiveLosses st' = consecutiveLosses st
  /\ lastResetTime st' = lastResetTime st.
Proof.
  intros Hday. cbv zeta.
  induction updates as [|u updates IH] using rev_ind.
  - cbn. auto.
  - apply Forall_app in Hday. destruct Hday as [Hbefore Hu].
    apply Forall_inv in Hu.
    destruct (IH Hbefore) as (Hsum & Hcount & Hreset).
    rewrite !fold_left_app. cbn [fold_left].
    set (st1 := fold_left recordLoss updates st) in *.
    rewrite <- Hreset in Hu.
    destruct (updateDailyLoss_same_day (fst u) (snd u) st1 Hu)
      as (Hd & Hc & Hr).
    unfold recordLoss, addLoss. rewrite Hd, Hc, Hr, Hsum.
    split; [reflexivity | split; assumption].
Qed.

(** The first call on another day discards what was accumulated. *)
Lemma daily_loss_resets_on_new_day now pnl st :
  localDate now <> localDate (lastResetTime st) ->
  let st' := updateDailyLoss now pnl st in
  dailyLoss st' = pnl /\ consecutiveLosses st' = 0%nat /\ lastResetTime st' = now.
Proof.
  intros Hday. unfold updateDailyLoss.
  rewrite bool_decide_eq_false_2 by congruence. cbn. auto.
Qed.

End WithRuntime.

Lemma filter_completed_snoc l s :
  List.filter completed (l ++ [s])
  = List.filter completed l ++ (if completed s then [s] else []).
Proof. rewrite List.filter_app. reflexivity. Qed.

(** X11. [startTradingSession] followed by [endTradingSession] at a time
    other than 0 appends one session with the given PnL and trade count, and
    [getSessionStats] counts one completed session more. *)
Theorem session_round_trip st t0 t1 pnl trades :
  t1 <> 0%Z ->
  let st' := endTradingSession t1 pnl trades (startTradingSession t0 st) in
  tradingSessions st'
  = tradingSessions st
    ++ [{| startTime := t0; endTime := Some t1; session_pnl := pnl;
           session_trades := trades |}]
  /\ totalSessions (getSessionStats st') = S (totalSessions (getSessionStats st)).
Proof.
  intros Ht1. cbv zeta.
  assert (Hsessions :
            tradingSessions (endTradingSession t1 pnl trades (startTradingSession t0 st))
            = tradingSessions st
              ++ [{| startTime := t0; endTime := Some t1; session_pnl := pnl;
                     session_trades := trades |}]).
  { unfold endTradingSession, startTradingSession.
    cbn [tradingSessions setTradingSessions].
    rewrite reverse_app, reverse_singleton. cbn [app].
    rewrite reverse_involutive. reflexivity. }
  split; [exact Hsessions|].
  unfold getSessionStats. rewrite Hsessions, filter_completed_snoc.
  assert (Hdone : completed {| startTime := t0; endTime := Some t1;
                               session_pnl := pnl; session_trades := trades |}
                  = true).
  { unfold completed. cbn. apply negb_true_iff. now apply Z.eqb_neq. }
  rewrite Hdone.
  destruct (List.filter completed (tradingSessions st)) as [|s l]; cbn;
    [reflexivity|].
  rewrite length_app. cbn. lia.
Qed.

Lemma fold_max_bounds l : forall a,
  a <= fold_left Qmax l a /\ Forall (fun y => y <= fold_left Qmax l a) l.
Proof.
  induction l as [|x l IH]; intros a; cbn [fold_left].
  - split; [apply Qle_refl | constructor].
  - destruct (IH (Qmax a x)) as [Hacc Hall]. split.
    + eapply Qle_trans; [apply Q.le_max_l | exact Hacc].
    + constructor; [|exact Hall].
      eapply Qle_trans; [apply Q.le_max_r | exact Hacc].
Qed.

Lemma fold_min_bounds l : forall a,
  fold_left Qmin l a <= a /\ Forall (fun y => fold_left Qmin l a <= y) l.
Proof.
  induction l as [|x l IH]; intros a; cbn [fold_left].
  - split; [apply Qle_refl | constructor].
  - destruct (IH (Qmin a x)) as [Hacc Hall]. split.
    + eapply Qle_trans; [exact Hacc | apply Q.le_min_l].
    + constructor; [|exact Hall].
      eapply Qle_trans; [exact Hacc | apply Q.le_min_r].
Qed.

Lemma extremes_bound_elements x l :
  Forall (fun y => minOf (x :: l) <= y /\ y <= maxOf (x :: l)) (x :: l).
Proof.
  destruct (fold_min_bounds l x) as [Hminx Hmin].
  destruct (fold_max_bounds l x) as [Hmaxx Hmax].
  unfold minOf, maxOf. constructor; [split; assumption|].
  rewrite Forall_forall in Hmin, Hmax. apply Forall_forall.
  intros y Hy. split; [apply Hmin | apply Hmax]; exact Hy.
Qed.

(** X12. The PnL of every completed session lies between the
    [worstSession] and the [bestSession] of [getSessionStats]. *)
Theorem session_extremes_bound_every_session st s :
  s ∈ tradingSessions st -> completed s = true ->
  let stats := getSessionStats st in
  worstSession stats <= session_pnl s /\ session_pnl s <= bestSession stats.
Proof.
  intros Hin Hdone. cbv zeta. unfold getSessionStats.
  assert (Hs : session_pnl s
               ∈ map session_pnl (List.filter completed (tradingSessions st))).
  { apply list_elem_of_In, in_map, filter_In. split; [|exact Hdone].
    apply list_elem_of_In. exact Hin. }
  destruct (List.filter completed (tradingSessions st)) as [|s0 l];
    cbn [worstSession bestSession].
  - cbn in Hs. apply list_elem_of_In in Hs. contradiction.
  - cbn [map] in *.
    pose proof (extremes_bound_elements (session_pnl s0) (map session_pnl l))
      as Hall.
    rewrite Forall_forall in Hall. apply Hall. exact Hs.
Qed.

(** When the daily loss is past the limit, the first recommendation is the
    one about the daily loss. *)
Lemma breach_is_first_recommendation st a p :
  0 <= maxDailyLoss (thresholds st) ->
  dailyLoss st < - maxDailyLoss (thresholds st) ->
  head (getSafetyRecommendations st a p) = Some adviseDailyLoss.
Proof.
  intros Hmax Hloss. unfold getSafetyRecommendations. cbv zeta.
  assert (Hnear : num_lt (dailyLoss st) (- (maxDailyLoss (thresholds st) * (8 # 10)))
                  = true)
    by (apply num_lt_true; lra).
  rewrite Hnear. reflexivity.
Qed.

Lemma tripped_breaker_cools_down_witness :
  let tripped := triggerCircuitBreaker 0 "manual" newSafetyManager in
  let res := checkSafety (H := sampleRuntime) 60000 tripped mockAccountInfo []
               mockRiskMetrics [] in
  ((60000 - 0 < 30 * 60 * 1000)%Z ->
     res = ({| isTradingEnabled := false; circuitBreakerActive := true;
               emergencyStopActive := false;
               warnings := ["Circuit breaker active: manual"%string];
               lastCheck := 60000; riskLevel := HIGH |},
            tripped))
  /\ ((30 * 60 * 1000 <= 60000 - 0)%Z ->
        circuitBreakerActive (fst res)
        = breakerChecks newSafetyManager mockRiskMetrics
        /\ isActive (circuitBreaker (snd res))
           = breakerChecks newSafetyManager mockRiskMetrics).
Proof.
  apply (tripped_breaker_cools_down (H := sampleRuntime) newSafetyManager 0
           "manual" 60000 mockAccountInfo [] mockRiskMetrics []).
  reflexivity.
Defined.

Lemma active_status_means_critical_summary_witness :
  sum_riskLevel
    (getSafetySummary
       (snd (checkSafety (H := sampleRuntime) 60000
               (triggerCircuitBreaker 0 "manual" newSafetyManager)
               mockAccountInfo [] mockRiskMetrics [])))
  = CRITICAL.
Proof.
  apply (active_status_means_critical_summary (H := sampleRuntime) 60000
           (triggerCircuitBreaker 0 "manual" newSafetyManager)
           mockAccountInfo [] mockRiskMetrics []).
  left. reflexivity.
Defined.

Lemma daily_loss_accumulates_within_a_day_witness :
  let st' := fold_left (recordLoss (H := sampleRuntime)) sampleLosses
               newSafetyManager in
  dailyLoss st' = fold_left addLoss sampleLosses (dailyLoss newSafetyManager)
  /\ consecutiveLosses st' = consecutiveLosses newSafetyManager
  /\ lastResetTime st' = lastResetTime newSafetyManager.
Proof.
  apply (daily_loss_accumulates_within_a_day (H := sampleRuntime) sampleLosses
           newSafetyManager).
  repeat constructor.
Defined.

Lemma session_round_trip_witness :
  tradingSessions oneSession
  = tradingSessions newSafetyManager
    ++ [{| startTime := 1000; endTime := Some 2000%Z; session_pnl := 100;
           session_trades := 5 |}]
  /\ totalSessions (getSessionStats oneSession)
     = S (totalSessions (getSessionStats newSafetyManager)).
Proof.
  apply (session_round_trip newSafetyManager 1000 2000 100 5). discriminate.
Defined.

Lemma session_extremes_bound_every_session_witness :
  let s := {| startTime := 1000; endTime := Some 2000%Z; session_pnl := 100;
              session_trades := 5 |} in
  worstSession (getSessionStats oneSession) <= session_pnl s
  /\ session_pnl s <= bestSession (getSessionStats oneSession).
Proof.
  apply (session_extremes_bound_every_session oneSession
           {| startTime := 1000; endTime := Some 2000%Z; session_pnl := 100;
              session_trades := 5 |}).
  - apply list_elem_of_In. cbn. left. reflexivity.
  - reflexivity.
Defined.

End SafetyManagerMoreFacts.

(** ** Properties of the position sizes *)

Module PositionSizerMoreFacts.
Import PositionSizer.

Section WithConfig.
Context `{JsRuntime}.
Variable config : TradingConfig.
Variable riskConfig : RiskManagementConfig.


(** At the limit of open positions the size is the zero position. *)
Lemma no_size_at_position_limit request :
  0 < price request -> 0 < accountBalance request ->
  maxOpenPositions config <= currentPositions request ->
  exists r,
    calculatePositionSize config riskConfig request = inr r
    /\ quantity r = 0 /\ notionalValue r = 0 /\ riskAmount r = 0
    /\ strategy r = "ZERO_POSITION"%string
    /\ length (warnings r) = 1%nat.
Proof.
  intros Hp Hb Hmax. unfold calculatePositionSize.
  rewrite (proj2 (num_le_false _ _) Hp), (proj2 (num_le_false _ _) Hb).
  apply Qle_bool_iff in Hmax. unfold num_ge. rewrite Hmax.
  eexists. split; [reflexivity|]. cbn. repeat split.
Qed.

(** X15. The Kelly size is never negative, and it is 0 exactly when the
    confidence is at most 2/7: the Kelly fraction with a reward-to-risk of
    2.5 is positive only above that confidence. *)
Theorem kelly_size_vanishes_below_two_sevenths request :
  0 < price request -> 0 < accountBalance request ->
  0 <= calculateKellyCriterion request
  /\ (calculateKellyCriterion request == 0 <-> confidence request <= 2 # 7).
Proof.
  intros Hp Hb. unfold calculateKellyCriterion. cbv zeta.
  set (c := confidence request).
  set (k := (c * (25 # 10) - (1 - c)) / (25 # 10) * (25 # 100)).
  assert (Hk : k == (7 # 20) * c - (1 # 10)) by (subst k; field).
  assert (Hdiv : forall x, accountBalance request * x / price request
                           == accountBalance request / price request * x)
    by (intros x; field; lra).
  assert (Hratio : 0 < accountBalance request / price request)
    by (apply Qlt_shift_div_l; lra).
  rewrite Hdiv.
  destruct (Q.max_spec 0 k) as [[Hlt Hmax] | [Hle Hmax]]; rewrite Hmax.
  - split; [nra|]. split.
    + intros Hz. exfalso. nra.
    + intros Hc. exfalso. lra.
  - split; [lra|]. split; [intros _; lra | intros _; ring].
Qed.

End WithConfig.

Lemma kelly_size_vanishes_below_two_sevenths_witness :
  0 <= calculateKellyCriterion sampleRequest
  /\ (calculateKellyCriterion sampleRequest == 0
      <-> confidence sampleRequest <= 2 # 7).
Proof.
  apply (kelly_size_vanishes_below_two_sevenths sampleRequest); reflexivity.
Defined.

End PositionSizerMoreFacts.

(** ** Properties of order placement *)

Module ExecutionEngineMoreFacts.
Import ExecutionEngine OrderBook DescribedOrders Stated.

Lemma ordersIn_app a b : ordersIn (a ++ b) = ordersIn a ++ ordersIn b.
Proof. unfold ordersIn. apply omap_app. Qed.

Section WithClient.
Context `{JsRuntime}.
Variable client : Client.

(** What the retry loop does to the engine, whatever the exchange answers. *)
Lemma retryLoop_orders now request remaining : forall attempt lastError e,
  exists r e' k,
    retryLoop client now request remaining attempt lastError e = (inr r, e')
    /\ (k <= remaining)%nat
    /\ ordersIn (events e') = ordersIn (events e) ++ replicate k request
    /\ maxRetries e' = maxRetries e
    /\ orderHistory e' = orderHistory e
    /\ (success r = false -> k = remaining /\ activeOrders e' = activeOrders e).
Proof.
  induction remaining as [|remaining IH]; intros attempt lastError e.
  - exists (failure now
              ("Order placement failed after "
                 +:+ numToString (ofNat (maxRetries e))
                 +:+ " attempts: " +:+ lastError) []), e, 0%nat.
    cbn. rewrite app_nil_r. repeat split; auto.
  - cbn [retryLoop]. unfold tryCatch, bind, clientPlaceOrder, getMaxRetries,
      getRetryDelay, setActiveOrder, ret.
    destruct (client (events e) request) as [msg | response].
    + set (e1 := if (attempt <? Z.of_nat (maxRetries (record (PlaceOrder request) e)))%Z
                 then record (Delay (retryDelay (record (PlaceOrder request) e)
                                     * attempt)%Z)
                        (record (PlaceOrder request) e)
                 else record (PlaceOrder request) e).
      destruct (IH (attempt + 1)%Z msg e1) as (r & e' & k & Hrun & Hk & Hord & Hmax & Hhist & Hfail).
      exists r, e', (S k).
      assert (He1 : ordersIn (events e1) = ordersIn (events e) ++ [request]
                    /\ maxRetries e1 = maxRetries e
                    /\ orderHistory e1 = orderHistory e
                    /\ activeOrders e1 = activeOrders e).
      { subst e1. destruct (_ <? _)%Z; cbn [record events maxRetries orderHistory
                                             activeOrders];
          rewrite ?ordersIn_app; cbn; rewrite ?app_nil_r; auto. }
      destruct He1 as (Ho1 & Hm1 & Hh1 & Ha1).
      split.
      { subst e1. destruct (_ <? _)%Z; unfold delay, ret; exact Hrun. }
      split; [lia|]. split.
      { rewrite Hord, Ho1, <- app_assoc. reflexivity. }
      split; [congruence|]. split; [congruence|].
      intros Hf. destruct (Hfail Hf) as [-> Hact]. split; congruence.
    + eexists _, _, 1%nat. split; [reflexivity|].
      cbn [events record maxRetries orderHistory activeOrders success placed].
      rewrite ordersIn_app. cbn. repeat split; try lia; auto; discriminate.
Qed.

(** X18. Whatever the exchange answers, [placeOrderWithRetry] returns a
    result (it never throws), sends the same request at most [maxRetries]
    times and nothing else; when it reports a failure it has sent exactly
    [maxRetries] requests and the table of active orders is unchanged. *)
Theorem retry_is_bounded now request e :
  let res := placeOrderWithRetry client now request e in
  exists r k,
    fst res = inr r
    /\ (k <= maxRetries e)%nat
    /\ ordersIn (events (snd res)) = ordersIn (events e) ++ replicate k request
    /\ (success r = false ->
          k = maxRetries e /\ activeOrders (snd res) = activeOrders e).
Proof.
  cbv zeta. unfold placeOrderWithRetry, bind, getMaxRetries.
  destruct (retryLoop_orders now request (maxRetries e) 1%Z "" e)
    as (r & e' & k & Hrun & Hk & Hord & _ & _ & Hfail).
  rewrite Hrun. exists r, k. cbn. auto.
Qed.

(** When the exchange rejects every attempt. *)
Lemma retryLoop_exhausted now request msg :
  (forall history, client history request = inl msg) ->
  forall remaining attempt lastError e,
    retryLoop client now request remaining attempt lastError e
    = (inr (failure now
              ("Order placement failed after "
                 +:+ numToString (ofNat (maxRetries e)) +:+ " attempts: "
                 +:+ match remaining with O => lastError | S _ => msg end) []),
       withEvents e
         (events e
            ++ backoff request (retryDelay e) (maxRetries e) remaining attempt)).
Proof.
  intros Hfail. induction remaining as [|remaining IH]; intros attempt lastError e.
  - cbn. unfold bind, getMaxRetries, ret, withEvents. rewrite app_nil_r.
    destruct e; reflexivity.
  - cbn [retryLoop backoff]. unfold tryCatch, bind, clientPlaceOrder,
      getMaxRetries, getRetryDelay. rewrite Hfail.
    cbn [record maxRetries retryDelay].
    destruct (attempt <? Z.of_nat (maxRetries e))%Z; unfold delay, ret;
      rewrite IH; cbn [record maxRetries retryDelay events withEvents
                         activeOrders orderHistory];
      rewrite <- ?app_assoc; cbn [app];
      destruct remaining; reflexivity.
Qed.


(** X20. When the exchange accepts the first attempt,
    [placeOrderWithRetry] sends one request and stores the order under its
    client order id as PENDING with retry count 0, leaving the other active
    orders and the history unchanged. *)
Theorem first_attempt_is_stored now request response e :
  client (events e) request = inr response ->
  (0 < maxRetries e)%nat ->
  let res := placeOrderWithRetry client now request e in
  let id := req_newClientOrderId request in
  fst res = inr (placed now (resp_orderId response) id)
  /\ events (snd res) = events e ++ [PlaceOrder request]
  /\ (exists d,
        activeOrders (snd res) !! id = Some d
        /\ om_status d = PENDING /\ om_retryCount d = 0%Z
        /\ om_symbol d = req_symbol request
        /\ om_orderId d = numToString (inject_Z (resp_orderId response)))
  /\ (forall other, other <> id ->
        activeOrders (snd res) !! other = activeOrders e !! other)
  /\ orderHistory (snd res) = orderHistory e.
Proof.
  intros Hok Hn. cbv zeta. unfold placeOrderWithRetry, bind, getMaxRetries.
  destruct (maxRetries e) as [|n] eqn:En; [lia|].
  cbn [retryLoop]. unfold tryCatch, bind, clientPlaceOrder, getMaxRetries,
    setActiveOrder, ret. rewrite Hok.
  cbn [fst snd events record activeOrders orderHistory om_clientOrderId].
  split; [reflexivity|]. split; [reflexivity|]. split.
  - eexists. rewrite lookup_insert_eq. split; [reflexivity|]. cbn. auto.
  - split; [|reflexivity]. intros other Hne. apply lookup_insert_ne. congruence.
Qed.

(** X21. When a trade passes the risk check with a positive quantity and
    the exchange rejects every entry attempt, [executeTrade] fails with the
    retry error, has sent the entry order [maxRetries] times and no
    stop-loss or take-profit order, and stores no order. *)
Theorem failed_entry_places_no_bracket now rnd request msg e :
  RiskManager.shouldTrade (riskCheck request) = true ->
  0 < PositionSizer.quantity (positionSize request) ->
  (forall history, client history (entryOrderRequest now rnd request) = inl msg) ->
  (0 < maxRetries e)%nat ->
  let res := executeTrade client now rnd request e in
  success (fst res) = false
  /\ error (fst res)
     = Some ("Order placement failed after "
               +:+ numToString (ofNat (maxRetries e)) +:+ " attempts: " +:+ msg)%string
  /\ ordersIn (events (snd res))
     = ordersIn (events e)
       ++ replicate (maxRetries e) (entryOrderRequest now rnd request)
  /\ activeOrders (snd res) = activeOrders e.
Proof.
  intros Htrade Hq Hfail Hn. cbv zeta.
  unfold executeTrade, executeTradeBody. cbv zeta.
  rewrite Htrade, (proj2 (num_le_false _ _) Hq). cbn [negb].
  unfold bind at 1. unfold placeOrderWithRetry, bind, getMaxRetries.
  rewrite (retryLoop_exhausted now _ msg Hfail).
  cbn [failure success negb ret fst snd error warnings default events withEvents
         activeOrders].
  destruct (maxRetries e) as [|n] eqn:En; [lia|].
  split; [reflexivity|]. split; [reflexivity|]. split; [|reflexivity].
  rewrite ordersIn_app. f_equal.
  clear. generalize (S n) at 2 3 as k. generalize 1%Z as attempt.
  intros attempt k. revert attempt.
  induction k as [|k IH]; intros attempt; cbn [backoff replicate]; [reflexivity|].
  change (PlaceOrder ?r :: ?l) with ([PlaceOrder r] ++ l).
  rewrite !ordersIn_app, IH.
  destruct (attempt <? Z.of_nat (S n))%Z; reflexivity.
Qed.

End WithClient.


Lemma first_attempt_is_stored_witness :
  let request := entryOrderRequest (H := sampleRuntime) 1000 "k3x9a7q2m"
                   acceptedRequest in
  let res := placeOrderWithRetry (H := sampleRuntime) acceptingClient 1000
               request create in
  fst res = inr (placed (H := sampleRuntime) 1000 12345 "bot_1000_k3x9a7q2m")
  /\ events (snd res) = [PlaceOrder request].
Proof.
  cbv zeta.
  destruct (first_attempt_is_stored (H := sampleRuntime) acceptingClient 1000
              (entryOrderRequest (H := sampleRuntime) 1000 "k3x9a7q2m"
                 acceptedRequest)
              {| resp_orderId := 12345 |} create eq_refl ltac:(cbn; lia))
    as (Hres & Hevents & _).
  split; [exact Hres | exact Hevents].
Defined.

Lemma failed_entry_places_no_bracket_witness :
  let res := executeTrade (H := sampleRuntime) rejectingClient 1000 "k3x9a7q2m"
               acceptedRequest create in
  success (fst res) = false
  /\ error (fst res)
     = Some "Order placement failed after 3 attempts: exchange unavailable"%string
  /\ ordersIn (events (snd res))
     = replicate 3 (entryOrderRequest (H := sampleRuntime) 1000 "k3x9a7q2m"
                      acceptedRequest)
  /\ activeOrders (snd res) = activeOrders create.
Proof.
  apply (failed_entry_places_no_bracket (H := sampleRuntime) rejectingClient
           1000 "k3x9a7q2m" acceptedRequest "exchange unavailable" create).
  - reflexivity.
  - reflexivity.
  - intros history. reflexivity.
  - cbn. lia.
Defined.

End ExecutionEngineMoreFacts.

(** ** Properties of order management and of closing positions *)

Module OrderBookFacts.
Import ExecutionEngine OrderBook DescribedOrders DescribedClosing.

Lemma ordersIn_snoc a r : ordersIn (a ++ [PlaceOrder r]) = ordersIn a ++ [r].
Proof. unfold ordersIn. rewrite omap_app. reflexivity. Qed.

Lemma mapOrderStatus_filled s :
  mapOrderStatus s = FILLED <-> s = "FILLED"%string.
Proof.
  unfold mapOrderStatus. split.
  - destruct (String.eqb s "NEW"); [discriminate|].
    destruct (String.eqb s "PARTIALLY_FILLED"); [discriminate|].
    destruct (String.eqb_spec s "FILLED") as [->|_]; [reflexivity|].
    destruct (String.eqb s "CANCELED"); [discriminate|].
    destruct (String.eqb s "REJECTED"); [discriminate|].
    destruct (String.eqb s "EXPIRED"); discriminate.
  - intros ->. reflexivity.
Qed.

Section WithRuntime.
Context `{JsRuntime}.
Variable parseInt : string -> Z.

(** One close: one order, and the tables of orders are not touched. *)
Lemma closePosition_run client now rnd symbol side quantity e :
  exists r,
    closePosition client now rnd symbol side quantity e
    = (inr r, record (PlaceOrder (closeRequest now rnd symbol side quantity)) e).
Proof.
  unfold closePosition, tryCatch, bind, clientPlaceOrder, ret.
  destruct (client (events e) _); eexists; reflexivity.
Qed.

Lemma closeAllFrom_orders client tick : forall openPositions k e,
  let e' := TradingEngine.closeAllFrom client tick k openPositions e in
  ordersIn (events e')
  = ordersIn (events e) ++ imap (fun i => forcedClose tick (k + i)) openPositions
  /\ activeOrders e' = activeOrders e
  /\ orderHistory e' = orderHistory e.
Proof.
  induction openPositions as [|position rest IH]; intros k e; cbv zeta.
  - cbn. rewrite app_nil_r. auto.
  - cbn [TradingEngine.closeAllFrom]. cbv zeta.
    destruct (closePosition_run client (fst (tick k)) (snd (tick k))
                (pos_symbol position)
                (if num_gt (pos_positionAmt position) 0 then LONG else SHORT)
                (Qabs (pos_positionAmt position)) e) as [r ->].
    cbn [snd]. destruct (IH (S k) (record (PlaceOrder
                (closeRequest (fst (tick k)) (snd (tick k)) (pos_symbol position)
                   (if num_gt (pos_positionAmt position) 0 then LONG else SHORT)
                   (Qabs (pos_positionAmt position)))) e)) as (Ho & Ha & Hh).
    rewrite Ho, Ha, Hh. cbn [record events activeOrders orderHistory].
    rewrite ordersIn_snoc, <- app_assoc. cbn [imap app].
    rewrite Nat.add_0_r. unfold forcedClose at 2.
    repeat split. do 2 f_equal. apply imap_ext. intros i x _. cbn.
    f_equal. lia.
Qed.

(** X22. [closeAllPositions] sends exactly one order for each open
    position, in order, whatever the exchange answers to the earlier ones:
    a reduce-only market order, SELL for a positive position amount and BUY
    otherwise; the table of active orders is unchanged. *)
Theorem every_position_gets_one_close client tick openPositions e :
  let e' := TradingEngine.closeAllPositions client tick openPositions e in
  ordersIn (events e')
  = ordersIn (events e) ++ imap (forcedClose tick) openPositions
  /\ Forall (fun r => req_reduceOnly r = true
                      /\ req_orderType r = Some "MARKET"%string)
       (imap (forcedClose tick) openPositions)
  /\ (forall k position,
        openPositions !! k = Some position ->
        req_side (forcedClose tick k position)
        = if num_gt (pos_positionAmt position) 0 then OrderSELL else OrderBUY)
  /\ activeOrders e' = activeOrders e.
Proof.
  cbv zeta. unfold TradingEngine.closeAllPositions.
  destruct (closeAllFrom_orders client tick openPositions 0 e) as (Ho & Ha & _).
  split; [exact Ho|]. split.
  - apply Forall_forall. intros r Hr.
    apply elem_of_lookup_imap in Hr as (i & x & -> & _). split; reflexivity.
  - split; [|exact Ha]. intros k position _. unfold forcedClose, closeRequest.
    cbn [req_side]. destruct (num_gt _ _); reflexivity.
Qed.

(** X23. [updateOrderStatus] neither loses nor duplicates an order: the
    number of orders in the active table and the history together is
    unchanged and other orders are untouched; a FILLED order leaves the
    active table for the end of the history, any other status (also
    CANCELLED and REJECTED) stays in the active table, and [null] means
    that nothing changed. *)
Theorem status_update_conserves_orders statusOf id e :
  let res := updateOrderStatus parseInt statusOf id e in
  tracked (snd res) = tracked e
  /\ (forall other, other <> id ->
        activeOrders (snd res) !! other = activeOrders e !! other)
  /\ (fst res = None -> snd res = e)
  /\ (forall d, fst res = Some d ->
        match om_status d with
        | FILLED => activeOrders (snd res) !! id = None
                    /\ orderHistory (snd res) = orderHistory e ++ [d]
        | _ => activeOrders (snd res) !! id = Some d
               /\ orderHistory (snd res) = orderHistory e
        end).
Proof.
  cbv zeta. unfold updateOrderStatus, tracked.
  destruct (activeOrders e !! id) as [orderData|] eqn:Hid; [|cbn; auto; repeat split; auto; discriminate].
  destruct (statusOf _ _) as [msg|status]; [cbn; repeat split; auto; discriminate|].
  destruct (String.eqb_spec (os_status status) "FILLED") as [Hf|Hf].
  - cbn [fst snd setOrders activeOrders orderHistory].
    split.
    { rewrite length_app. cbn [length].
      assert (Hsome : is_Some (activeOrders e !! id)) by eauto.
      pose proof (map_size_delete_Some id (activeOrders e) Hsome) as Hdel.
      assert (Hpos : size (activeOrders e) <> 0%nat).
      { intros Hz. apply map_size_empty_iff in Hz. rewrite Hz in Hid.
        rewrite lookup_empty in Hid. discriminate. }
      lia. }
    split; [intros other Hne; apply lookup_delete_ne; congruence|].
    split; [discriminate|]. intros d [= <-].
    cbn [setPrice setStatus om_status]. rewrite Hf. cbn.
    rewrite lookup_delete_eq. auto.
  - cbn [fst snd setOrders activeOrders orderHistory].
    split.
    { f_equal. apply map_size_insert_Some. eauto. }
    split; [intros other Hne; apply lookup_insert_ne; congruence|].
    split; [discriminate|]. intros d [= <-].
    cbn [setStatus om_status].
    destruct (mapOrderStatus (os_status status)) eqn:Hs;
      try (rewrite lookup_insert_eq; split; reflexivity).
    apply mapOrderStatus_filled in Hs. contradiction.
Qed.

(** X24. A failed [cancelOrder] changes nothing; a successful one moves
    the order from the active table to the end of the history as CANCELLED,
    and any later [cancelOrder] for the same id returns [false] and changes
    nothing. *)
Theorem cancel_happens_once cancel again id e :
  let res := cancelOrder parseInt cancel id e in
  (fst res = false -> snd res = e)
  /\ (fst res = true ->
        (exists d, activeOrders e !! id = Some d
                   /\ orderHistory (snd res) = orderHistory e ++ [setStatus d CANCELLED])
        /\ activeOrders (snd res) = delete id (activeOrders e)
        /\ cancelOrder parseInt again id (snd res) = (false, snd res)).
Proof.
  cbv zeta.
  destruct (activeOrders e !! id) as [orderData|] eqn:Hid.
  - destruct (cancel (om_symbol orderData) (parseInt (om_orderId orderData)))
      as [msg|done] eqn:Hc.
    + assert (Hres : cancelOrder parseInt cancel id e = (false, e))
        by (unfold cancelOrder; rewrite Hid, Hc; reflexivity).
      rewrite Hres. split; [reflexivity | discriminate].
    + assert (Hres : cancelOrder parseInt cancel id e
                     = (true, setOrders e (delete id (activeOrders e))
                                (orderHistory e ++ [setStatus orderData CANCELLED])))
        by (unfold cancelOrder; rewrite Hid, Hc; reflexivity).
      rewrite Hres. cbn [fst snd]. split; [discriminate|]. intros _.
      split; [eexists; split; reflexivity|]. split; [reflexivity|].
      unfold cancelOrder. cbn [setOrders activeOrders].
      rewrite lookup_delete_eq. reflexivity.
  - assert (Hres : cancelOrder parseInt cancel id e = (false, e))
      by (unfold cancelOrder; rewrite Hid; reflexivity).
    rewrite Hres. split; [reflexivity | discriminate].
Qed.

End WithRuntime.

(** [cleanupOldOrders] keeps exactly the active orders whose age is at
    most [maxAge] (24 hours by default), drops the others without adding
    them to the history, and a second call at the same time changes
    nothing. *)
Lemma cleanup_removes_exactly_the_old now maxAge e :
  let limit := default (24 * 60 * 60 * 1000)%Z maxAge in
  let e' := cleanupOldOrders now maxAge e in
  (forall id d,
     activeOrders e' !! id = Some d
     <-> activeOrders e !! id = Some d /\ (now - om_timestamp d <= limit)%Z)
  /\ orderHistory e' = orderHistory e
  /\ cleanupOldOrders now maxAge e' = e'.
Proof.
  cbv zeta. unfold cleanupOldOrders.
  cbn [setOrders activeOrders orderHistory maxRetries retryDelay events].
  split.
  - intros id d. rewrite map_lookup_filter_Some. cbn [snd]. split.
    + intros [Hd Hage]. split; [exact Hd | lia].
    + intros [Hd Hage]. split; [exact Hd | lia].
  - split; [reflexivity|]. f_equal.
    apply map_eq. intros id. apply option_eq. intros d.
    rewrite !map_lookup_filter_Some. tauto.
Qed.

End OrderBookFacts.

(** ** Properties of payload validation *)

Module ValidatorMoreFacts.
Import Validator.

Lemma clamp_at_least lo c :
  0 <= lo -> lo <= 1 -> lo <= c -> lo <= Qmax 0 (Qmin 1 c) /\ Qmax 0 (Qmin 1 c) <= 1.
Proof.
  intros H0 H1 Hc. split.
  - eapply Qle_trans; [|apply Q.le_max_r]. apply Q.min_glb; assumption.
  - apply Q.max_lub; [lra | apply Q.le_min_l].
Qed.

Lemma score_at_least now p : 4 # 10 <= sc_confidence (score now p) <= 1.
Proof.
  unfold score, validationResults. cbn [fold_left].
  unfold applyValidation. cbn [valid rule impact].
  destruct (mfiRsiCorrelation _ _ _), (signalStrengthLogic _ _ _),
    (priceValidation _ _), (timestampValidation _ _),
    (num_gt (mfi_value p) 95 || num_lt (mfi_value p) 5),
    (num_gt (rsi_value p) 95 || num_lt (rsi_value p) 5),
    (action p); cbn [isBuy isSell andb];
    repeat match goal with
      | |- context [if ?c then _ else _] => destruct c
      end;
    cbn [penalise warn sc_confidence sc_warnings];
    apply clamp_at_least; lra.
Qed.

Lemma schema_violations payload violations :
  schemaValidate payload = inl violations -> violations <> [].
Proof.
  unfold schemaValidate.
  destruct (okTimestamp payload), (okSymbol payload), (okAction payload),
    (okStrength payload), (okPrice payload), (okMfi payload), (okRsi payload),
    (okTimeframe payload), (okStrategy payload), (okSecret payload);
    intros [= <-]; discriminate.
Qed.

(** X25. The confidence of [validateWebhookPayload] is between 0 and 1 for
    every payload; a payload that passes the schema has no errors and a
    confidence of at least 0.4 (the penalties add up to at most 0.6), and a
    payload that fails it has confidence 0, no warnings and at least one
    error. *)
Theorem valid_payload_scores_at_least_0_4 now payload :
  let r := validateWebhookPayload now payload in
  0 <= confidence r /\ confidence r <= 1
  /\ (isValid r = true -> 4 # 10 <= confidence r /\ errors r = [])
  /\ (isValid r = false ->
        confidence r == 0 /\ warnings r = [] /\ errors r <> []).
Proof.
  cbv zeta. unfold validateWebhookPayload.
  destruct (schemaValidate payload) as [violations|p] eqn:Hs;
    cbn [confidence isValid errors warnings].
  - split; [lra|]. split; [lra|]. split; [discriminate|]. intros _.
    split; [reflexivity|]. split; [reflexivity|].
    exact (schema_violations payload violations Hs).
  - destruct (score_at_least now p) as [Hlo Hhi].
    split; [lra|]. split; [exact Hhi|]. split; [auto | discriminate].
Qed.

(** X26. For all indicator values the rule [signalStrengthLogic] accepts
    WEAK exactly when it rejects MEDIUM, and values that it accepts as
    STRONG it also accepts as MEDIUM. *)
Theorem strength_rule_medium_or_weak mfi rsi :
  signalStrengthLogic mfi rsi Strength.WEAK
  = negb (signalStrengthLogic mfi rsi Strength.MEDIUM)
  /\ (signalStrengthLogic mfi rsi Strength.STRONG = true ->
      signalStrengthLogic mfi rsi Strength.MEDIUM = true).
Proof.
  unfold signalStrengthLogic. cbv zeta.
  destruct (num_lt mfi 20) eqn:A1, (num_lt rsi 30) eqn:A2,
    (num_gt mfi 80) eqn:B1, (num_gt rsi 70) eqn:B2,
    (num_lt mfi 40) eqn:C1, (num_lt rsi 40) eqn:C2,
    (num_gt mfi 60) eqn:D1, (num_gt rsi 60) eqn:D2;
    cbn; try (split; [reflexivity | auto; fail]);
    exfalso;
    rewrite ?num_lt_true, ?num_lt_false, ?num_gt_true, ?num_gt_false in *; lra.
Qed.

End ValidatorMoreFacts.

(** ** Facts about the comparisons in double precision *)

Module Binary64Order.
Import Binary64.

Local Open Scope float_scope.




End Binary64Order.

(** ** Properties of the stop levels in double precision *)

Module RiskManager64Facts.
Import Binary64 Binary64.RiskManager Binary64Inputs.

#[local] Set Warnings "-inexact-float".
Local Open Scope float_scope.

(** The stop levels in the result of [checkTradeRisk] are those of
    [calculateStopLevels]. *)
Lemma checkTradeRisk_levels st signal P balance positions vol :
  let r := fst (checkTradeRisk st signal P balance positions vol) in
  (stopLossPrice r, takeProfitPrice r)
  = calculateStopLevels (config st) signal P vol.
Proof.
  cbv zeta. unfold checkTradeRisk. cbv zeta.
  destruct (calculateDrawdown st balance) as [currentDrawdown st'].
  destruct (calculateStopLevels (config st) signal P vol) as [sl tp].
  reflexivity.
Qed.

(** C7. When volatility-based stops are not in effect ([useVolatilityStops]
    is off, or no volatility is supplied), [checkTradeRisk] at current
    price [P] returns, for a BUY signal, the stop-loss price
    [P - P * (stopLossPercent / 100)] and the take-profit price
    [P + P * (takeProfitPercent / 100)], and for a SELL signal the mirrored
    prices [P + P * (stopLossPercent / 100)] and
    [P - P * (takeProfitPercent / 100)]: each operation is rounded to
    double precision, in this order. *)
Theorem fixed_percentage_stops_as_computed st signal P balance positions vol :
  useVolatilityStops (config st) = false \/ vol = None ->
  let r := fst (checkTradeRisk st signal P balance positions vol) in
  let S := stopLossPercent (config st) in
  let T := takeProfitPercent (config st) in
  (sig_action signal = BUY ->
     stopLossPrice r = P - P * (S / 100)
     /\ takeProfitPrice r = P + P * (T / 100))
  /\ (sig_action signal = SELL ->
        stopLossPrice r = P + P * (S / 100)
        /\ takeProfitPrice r = P - P * (T / 100)).
Proof.
  intros Hfixed r S T.
  pose proof (checkTradeRisk_levels st signal P balance positions vol) as Hlv.
  cbv zeta in Hlv. fold r in Hlv.
  assert (Hdist : calculateStopLevels (config st) signal P vol
                  = match sig_action signal with
                    | BUY => (P - P * (S / 100), P + P * (T / 100))
                    | _ => (P + P * (S / 100), P - P * (T / 100))
                    end).
  { unfold calculateStopLevels. destruct Hfixed as [Hoff | ->]; [|reflexivity].
    rewrite Hoff. destruct vol as [v|]; [|reflexivity].
    rewrite andb_false_r. reflexivity. }
  rewrite Hdist in Hlv.
  split; intros Hact; rewrite Hact in Hlv; injection Hlv as Hsl Htp; auto.
Qed.

(** With the fixture's values ([P = 50000], 2% and 4%) the prices are 49000
    and 52000, which is also what [P * (1 - 2 / 100)] and
    [P * (1 + 4 / 100)] give in double precision. *)
Lemma fixed_percentage_stops_as_computed_witness :
  let r := fst (checkTradeRisk (newRiskManager mockRiskConfig) mockSignal
                  50000 10000 [] None) in
  stopLossPrice r = 49000 /\ takeProfitPrice r = 52000
  /\ 50000 * (1 - 2 / 100) = 49000 /\ 50000 * (1 + 4 / 100) = 52000.
Proof.
  destruct (fixed_percentage_stops_as_computed (newRiskManager mockRiskConfig)
              mockSignal 50000 10000 [] None (or_intror eq_refl))
    as [Hbuy _].
  destruct (Hbuy eq_refl) as [Hsl Htp].
  cbv zeta. rewrite Hsl, Htp. repeat split; vm_compute; reflexivity.
Defined.

(** C7 as stated, refuted.  At [P = 29] with a stop-loss of 2% the returned
    stop-loss price is the double 28.42, which is neither what
    [P * (1 - 2 / 100)] gives in double precision (28.419999999999998) nor
    the rational 29 * (1 - 2 / 100).  At [P = 56593.6] with 2.5% it is not
    the double nearest to the exact product either: the next double up is
    nearer. *)
Lemma fixed_percentage_stops_not_exact :
  (let r := fst (checkTradeRisk (newRiskManager mockRiskConfig) mockSignal
                   29 10000 [] None) in
   stopLossPrice r = 28.42
   /\ 29 * (1 - 2 / 100) = 28.419999999999998
   /\ (stopLossPrice r =? 29 * (1 - 2 / 100)) = false
   /\ exists q, exact (stopLossPrice r) = Some q
                /\ ~ (q == 29 * (1 - 2 / 100))%Q)
  /\ (let P := 56593.6 in
      let r := fst (checkTradeRisk (newRiskManager tightRiskConfig) mockSignal
                      P 10000 [] None) in
      exists p q q',
        exact P = Some p /\ exact (stopLossPrice r) = Some q
        /\ exact (PrimFloat.next_up (stopLossPrice r)) = Some q'
        /\ (Qabs (q' - p * (1 - (25 # 10) / 100))
            < Qabs (q - p * (1 - (25 # 10) / 100)))%Q).
Proof.
  split.
  - cbv zeta. split; [vm_compute; reflexivity|]. split; [vm_compute; reflexivity|].
    split; [vm_compute; reflexivity|].
    eexists. split; [vm_compute; reflexivity|].
    vm_compute. discriminate.
  - cbv zeta. eexists _, _, _.
    split; [vm_compute; reflexivity|]. split; [vm_compute; reflexivity|].
    split; [vm_compute; reflexivity|]. vm_compute. reflexivity.
Qed.

End RiskManager64Facts.

(** ** Properties of the position sizes in double precision *)

Module PositionSizer64Facts.
Import Binary64 Binary64.PositionSizer Binary64Stated Binary64Order Binary64Inputs.

#[local] Set Warnings "-inexact-float".
Local Open Scope float_scope.

Section WithConfig.
Context `{JsRuntime}.
Variable config : TradingConfig.
Variable riskConfig : RiskManagementConfig.




End WithConfig.



End PositionSizer64Facts.

(** ** Properties of the validator in double precision *)

Module Validator64Facts.
Import Binary64 Binary64.Validator Binary64Stated Binary64Inputs.

#[local] Set Warnings "-inexact-float".
Local Open Scope float_scope.

Section WithSchema.
Variable Payload : Type.
Variable validate : Payload -> SchemaResult.
Variable typeError : string.

(** C9, amended.  For every schema-valid BUY payload with [mfi_value = 80]
    and [rsi_value = 85], [validateWebhookPayload] applies the MFI-RSI
    correlation penalty (0.2) and the overbought-buy penalty (0.1): both
    warnings are in the result, and the confidence is the clamped value of
    1 - 0.2, less 0.15 unless the strength is MEDIUM, less 0.1 if the price
    rule fails, less 0.05 if the timestamp rule fails, less 0.1, each
    subtraction rounded to double precision.  It is at least 0 and at most
    0.7000000000000001, the value of [1 - 0.2 - 0.1] in double precision,
    which it takes when no other rule fails. *)
Theorem overbought_buy_penalties now payload p :
  validate payload = inr (Some p) ->
  action p = BUY -> mfi_value p = 80 -> rsi_value p = 85 ->
  let r := validateWebhookPayload Payload validate typeError now payload in
  isValid r = true
  /\ "MFI-RSI Correlation check failed"%string ∈ warnings r
  /\ "Buy signal in overbought conditions"%string ∈ warnings r
  /\ confidence r = mathMax 0 (mathMin 1 (overboughtBuyConfidence p now))
  /\ num_ge (confidence r) 0 = true
  /\ num_le (confidence r) 0.7000000000000001 = true
  /\ (signal_strength p = Strength.MEDIUM ->
      priceValidation (price p) (symbol p) = true ->
      Validator.timestampValidation now (timestamp p) = true ->
      confidence r = 0.7000000000000001).
Proof.
  intros Hschema Hact Hmfi Hrsi r. subst r.
  unfold validateWebhookPayload. rewrite Hschema.
  unfold score, validationResults, overboughtBuyConfidence, timestampValidation.
  rewrite Hact, Hmfi, Hrsi.
  generalize (Validator.timestampValidation now (timestamp p)).
  generalize (priceValidation (price p) (symbol p)).
  generalize (signal_strength p).
  intros strength okPrice okTime.
  destruct strength, okPrice, okTime; vm_compute;
    (split; [reflexivity|]);
    (split; [apply list_elem_of_In; cbn; tauto|]);
    (split; [apply list_elem_of_In; cbn; tauto|]);
    (split; [reflexivity|]);
    (split; [reflexivity|]);
    (split; [reflexivity|]);
    intros; try discriminate; reflexivity.
Qed.

End WithSchema.

(** The alert of the example, with every other rule satisfied. *)
Lemma overbought_buy_penalties_witness :
  let r := validateWebhookPayload TradingViewWebhookPayload satisfiedSchema
             "Cannot read properties of undefined" 1000 overboughtBuy in
  isValid r = true
  /\ "MFI-RSI Correlation check failed"%string ∈ warnings r
  /\ "Buy signal in overbought conditions"%string ∈ warnings r
  /\ num_le (confidence r) 0.7000000000000001 = true.
Proof.
  destruct (overbought_buy_penalties TradingViewWebhookPayload satisfiedSchema
              "Cannot read properties of undefined" 1000 overboughtBuy
              overboughtBuy eq_refl eq_refl eq_refl eq_refl)
    as (Hvalid & Hcorr & Hbuy & _ & _ & Hle & _).
  cbv zeta. auto.
Defined.

(** C9 as stated, refuted.  For the BUY alert with [mfi_value = 80] and
    [rsi_value = 85] that fails no other rule, the confidence is
    [1 - 0.2 - 0.1] in double precision, which is 0.7000000000000001: it is
    not at most 0.7, neither as a double nor as a rational. *)
Lemma overbought_buy_above_0_7 :
  let r := validateWebhookPayload TradingViewWebhookPayload satisfiedSchema
             "Cannot read properties of undefined" 1000 overboughtBuy in
  isValid r = true
  /\ warnings r = ["MFI-RSI Correlation check failed";
                   "Buy signal in overbought conditions"]%string
  /\ confidence r = 1 - 0.2 - 0.1
  /\ confidence r = 0.7000000000000001
  /\ num_le (confidence r) 0.7 = false
  /\ exists q, exact (confidence r) = Some q /\ (7 # 10 < q)%Q.
Proof.
  cbv zeta. split; [reflexivity|]. split; [vm_compute; reflexivity|].
  split; [vm_compute; reflexivity|]. split; [vm_compute; reflexivity|].
  split; [vm_compute; reflexivity|].
  eexists. split; [vm_compute; reflexivity|]. vm_compute. reflexivity.
Qed.

End Validator64Facts.

(** ** Properties of the signal checks in double precision *)

Module Consistency64Facts.
Import Binary64 Binary64.Validator Binary64Stated Binary64Inputs.

#[local] Set Warnings "-inexact-float".
Local Open Scope float_scope.

Lemma averageStrength_strengths recent :
  averageStrength recent = strengthAverage (map signal_strength recent).
Proof.
  unfold averageStrength, strengthAverage. rewrite length_map. f_equal.
  generalize 0. induction recent as [|sg recent IH]; intros acc; cbn [fold_left map].
  - reflexivity.
  - apply IH.
Qed.

(** MEDIUM is within 1.5 of the average of at most five strengths. *)
Lemma medium_near_average l :
  (0 < length l <= 5)%nat ->
  num_gt (PrimFloat.abs (2 - strengthAverage l)) 1.5 = false.
Proof.
  intros [Hpos Hfive].
  destruct l as [|a [|b [|c [|d [|e [|f l]]]]]]; cbn [length] in Hpos, Hfive;
    try lia;
    repeat match goal with s : Strength.t |- _ => destruct s end;
    vm_compute; reflexivity.
Qed.

Lemma recentSignals_length currentSignal previousSignals :
  (length (recentSignals currentSignal previousSignals) <= 5)%nat.
Proof. unfold recentSignals. rewrite RiskMonitorFacts.lastN_length. lia. Qed.

(** X28. [validateSignalConsistency] never rejects a signal: the result is
    valid without errors and its confidence, in double precision, is at
    least 0.5499999999999999 (the value of [1 - 0.15 - 0.2 - 0.1]) and at
    most 1; it is 1 without warnings when no earlier signal has the same
    symbol, and a MEDIUM signal is never reported as inconsistent in
    strength. *)
Theorem consistency_only_lowers_confidence currentSignal previousSignals :
  let r := validateSignalConsistency currentSignal previousSignals in
  isValid r = true /\ errors r = []
  /\ num_ge (confidence r) 0.5499999999999999 = true
  /\ num_le (confidence r) 1 = true
  /\ (Forall (fun s => symbol s <> symbol currentSignal) previousSignals ->
      confidence r = 1 /\ warnings r = [])
  /\ (signal_strength currentSignal = Strength.MEDIUM ->
      "Signal strength inconsistent with recent signals"%string ∉ warnings r).
Proof.
  cbv zeta. unfold validateSignalConsistency.
  destruct previousSignals as [|s0 rest].
  { cbn. repeat split; auto; intros _ Hin; apply list_elem_of_In in Hin; exact Hin. }
  set (recent := recentSignals currentSignal (s0 :: rest)).
  destruct (last recent) as [lastSignal|] eqn:Hlast.
  2: { cbn. repeat split; auto; intros _ Hin; apply list_elem_of_In in Hin;
       exact Hin. }
  assert (Hne : (0 < length recent)%nat).
  { destruct recent; [discriminate Hlast | cbn; lia]. }
  cbv zeta.
  split; [reflexivity|]. split; [reflexivity|].
  split; [|split; [|split]].
  - destruct (_ && bool_decide (3 <= length recent)%nat), (_ && _ && num_lt _ _),
      (num_gt _ _); vm_compute; reflexivity.
  - destruct (_ && bool_decide (3 <= length recent)%nat), (_ && _ && num_lt _ _),
      (num_gt _ _); vm_compute; reflexivity.
  - intros Hall. exfalso.
    assert (Hin : lastSignal ∈ recent) by (apply last_Some_elem_of; exact Hlast).
    subst recent. unfold recentSignals, RiskMonitor.lastN in Hin.
    apply subseteq_drop in Hin. apply list_elem_of_In in Hin.
    apply filter_In in Hin as [Hin Heq].
    apply list_elem_of_In in Hin.
    rewrite Forall_forall in Hall. specialize (Hall _ Hin).
    apply String.eqb_eq in Heq. contradiction.
  - intros Hmed. rewrite Hmed. cbn [strengthValues].
    rewrite averageStrength_strengths.
    rewrite (medium_near_average (map signal_strength recent)).
    2: { rewrite length_map. split; [exact Hne|].
         apply recentSignals_length. }
    destruct (_ && bool_decide (3 <= length recent)%nat), (_ && _ && num_lt _ _);
      cbn [clamp penalise warnings sc_warnings app];
      rewrite list_elem_of_In; cbn [In]; intuition discriminate.
Qed.

End Consistency64Facts.

(** ** Properties of the processed signal in double precision *)

Module WebhookServer64Facts.
Import Binary64 Binary64.Validator Binary64.WebhookServer.

#[local] Set Warnings "-inexact-float".
Local Open Scope float_scope.

(** X29. The confidence that the webhook server's [processSignal] gives a
    signal, in double precision, is at least 0.3 and at most 1; it is at
    least 0.7 for a STRONG signal and at most 0.6000000000000001 (the value
    of [0.5 - 0.1 + 0.2]) for a WEAK one. *)
Theorem processed_signal_confidence payload :
  let s := processSignal payload in
  num_ge (sig_confidence s) 0.3 = true
  /\ num_le (sig_confidence s) 1 = true
  /\ (sig_strength s = Strength.STRONG -> num_ge (sig_confidence s) 0.7 = true)
  /\ (sig_strength s = Strength.WEAK ->
      num_le (sig_confidence s) 0.6000000000000001 = true).
Proof.
  cbv zeta. unfold processSignal, calculateConfidence.
  cbn [sig_confidence sig_strength]. cbv zeta.
  destruct (signal_strength payload), (_ && _ && _ || _), (_ && _ || _);
    vm_compute; repeat split; intros; try discriminate; reflexivity.
Qed.

End WebhookServer64Facts.
